(** * Job Application Assistant: a shallow embedding of [app.py]

    The script assembles a user profile and a job description into two
    prompts, sends each to a remote chat-completion endpoint, and stores
    records as JSON files.  This development embeds the data classes, the
    two formatter classes, the JSON persistence helpers, the resume text
    builder, the two generators and the file-name helper, and proves the
    properties the specification states about them.

    Conventions of the embedding.
    - A Python [str] is a [string]; a character is a code point below 256.
    - A [dict] with string keys is a [gmap string _]: equality of maps is
      Python's [==] on dicts (insertion order does not count).
    - A function that reads or writes the process state (the credential,
      the files, the console, the clock, the remote endpoint) or that can
      raise is a computation in the monad [M]: a function from a [world]
      to a result and the next world.  An exception leaves the effects
      made before it in place, as in Python.
    - The [json] library is taken at the level of documents: [json.dump]
      stores the value it is given, [json.load] returns the value a file
      parses to.  The text layer (indentation, escapes) is not modelled. *)

From Stdlib Require Import Ascii String.
From stdpp Require Import gmap strings list fin_maps pretty.

#[local] Set Warnings "-register-all".

(** ** Strings *)

(** The line feed, Python's ["\n"]. *)
Definition LF : string := String "010" EmptyString.

(** [sep.join(ls)]. *)
Fixpoint join (sep : string) (ls : list string) : string :=
  match ls with
  | [] => ""
  | [x] => x
  | x :: rest => x +:+ sep +:+ join sep rest
  end.

(** [str.isspace] on one character below 256: the ASCII blanks, the four
    separators 28..31, NEL (133) and the no-break space (160). *)
Definition is_space (c : ascii) : bool :=
  let n := nat_of_ascii c in
  ((9 <=? n) && (n <=? 13)) || ((28 <=? n) && (n <=? 32))
  || (n =? 133) || (n =? 160).

Fixpoint lstrip (s : string) : string :=
  match s with
  | EmptyString => EmptyString
  | String c rest => if is_space c then lstrip rest else s
  end.

Definition rstrip (s : string) : string :=
  String.rev (lstrip (String.rev s)).

(** [s.strip()] with no argument. *)
Definition strip (s : string) : string := rstrip (lstrip s).

(** [needle in hay], as a proposition. *)
Definition contains (needle hay : string) : Prop :=
  ∃ pre post, hay = pre +:+ needle +:+ post.

(** [hay.endswith(suffix)], as a proposition. *)
Definition ends_with (suffix hay : string) : Prop :=
  ∃ pre, hay = pre +:+ suffix.

(** [enumerate(l, start)]. *)
Fixpoint enumerate {A : Type} (start : nat) (l : list A) : list (nat * A) :=
  match l with
  | [] => []
  | x :: rest => (start, x) :: enumerate (S start) rest
  end.

(** Truthiness of a [str]: the empty string is falsy. *)
Definition str_truthy (s : string) : bool :=
  match s with
  | EmptyString => false
  | String _ _ => true
  end.

(** Truthiness of an [Optional[str]]: [None] and [""] are falsy. *)
Definition opt_truthy (o : option string) : bool :=
  match o with
  | None => false
  | Some s => str_truthy s
  end.

(** [x or default] for an [Optional[str]] and a [str] default. *)
Definition py_or (o : option string) (default : string) : string :=
  match o with
  | Some s => if str_truthy s then s else default
  | None => default
  end.

(** What an f-string prints for an [Optional[str]]: [str(None)] is the
    four letters [None]. *)
Definition format_opt (o : option string) : string :=
  match o with
  | Some s => s
  | None => "None"
  end.

(** ** Python values that JSON can carry *)

(** What [json.load] can return and what the records put into
    [json.dump]: [None], booleans, integers, strings, lists, and dicts
    with string keys. *)
Inductive pyval :=
  | PNone
  | PBool (b : bool)
  | PInt (z : Z)
  | PStr (s : string)
  | PList (l : list pyval)
  | PDict (d : gmap string pyval).

(** A dict display [{k1: v1, ..., kn: vn}] with distinct keys. *)
Definition dict_of (kvs : list (string * pyval)) : pyval :=
  PDict (list_to_map kvs).

(** ** Constants (lines 40-44) *)

Definition DEFAULT_USER_PROFILE_FILE : string := "user_profile.json".
Definition DEFAULT_JOB_DESCRIPTION_FILE : string := "job_description.json".
Definition MODEL_NAME : string := "gpt-3.5-turbo".
Definition MAX_TOKENS : Z := 1000.

(** A decimal literal [digits * 10^exponent]; [TEMPERATURE = 0.7] is only
    handed to the endpoint, never computed with. *)
Record decimal := Decimal { digits : Z; exponent : Z }.
Definition TEMPERATURE : decimal := Decimal 7 (-1).

(** ** Exceptions and results *)

(** The exceptions the embedded code can raise.  [OffSchema] is not a
    Python exception: it marks a run in which a loaded document holds a
    value of another type than the field's annotation, so that the
    record leaves the typed fragment embedded here (Python stores the
    value as it is). *)
Inductive exn :=
  | KeyError (key : string)
  | IndexError
  | AttributeError
  | FileNotFoundError (path : string)
  | JSONDecodeError
  | RemoteError (msg : string)
  | OffSchema.

Inductive result (A : Type) :=
  | Ok (a : A)
  | Raise (e : exn).
Arguments Ok {A} a.
Arguments Raise {A} e.

(** ** The remote endpoint *)

Record chat_message := ChatMessage { role : string; content : string }.

(** The keyword arguments of [openai.ChatCompletion.create]. *)
Record request := Request {
  model : string;
  messages : list chat_message;
  max_tokens : Z;
  temperature : decimal
}.

Record choice := Choice { message : chat_message }.
Record response := Response { choices : list choice }.

(** ** The clock *)

(** A naive local [datetime], as [datetime.datetime.now()] returns it. *)
Record datetime := DateTime {
  year : Z; month : Z; day : Z;
  hour : Z; minute : Z; second : Z;
  microsecond : Z
}.

(** ** Files *)

(** A file, as [json.load] sees it: a text that parses to a value, or a
    text that does not parse. *)
Inductive file :=
  | Parses (v : pyval)
  | Malformed.

(** ** The world *)

Record world := World {
  environ : gmap string string;      (* os.environ *)
  api_key : option string;           (* the module global openai.api_key *)
  fs : gmap string file;             (* the files, by path *)
  stdout : list string;              (* the lines printed so far *)
  clock : datetime;                  (* what now() returns *)
  remote : request → result response; (* the endpoint's answer to a request *)
  calls : list request               (* the requests sent so far *)
}.

Definition set_api_key (k : option string) (w : world) : world :=
  World (environ w) k (fs w) (stdout w) (clock w) (remote w) (calls w).
Definition set_fs (f : gmap string file) (w : world) : world :=
  World (environ w) (api_key w) f (stdout w) (clock w) (remote w) (calls w).
Definition set_stdout (out : list string) (w : world) : world :=
  World (environ w) (api_key w) (fs w) out (clock w) (remote w) (calls w).
Definition set_calls (cs : list request) (w : world) : world :=
  World (environ w) (api_key w) (fs w) (stdout w) (clock w) (remote w) cs.

(** ** The monad of effectful computations *)

Definition M (A : Type) : Type := world → result A * world.

#[global] Instance M_ret : MRet M := λ A a w, (Ok a, w).
#[global] Instance M_bind : MBind M := λ A B f m w,
  match m w with
  | (Ok a, w') => f a w'
  | (Raise e, w') => (Raise e, w')
  end.

Definition raise {A : Type} (e : exn) : M A := λ w, (Raise e, w).

(** A [for] loop over [l] that threads the local variable the body
    rebinds. *)
Fixpoint for_each {A S : Type} (l : list A) (body : A → S → M S) (s : S)
  : M S :=
  match l with
  | [] => mret s
  | x :: rest => s' ← body x s; for_each rest body s'
  end.

(** [d[key]] on a dict of strings. *)
Definition getitem (d : gmap string string) (key : string) : M string :=
  match d !! key with
  | Some v => mret v
  | None => raise (KeyError key)
  end.

(** [l[0]]. *)
Definition first_item {A : Type} (l : list A) : M A :=
  match l with
  | x :: _ => mret x
  | [] => raise IndexError
  end.

(** [print(line)]. *)
Definition print (line : string) : M unit :=
  λ w, (Ok tt, set_stdout (stdout w ++ [line]) w).

(** [os.path.exists(path)]. *)
Definition os_path_exists (path : string) : M bool :=
  λ w, (Ok (match fs w !! path with Some _ => true | None => false end), w).

(** [with open(path, "r") as f: data = json.load(f)]. *)
Definition json_load (path : string) : M pyval :=
  λ w, match fs w !! path with
       | Some (Parses v) => (Ok v, w)
       | Some Malformed => (Raise JSONDecodeError, w)
       | None => (Raise (FileNotFoundError path), w)
       end.

(** [with open(path, "w") as f: json.dump(v, f, indent=4)]: the file is
    created or overwritten. *)
Definition json_dump (v : pyval) (path : string) : M unit :=
  λ w, (Ok tt, set_fs (<[path := Parses v]> (fs w)) w).

(** Reading the module global [openai.api_key]. *)
Definition get_api_key : M (option string) := λ w, (Ok (api_key w), w).

(** [openai.ChatCompletion.create(...)]: the request is sent (and
    counted) whatever the endpoint answers. *)
Definition ChatCompletion_create (req : request) : M response :=
  λ w, (remote w req, set_calls (calls w ++ [req]) w).

(** [datetime.datetime.now()]. *)
Definition datetime_now : M datetime := λ w, (Ok (clock w), w).

(** Line 35, run when the module is imported:
    [openai.api_key = os.environ.get("OPENAI_API_KEY", None)]. *)
Definition module_init (w : world) : world :=
  set_api_key (environ w !! "OPENAI_API_KEY") w.

(** ** Data classes (lines 49-140) *)

(** [UserProfile], with the field types of its annotations.  An
    experience or education entry is a [Dict[str, str]]. *)
Record UserProfile := mkUserProfile {
  full_name : string;
  contact_email : string;
  phone_number : string;
  professional_summary : string;
  skills : list string;
  experiences : list (gmap string string);
  education : list (gmap string string)
}.

(** [JobDescription]; [additional_notes] is an [Optional[str]]. *)
Record JobDescription := mkJobDescription {
  company_name : string;
  position_title : string;
  responsibilities : string;
  required_skills : list string;
  job_location : string;
  job_summary : string;
  additional_notes : option string
}.

(** The constructor's default, [additional_notes = None]. *)
Definition JobDescription_init (company_name position_title responsibilities : string)
    (required_skills : list string) (job_location job_summary : string)
  : JobDescription :=
  mkJobDescription company_name position_title responsibilities
    required_skills job_location job_summary None.

(** *** From typed fields to Python values and back *)

Definition of_str_list (l : list string) : pyval := PList (PStr <$> l).
Definition of_str_dict (d : gmap string string) : pyval := PDict (PStr <$> d).
Definition of_dict_list (l : list (gmap string string)) : pyval :=
  PList (of_str_dict <$> l).
Definition of_opt_str (o : option string) : pyval :=
  match o with
  | Some s => PStr s
  | None => PNone
  end.

Definition str_of (v : pyval) : option string :=
  match v with
  | PStr s => Some s
  | _ => None
  end.

Definition str_list_of (v : pyval) : option (list string) :=
  match v with
  | PList l => mapM str_of l
  | _ => None
  end.

(** A dict whose values are all strings: the string-valued entries are
    kept, and the dict is accepted when none was dropped. *)
Definition str_dict_of (v : pyval) : option (gmap string string) :=
  match v with
  | PDict d =>
      let d' := omap str_of d in
      if size d' =? size d then Some d' else None
  | _ => None
  end.

Definition dict_list_of (v : pyval) : option (list (gmap string string)) :=
  match v with
  | PList l => mapM str_dict_of l
  | _ => None
  end.

Definition opt_str_of (v : pyval) : option (option string) :=
  match v with
  | PNone => Some None
  | PStr s => Some (Some s)
  | _ => None
  end.

(** A value handed to a field of type [A]: [OffSchema] when it has
    another type. *)
Definition typed {A : Type} (o : option A) : M A :=
  match o with
  | Some a => mret a
  | None => raise OffSchema
  end.

(** [data.get(key, default)]; a value that is not a dict has no [get]. *)
Definition dict_get (data : pyval) (key : string) (default : pyval) : M pyval :=
  match data with
  | PDict d => mret (from_option id default (d !! key))
  | _ => raise AttributeError
  end.

(** *** [UserProfile.to_dict] and [UserProfile.from_dict] *)

Definition UserProfile_to_dict (self : UserProfile) : pyval :=
  dict_of [
    ("full_name", PStr (full_name self));
    ("contact_email", PStr (contact_email self));
    ("phone_number", PStr (phone_number self));
    ("professional_summary", PStr (professional_summary self));
    ("skills", of_str_list (skills self));
    ("experiences", of_dict_list (experiences self));
    ("education", of_dict_list (education self))
  ].

Definition UserProfile_from_dict (data : pyval) : M UserProfile :=
  full_name ← dict_get data "full_name" (PStr "");
  contact_email ← dict_get data "contact_email" (PStr "");
  phone_number ← dict_get data "phone_number" (PStr "");
  professional_summary ← dict_get data "professional_summary" (PStr "");
  skills ← dict_get data "skills" (PList []);
  experiences ← dict_get data "experiences" (PList []);
  education ← dict_get data "education" (PList []);
  full_name ← typed (str_of full_name);
  contact_email ← typed (str_of contact_email);
  phone_number ← typed (str_of phone_number);
  professional_summary ← typed (str_of professional_summary);
  skills ← typed (str_list_of skills);
  experiences ← typed (dict_list_of experiences);
  education ← typed (dict_list_of education);
  mret (mkUserProfile full_name contact_email phone_number
          professional_summary skills experiences education).

(** *** [JobDescription.to_dict] and [JobDescription.from_dict] *)

Definition JobDescription_to_dict (self : JobDescription) : pyval :=
  dict_of [
    ("company_name", PStr (company_name self));
    ("position_title", PStr (position_title self));
    ("responsibilities", PStr (responsibilities self));
    ("required_skills", of_str_list (required_skills self));
    ("job_location", PStr (job_location self));
    ("job_summary", PStr (job_summary self));
    ("additional_notes", of_opt_str (additional_notes self))
  ].

Definition JobDescription_from_dict (data : pyval) : M JobDescription :=
  company_name ← dict_get data "company_name" (PStr "");
  position_title ← dict_get data "position_title" (PStr "");
  responsibilities ← dict_get data "responsibilities" (PStr "");
  required_skills ← dict_get data "required_skills" (PList []);
  job_location ← dict_get data "job_location" (PStr "");
  job_summary ← dict_get data "job_summary" (PStr "");
  additional_notes ← dict_get data "additional_notes" (PStr "");
  company_name ← typed (str_of company_name);
  position_title ← typed (str_of position_title);
  responsibilities ← typed (str_of responsibilities);
  required_skills ← typed (str_list_of required_skills);
  job_location ← typed (str_of job_location);
  job_summary ← typed (str_of job_summary);
  additional_notes ← typed (opt_str_of additional_notes);
  mret (mkJobDescription company_name position_title responsibilities
          required_skills job_location job_summary additional_notes).

(** ** The formatter classes (lines 145-223) *)

Module JakesResumeFormatter.

Definition get_format_instructions : string :=
  "Use Jake's Resume Format:" +:+ LF +:+
  "1. Header with the candidate's name in a bold or emphasized style." +:+ LF +:+
  "2. Immediately below, contact details (email and phone) on one line." +:+ LF +:+
  "3. A short 'Professional Summary' section." +:+ LF +:+
  "4. A 'Skills' section with bullet points." +:+ LF +:+
  "5. An 'Experience' section in chronological order (most recent first)." +:+ LF +:+
  "6. An 'Education' section with degrees, institutions, and graduation dates." +:+ LF +:+
  "7. Keep layout neat and minimal, using consistent headings." +:+ LF.

Definition post_process_text (llm_output : string) : string := llm_output.

End JakesResumeFormatter.

Module DedyCoverLetterFormatter.

Definition get_format_instructions : string :=
  "Use Dedy's Cover Letter Format:" +:+ LF +:+
  "1. Start with a polite salutation (e.g., 'Dear Hiring Manager at COMPANY')." +:+ LF +:+
  "2. A short introduction referencing the position title and why you're interested." +:+ LF +:+
  "3. One or two concise paragraphs connecting your key skills to the job requirements." +:+ LF +:+
  "4. A concluding paragraph that reaffirms your interest and gratitude." +:+ LF +:+
  "5. A formal sign-off (e.g., 'Sincerely,') followed by your full name." +:+ LF +:+
  "6. Maintain a professional yet friendly tone throughout." +:+ LF.

Definition post_process_text (llm_output : string) : string := llm_output.

End DedyCoverLetterFormatter.

(** ** Loading and saving (lines 229-270) *)

Definition load_user_profile (profile_file : string) : M UserProfile :=
  found ← os_path_exists profile_file;
  if negb found then
    print ("[WARNING] No profile file found at '" +:+ profile_file
           +:+ "'. Returning a blank profile.");;
    mret (mkUserProfile "" "" "" "" [] [] [])
  else
    data ← json_load profile_file;
    UserProfile_from_dict data.

Definition save_user_profile (profile : UserProfile) (profile_file : string)
  : M unit :=
  json_dump (UserProfile_to_dict profile) profile_file;;
  print ("[INFO] User profile saved to '" +:+ profile_file +:+ "'.").

Definition load_job_description (job_file : string) : M JobDescription :=
  found ← os_path_exists job_file;
  if negb found then
    print ("[WARNING] No job description file found at '" +:+ job_file
           +:+ "'. Returning a blank job description.");;
    mret (JobDescription_init "" "" "" [] "" "")
  else
    data ← json_load job_file;
    JobDescription_from_dict data.

Definition save_job_description (job_desc : JobDescription) (job_file : string)
  : M unit :=
  json_dump (JobDescription_to_dict job_desc) job_file;;
  print ("[INFO] Job description saved to '" +:+ job_file +:+ "'.").

(** ** The generators (lines 383-506) *)

(** [build_base_resume_text]: the local list [lines] grows by
    [lines.append], and is joined with line feeds at the end. *)
Definition build_base_resume_text (user : UserProfile) : M string :=
  let lines : list string := [] in
  let lines := lines ++ ["Name: " +:+ full_name user] in
  let lines := lines ++ ["Email: " +:+ contact_email user] in
  let lines := lines ++ ["Phone: " +:+ phone_number user] in
  let lines := lines ++ [LF +:+ "Professional Summary:"] in
  let lines := lines ++ [professional_summary user] in
  let lines := lines ++ [LF +:+ "Skills:"] in
  lines ← for_each (skills user) (λ skill lines,
    mret (lines ++ ["- " +:+ skill])) lines;
  let lines := lines ++ [LF +:+ "Experience:"] in
  lines ← for_each (experiences user) (λ exp lines,
    role ← getitem exp "role";
    company ← getitem exp "company";
    duration ← getitem exp "duration";
    let lines := lines ++ [role +:+ " at " +:+ company +:+ " (" +:+ duration +:+ ")"] in
    description ← getitem exp "description";
    mret (lines ++ ["  " +:+ description])) lines;
  let lines := lines ++ [LF +:+ "Education:"] in
  lines ← for_each (education user) (λ edu lines,
    degree ← getitem edu "degree";
    institution ← getitem edu "institution";
    graduation_year ← getitem edu "graduation_year";
    mret (lines ++ [degree +:+ " from " +:+ institution +:+ " - " +:+ graduation_year])) lines;
  mret (join LF lines).

(** The one request a generator sends: a single system message. *)
Definition chat_request (prompt : string) : request :=
  Request MODEL_NAME [ChatMessage "system" prompt] MAX_TOKENS TEMPERATURE.

(** The local [prompt] of [generate_tailored_resume] (lines 423-440). *)
Definition tailored_resume_prompt (jake_format_instructions base_resume_text : string)
    (job : JobDescription) : string :=
  "You are a helpful assistant that customizes resumes." +:+ LF +:+
  "Given the following base resume and job description," +:+ LF +:+
  "produce a final tailored resume that emphasizes relevant" +:+ LF +:+
  "skills and experiences. Keep length concise but effective." +:+ LF +:+ LF +:+
  jake_format_instructions +:+ LF +:+
  "Base Resume:" +:+ LF +:+
  base_resume_text +:+ LF +:+ LF +:+
  "Job Description:" +:+ LF +:+
  "Company Name: " +:+ company_name job +:+ LF +:+
  "Position Title: " +:+ position_title job +:+ LF +:+
  "Responsibilities:" +:+ LF +:+ responsibilities job +:+ LF +:+
  "Required Skills: " +:+ join ", " (required_skills job) +:+ LF +:+
  "Location: " +:+ job_location job +:+ LF +:+
  "Job Summary:" +:+ LF +:+ job_summary job +:+ LF +:+
  "Additional Notes: " +:+ py_or (additional_notes job) "N/A" +:+ LF +:+ LF +:+
  "Final Tailored Resume (following Jake's format):".

Definition RESUME_KEY_ERROR : string :=
  "[ERROR] OpenAI API key not found. Cannot generate tailored resume.".

Definition generate_tailored_resume (user : UserProfile) (job : JobDescription)
  : M string :=
  key ← get_api_key;
  if negb (opt_truthy key) then mret RESUME_KEY_ERROR
  else
    base_resume_text ← build_base_resume_text user;
    let jake_format_instructions := JakesResumeFormatter.get_format_instructions in
    let prompt := tailored_resume_prompt jake_format_instructions base_resume_text job in
    response ← ChatCompletion_create (chat_request prompt);
    first ← first_item (choices response);
    let tailored_resume := strip (content (message first)) in
    let final_resume_text := JakesResumeFormatter.post_process_text tailored_resume in
    mret final_resume_text.

(** The local [prompt] of [generate_cover_letter] before the loop
    (lines 467-477). *)
Definition cover_letter_opening (dedy_format_instructions : string)
    (user : UserProfile) : string :=
  "You are an expert at writing professional cover letters. Given the " +:+
  "user's details and the job description, write a cover letter that is " +:+
  "polite, engaging, concise, and highlights the user's relevant skills, " +:+
  "experiences, and genuine interest. Follow Dedy's cover letter format." +:+ LF +:+ LF +:+
  dedy_format_instructions +:+ LF +:+ LF +:+
  "User's Name: " +:+ full_name user +:+ LF +:+
  "Professional Summary: " +:+ professional_summary user +:+ LF +:+
  "Key Skills: " +:+ join ", " (skills user) +:+ LF +:+ LF +:+
  "User's Experiences:" +:+ LF.

(** What one turn of the loop appends (lines 480-483). *)
Definition experience_line (idx : nat) (role company duration description : string)
  : string :=
  pretty idx +:+ ". " +:+ role +:+ " at " +:+ company +:+ " " +:+
  "(" +:+ duration +:+ "): " +:+ description +:+ LF.

(** What is appended after the loop (lines 485-495). *)
Definition cover_letter_closing (job : JobDescription) : string :=
  LF +:+ "Job Description:" +:+ LF +:+
  "Company Name: " +:+ company_name job +:+ LF +:+
  "Position Title: " +:+ position_title job +:+ LF +:+
  "Responsibilities:" +:+ LF +:+ responsibilities job +:+ LF +:+
  "Required Skills: " +:+ join ", " (required_skills job) +:+ LF +:+
  "Location: " +:+ job_location job +:+ LF +:+
  "Job Summary:" +:+ LF +:+ job_summary job +:+ LF +:+
  "Additional Notes: " +:+ format_opt (additional_notes job) +:+ LF +:+ LF +:+
  "Now write the cover letter following Dedy's format.".

Definition COVER_KEY_ERROR : string :=
  "[ERROR] OpenAI API key not found. Cannot generate cover letter.".

Definition generate_cover_letter (user : UserProfile) (job : JobDescription)
  : M string :=
  key ← get_api_key;
  if negb (opt_truthy key) then mret COVER_KEY_ERROR
  else
    let dedy_format_instructions := DedyCoverLetterFormatter.get_format_instructions in
    let prompt := cover_letter_opening dedy_format_instructions user in
    prompt ← for_each (enumerate 1 (experiences user)) (λ '(idx, exp) prompt,
      role ← getitem exp "role";
      company ← getitem exp "company";
      duration ← getitem exp "duration";
      description ← getitem exp "description";
      mret (prompt +:+ experience_line idx role company duration description)) prompt;
    let prompt := prompt +:+ cover_letter_closing job in
    response ← ChatCompletion_create (chat_request prompt);
    first ← first_item (choices response);
    let cover_letter := strip (content (message first)) in
    let final_cover_letter := DedyCoverLetterFormatter.post_process_text cover_letter in
    mret final_cover_letter.

(** ** Output file names (lines 520-530) *)

(** The decimal digit [d], for [0 <= d < 10]. *)
Definition digit (d : Z) : ascii := ascii_of_N (Z.to_N (48 + d)).

(** A field printed on two digits ([%m], [%d], [%H], [%M], [%S]); the
    field is below 100 in every [datetime]. *)
Definition pad2 (n : Z) : string :=
  String (digit (n / 10)) (String (digit (n mod 10)) EmptyString).

(** [%Y]: the year on four digits.  A [datetime]'s year is at most 9999,
    and from 1000 on every platform prints the four digits. *)
Definition pad4 (n : Z) : string :=
  String (digit (n / 1000)) (String (digit (n / 100 mod 10))
    (String (digit (n / 10 mod 10)) (String (digit (n mod 10)) EmptyString))).

(** [t.strftime("%Y%m%d_%H%M%S")]. *)
Definition strftime_Ymd_HMS (t : datetime) : string :=
  pad4 (year t) +:+ pad2 (month t) +:+ pad2 (day t) +:+ "_" +:+
  pad2 (hour t) +:+ pad2 (minute t) +:+ pad2 (second t).



(** The default of the parameter [base_name]. *)
Definition DEFAULT_BASE_NAME : string := "application".

Definition create_output_filenames (base_name : string) : M (gmap string string) :=
  now ← datetime_now;
  let timestamp := strftime_Ymd_HMS now in
  let resume_filename := base_name +:+ "_resume_" +:+ timestamp +:+ ".txt" in
  let cover_letter_filename := base_name +:+ "_cover_letter_" +:+ timestamp +:+ ".txt" in
  mret (list_to_map [("resume", resume_filename);
                     ("cover_letter", cover_letter_filename)]).

(** ** Predicates used by the statements *)

(** A computation that neither reads nor writes the world: one result,
    whatever the world, and the world handed back as it was. *)
Definition state_free {A : Type} (m : M A) : Prop :=
  ∃ r, ∀ w, m w = (r, w).

Definition has_key (d : gmap string string) (key : string) : bool :=
  match d !! key with
  | Some _ => true
  | None => false
  end.

(** The keys [build_base_resume_text] reads, in the order it reads them. *)
Definition EXPERIENCE_KEYS : list string :=
  ["role"; "company"; "duration"; "description"].
Definition EDUCATION_KEYS : list string :=
  ["degree"; "institution"; "graduation_year"].

Definition has_keys (keys : list string) (d : gmap string string) : bool :=
  forallb (has_key d) keys.

(** Every experience and every education entry has the keys read. *)
Definition well_keyed (user : UserProfile) : bool :=
  forallb (has_keys EXPERIENCE_KEYS) (experiences user)
  && forallb (has_keys EDUCATION_KEYS) (education user).

(** The exception raised for a key of [keys] that an entry lacks. *)
Definition missing_key (keys : list string) (e : exn) : Prop :=
  ∃ key, key ∈ keys ∧ e = KeyError key.

(** An experience entry with the four values the generators read. *)
Definition is_experience (exp : gmap string string)
    (role company duration description : string) : Prop :=
  exp !! "role" = Some role ∧ exp !! "company" = Some company ∧
  exp !! "duration" = Some duration ∧ exp !! "description" = Some description.

(** The lines the loop of [generate_cover_letter] appends for entries
    numbered from [start], each with the four keys; [!!!] reads a key
    that is there. *)
Fixpoint rendered_experiences (start : nat) (l : list (gmap string string))
  : string :=
  match l with
  | [] => ""
  | exp :: rest =>
      experience_line start (exp !!! "role") (exp !!! "company")
        (exp !!! "duration") (exp !!! "description")
      +:+ rendered_experiences (S start) rest
  end.

(** The prompt [generate_cover_letter] sends for a profile whose
    experience entries have the four keys. *)
Definition cover_letter_prompt (user : UserProfile) (job : JobDescription)
  : string :=
  cover_letter_opening DedyCoverLetterFormatter.get_format_instructions user
  +:+ rendered_experiences 1 (experiences user)
  +:+ cover_letter_closing job.

(** Every field of a profile is the empty string or the empty list. *)
Definition UserProfile_all_empty (p : UserProfile) : Prop :=
  full_name p = "" ∧ contact_email p = "" ∧ phone_number p = "" ∧
  professional_summary p = "" ∧ skills p = [] ∧ experiences p = [] ∧
  education p = [].

(** The six fields of a job description that the blank record fills. *)
Definition JobDescription_given_empty (j : JobDescription) : Prop :=
  company_name j = "" ∧ position_title j = "" ∧ responsibilities j = "" ∧
  required_skills j = [] ∧ job_location j = "" ∧ job_summary j = "".

(** Every field of a job description is the empty string or the empty
    list: [additional_notes] too is a string, and it is empty. *)
Definition JobDescription_all_empty (j : JobDescription) : Prop :=
  JobDescription_given_empty j ∧ additional_notes j = Some "".

(** ** Sample data *)

Definition sample_time : datetime := DateTime 2024 3 9 14 5 7 250000.

Definition sample_response : response :=
  Response [Choice (ChatMessage "assistant" (" Dear Hiring Manager," +:+ LF))].

(** A world with no credential, no file and nothing printed or sent. *)
Definition sample_world : world :=
  World ∅ None ∅ [] sample_time (λ _, Ok sample_response) [].

Definition sample_experience_1 : gmap string string :=
  list_to_map [("company", "Initech"); ("role", "Engineer");
               ("duration", "2019-2021"); ("description", "Built reports")].
Definition sample_experience_2 : gmap string string :=
  list_to_map [("company", "Globex"); ("role", "Lead");
               ("duration", "2021-2024"); ("description", "Ran a team")].
Definition sample_education : gmap string string :=
  list_to_map [("institution", "MIT"); ("degree", "BSc");
               ("graduation_year", "2018")].

Definition sample_user : UserProfile :=
  mkUserProfile "Ada Park" "ada@example.org" "555-0100" "Engineer."
    ["Python"; "SQL"] [sample_experience_1; sample_experience_2]
    [sample_education].

Definition sample_job : JobDescription :=
  mkJobDescription "Hooli" "Staff Engineer" "Ship things"
    ["Python"; "Go"; "SQL"] "Remote" "A senior role" None.

(** An experience entry without its role, as a profile file written by
    hand may hold it. *)
Definition experience_without_role : gmap string string :=
  list_to_map [("company", "Initech"); ("duration", "2019-2021");
               ("description", "Built reports")].

Definition user_without_role : UserProfile :=
  mkUserProfile "Ada Park" "ada@example.org" "555-0100" "Engineer."
    ["Python"] [experience_without_role] [].

(** The world right after import when [OPENAI_API_KEY] is set to the
    empty string. *)
Definition sample_world_empty_key : world :=
  module_init (World {["OPENAI_API_KEY" := ""]} None ∅ [] sample_time
                 (λ _, Ok sample_response) []).

(** The sample world with a credential configured. *)
Definition sample_world_with_key : world :=
  set_api_key (Some "sk-sample") sample_world.


(** ** Further predicates and sample data *)

(** The keys [UserProfile.from_dict] and [JobDescription.from_dict]
    read. *)
Definition PROFILE_KEYS : list string :=
  ["full_name"; "contact_email"; "phone_number"; "professional_summary";
   "skills"; "experiences"; "education"].
Definition JOB_KEYS : list string :=
  ["company_name"; "position_title"; "responsibilities"; "required_skills";
   "job_location"; "job_summary"; "additional_notes"].

(** A value that is a dict. *)
Definition is_dict (v : pyval) : bool :=
  match v with
  | PDict _ => true
  | _ => false
  end.

(** A world with three files: the empty object, a JSON list, and a text
    that is not JSON. *)
Definition sample_world_with_files : world :=
  set_fs (list_to_map [("empty.json", Parses (PDict ∅));
                       ("list.json", Parses (PList [PStr "x"]));
                       ("broken.json", Malformed)]) sample_world.

(** The string starts, or ends, with a character [str.strip] removes. *)
Definition starts_with_space (s : string) : bool :=
  match s with
  | String c _ => is_space c
  | EmptyString => false
  end.
Definition ends_with_space (s : string) : bool :=
  starts_with_space (String.rev s).

(** A profile whose one education entry has no degree. *)
Definition education_without_degree : gmap string string :=
  list_to_map [("institution", "MIT"); ("graduation_year", "2018")].
Definition user_without_degree : UserProfile :=
  mkUserProfile "Ada Park" "ada@example.org" "555-0100" "Engineer."
    ["Python"] [sample_experience_1] [education_without_degree].

(** The sample world with a credential and an endpoint that fails, or
    that answers with no choice. *)
Definition sample_world_down : world :=
  World ∅ (Some "sk-sample") ∅ [] sample_time
    (λ _, Raise (RemoteError "timeout")) [].
Definition sample_world_no_choice : world :=
  World ∅ (Some "sk-sample") ∅ [] sample_time (λ _, Ok (Response [])) [].

(** The base resume text of the sample profile. *)
Definition sample_base_text : string :=
  Eval vm_compute in
    match (build_base_resume_text sample_user sample_world).1 with
    | Ok text => text
    | Raise _ => ""
    end.


(** The lines [build_base_resume_text] appends for one experience entry
    and for one education entry that have their keys. *)
Definition experience_resume_lines (exp : gmap string string) : list string :=
  [(exp !!! "role") +:+ " at " +:+ (exp !!! "company") +:+ " (" +:+
   (exp !!! "duration") +:+ ")";
   "  " +:+ (exp !!! "description")].
Definition education_resume_line (edu : gmap string string) : string :=
  (edu !!! "degree") +:+ " from " +:+ (edu !!! "institution") +:+ " - " +:+
  (edu !!! "graduation_year").

(** The list [lines] of [build_base_resume_text] at its last statement,
    for a profile whose entries have their keys. *)
Definition base_resume_lines (user : UserProfile) : list string :=
  ["Name: " +:+ full_name user;
   "Email: " +:+ contact_email user;
   "Phone: " +:+ phone_number user;
   LF +:+ "Professional Summary:";
   professional_summary user;
   LF +:+ "Skills:"]
  ++ ((λ skill, "- " +:+ skill) <$> skills user)
  ++ [LF +:+ "Experience:"]
  ++ (experiences user ≫= experience_resume_lines)
  ++ [LF +:+ "Education:"]
  ++ (education_resume_line <$> education user).

(** ** More of [str] *)

(** [c.lower()] for a code point below 256: the letters A-Z and the
    capital letters of Latin-1 (192-214 and 216-222) move up by 32. *)
Definition lower_char (c : ascii) : ascii :=
  let n := nat_of_ascii c in
  if ((65 <=? n) && (n <=? 90)) || ((192 <=? n) && (n <=? 214))
     || ((216 <=? n) && (n <=? 222))
  then ascii_of_nat (n + 32) else c.

(** [s.lower()]. *)
Fixpoint lower (s : string) : string :=
  match s with
  | EmptyString => EmptyString
  | String c rest => String (lower_char c) (lower rest)
  end.

(** [s.split(sep)] for a separator of one character: one piece more
    than there are separators, empty pieces included. *)
Fixpoint split_on (sep : ascii) (s : string) : list string :=
  match s with
  | EmptyString => [EmptyString]
  | String c rest =>
      if Ascii.eqb c sep then EmptyString :: split_on sep rest
      else match split_on sep rest with
           | piece :: pieces => String c piece :: pieces
           | [] => [String c EmptyString]
           end
  end.

(** The comprehension of lines 290 and 355:
    [[skill.strip() for skill in raw_skills.split(",") if skill.strip()]]. *)
Definition parse_skills (raw_skills : string) : list string :=
  strip <$> filter (λ skill, str_truthy (strip skill) = true)
              (split_on "," raw_skills).

(** The string holds the character. *)
Fixpoint has_char (c : ascii) (s : string) : bool :=
  match s with
  | EmptyString => false
  | String x rest => Ascii.eqb x c || has_char c rest
  end.

(** A skill as [parse_skills] returns them: not empty, no blank at
    either end, no comma. *)
Definition clean_skill (s : string) : bool :=
  str_truthy s && negb (starts_with_space s) && negb (ends_with_space s)
  && negb (has_char "," s).

(** ** The terminal *)

(** What the interactive functions add to the world: the lines still to
    be typed, the prompts [input] has shown, the documents
    [save_document_to_file] has written, in order, and what [json.load]
    would make of a text (a written document is a file like the
    others). *)
Record terminal := Terminal {
  world_of : world;
  stdin : list string;
  prompts : list string;
  written : list (string * string);
  json_of_text : string → file
}.

Definition set_world (w : world) (t : terminal) : terminal :=
  Terminal w (stdin t) (prompts t) (written t) (json_of_text t).

(** The exceptions of the interactive functions: those of the world,
    and [EOFError] from [input].  [OutOfSteps] is not a Python
    exception: it marks a [while True] loop stopped by the bound the
    embedding puts on its turns (one more than the lines left to type;
    every turn of the loops below reads a line first, so the bound is
    never reached). *)
Inductive terminal_exn :=
  | Raised (e : exn)
  | EOFError
  | OutOfSteps.

Inductive outcome (A : Type) :=
  | Done (a : A)
  | Failed (e : terminal_exn).
Arguments Done {A} a.
Arguments Failed {A} e.

Definition IO (A : Type) : Type := terminal → outcome A * terminal.

#[global] Instance IO_ret : MRet IO := λ A a t, (Done a, t).
#[global] Instance IO_bind : MBind IO := λ A B f m t,
  match m t with
  | (Done a, t') => f a t'
  | (Failed e, t') => (Failed e, t')
  end.

#[global] Instance IO_fmap : FMap IO := λ A B f m t,
  match m t with
  | (Done a, t') => (Done (f a), t')
  | (Failed e, t') => (Failed e, t')
  end.

Definition fail {A : Type} (e : terminal_exn) : IO A := λ t, (Failed e, t).

(** A computation on the world, run at the terminal. *)
Definition lift {A : Type} (m : M A) : IO A :=
  λ t, match m (world_of t) with
       | (Ok a, w') => (Done a, set_world w' t)
       | (Raise e, w') => (Failed (Raised e), set_world w' t)
       end.

(** [input(prompt)]: the prompt is shown, then a line is read; at the
    end of the input [EOFError] is raised. *)
Definition input (prompt : string) : IO string :=
  λ t, let t' := Terminal (world_of t) (stdin t) (prompts t ++ [prompt])
                   (written t) (json_of_text t) in
       match stdin t with
       | line :: rest =>
           (Done line, Terminal (world_of t) rest (prompts t ++ [prompt])
                         (written t) (json_of_text t))
       | [] => (Failed EOFError, t')
       end.

(** [input()] with no prompt. *)
Definition input_line : IO string :=
  λ t, match stdin t with
       | line :: rest =>
           (Done line, Terminal (world_of t) rest (prompts t) (written t)
                         (json_of_text t))
       | [] => (Failed EOFError, t)
       end.

(** What one turn of a [while True] loop tells the loop. *)
Inductive turn (S : Type) :=
  | Again (s : S)
  | Break (s : S).
Arguments Again {S} s.
Arguments Break {S} s.

Fixpoint while_steps {S : Type} (steps : nat) (body : S → IO (turn S)) (s : S)
  : IO S :=
  match steps with
  | 0 => fail OutOfSteps
  | S steps' =>
      r ← body s;
      match r with
      | Again s' => while_steps steps' body s'
      | Break s' => mret s'
      end
  end.

(** [while True: body], for a body that reads a line on every turn. *)
Definition while_True {S : Type} (body : S → IO (turn S)) (s : S) : IO S :=
  λ t, while_steps (Datatypes.S (length (stdin t))) body s t.

(** ** Interactive gathering (lines 276-378) *)

Definition gather_user_profile_input : IO UserProfile :=
  lift (print (LF +:+ "=== Gather User Profile Information ==="));;
  full_name ← strip <$> input "Full Name: ";
  contact_email ← strip <$> input "Contact Email: ";
  phone_number ← strip <$> input "Phone Number: ";
  lift (print (LF +:+ "Professional Summary (one or two sentences):"));;
  professional_summary ← strip <$> input "> ";
  lift (print (LF +:+ "List some key skills separated by commas (e.g. Python, Data Analysis, Leadership):"));;
  raw_skills ← strip <$> input "> ";
  let skills_list := parse_skills raw_skills in
  experiences ← while_True (λ experiences : list (gmap string string),
    lift (print (LF +:+ "Add a work experience? (y/n)"));;
    choice ← (λ line, strip (lower line)) <$> input "> ";
    if negb (String.eqb choice "y") then mret (Break experiences)
    else
      company ← strip <$> input "Company Name: ";
      role ← strip <$> input "Role/Position: ";
      duration ← strip <$> input "Duration (e.g., 2019-2021): ";
      description ← strip <$> input "Brief Description of Responsibilities: ";
      mret (Again (experiences ++ [list_to_map [
        ("company", company); ("role", role); ("duration", duration);
        ("description", description)]]))) [];
  education ← while_True (λ education : list (gmap string string),
    lift (print (LF +:+ "Add an education entry? (y/n)"));;
    choice ← (λ line, strip (lower line)) <$> input "> ";
    if negb (String.eqb choice "y") then mret (Break education)
    else
      institution ← strip <$> input "Institution Name: ";
      degree ← strip <$> input "Degree (e.g. BSc in Computer Science): ";
      grad_year ← strip <$> input "Graduation Year: ";
      mret (Again (education ++ [list_to_map [
        ("institution", institution); ("degree", degree);
        ("graduation_year", grad_year)]]))) [];
  mret (mkUserProfile full_name contact_email phone_number
          professional_summary skills_list experiences education).

(** The loop of lines 345-351 and 360-366: lines are read up to the
    first one that is blank. *)
Definition read_paragraph : IO (list string) :=
  while_True (λ lines : list string,
    line ← input_line;
    if negb (str_truthy (strip line)) then mret (Break lines)
    else mret (Again (lines ++ [line]))) [].

Definition gather_job_description_input : IO JobDescription :=
  lift (print (LF +:+ "=== Gather Job Description ==="));;
  company_name ← strip <$> input "Company Name: ";
  position_title ← strip <$> input "Position Title: ";
  lift (print (LF +:+ "Provide responsibilities or summary for this role (multi-line; end with blank line):"));;
  lines ← read_paragraph;
  let responsibilities := join LF lines in
  lift (print (LF +:+ "List required skills separated by commas (e.g. React, Node.js, Team Management):"));;
  raw_skills ← strip <$> input "> ";
  let required_skills_list := parse_skills raw_skills in
  job_location ← strip <$> input "Job Location: ";
  lift (print (LF +:+ "Provide a quick job summary or desired qualifications (multi-line; end with blank line):"));;
  lines ← read_paragraph;
  let job_summary := join LF lines in
  additional_notes ← strip <$> input (LF +:+ "Any additional notes about the position or application process? ");
  mret (mkJobDescription company_name position_title responsibilities
          required_skills_list job_location job_summary (Some additional_notes)).

(** ** Saving a document and the main flow (lines 511-517, 535-587) *)

(** [with open(path, "w") as f: f.write(text)]: the file is created or
    overwritten, and the write is recorded. *)
Definition write_text (path text : string) : IO unit :=
  λ t, (Done tt,
        Terminal (set_fs (<[path := json_of_text t text]> (fs (world_of t)))
                    (world_of t))
          (stdin t) (prompts t) (written t ++ [(path, text)])
          (json_of_text t)).

Definition save_document_to_file (document_content output_filename : string)
  : IO unit :=
  write_text output_filename document_content;;
  lift (print ("[INFO] Document saved to '" +:+ output_filename +:+ "'.")).

Definition main : IO unit :=
  lift (print (LF +:+ "============================================="));;
  lift (print "       Welcome to the Job Application Assistant");;
  lift (print ("=============================================" +:+ LF));;
  lift (print "Do you want to (l)oad an existing user profile or (c)reate a new one?");;
  choice_profile ← (λ line, lower (strip line)) <$> input "> ";
  user_profile ←
    (if String.eqb choice_profile "l" then
       lift (print (LF +:+ "[INFO] Loading user profile from '"
                    +:+ DEFAULT_USER_PROFILE_FILE +:+ "'..."));;
       lift (load_user_profile DEFAULT_USER_PROFILE_FILE)
     else
       user_profile ← gather_user_profile_input;
       lift (save_user_profile user_profile DEFAULT_USER_PROFILE_FILE);;
       mret user_profile);
  lift (print (LF +:+ "Do you want to (l)oad a job description or (c)reate a new one?"));;
  choice_job ← (λ line, lower (strip line)) <$> input "> ";
  job_desc ←
    (if String.eqb choice_job "l" then
       lift (print (LF +:+ "[INFO] Loading job description from '"
                    +:+ DEFAULT_JOB_DESCRIPTION_FILE +:+ "'..."));;
       lift (load_job_description DEFAULT_JOB_DESCRIPTION_FILE)
     else
       job_desc ← gather_job_description_input;
       lift (save_job_description job_desc DEFAULT_JOB_DESCRIPTION_FILE);;
       mret job_desc);
  lift (print (LF +:+ "[INFO] Generating a tailored resume in Jake's format using OpenAI LLM..."));;
  tailored_resume ← lift (generate_tailored_resume user_profile job_desc);
  lift (print (LF +:+ "[INFO] Generating the cover letter in Dedy's format using OpenAI LLM..."));;
  cover_letter ← lift (generate_cover_letter user_profile job_desc);
  filenames ← lift (create_output_filenames "job_app");
  resume_name ← lift (getitem filenames "resume");
  save_document_to_file tailored_resume resume_name;;
  cover_name ← lift (getitem filenames "cover_letter");
  save_document_to_file cover_letter cover_name;;
  lift (print (LF +:+ "[SUCCESS] Your tailored resume and cover letter have been generated and saved."));;
  resume_name ← lift (getitem filenames "resume");
  lift (print ("Resume: " +:+ resume_name));;
  cover_name ← lift (getitem filenames "cover_letter");
  lift (print ("Cover Letter: " +:+ cover_name)).

(** A terminal on a world, with lines to type, nothing shown or written
    yet, and a reader that takes no text for JSON. *)
Definition terminal_on (w : world) (lines : list string) : terminal :=
  Terminal w lines [] [] (λ _, Malformed).

(** What is typed to create the sample profile and the sample job. *)
Definition sample_profile_script : list string :=
  ["  Ada Park "; "ada@example.org"; "555-0100"; "Engineer.";
   "Python, SQL ,, "; " Y "; "Initech"; "Engineer"; "2019-2021";
   "Built reports"; "n"; "y"; "MIT"; "BSc"; "2018"; ""].
Definition sample_job_script : list string :=
  ["Hooli"; "Staff Engineer"; "Ship things"; "Own the roadmap"; "  ";
   "Python, Go, SQL"; "Remote"; "A senior role"; ""; ""].

(** ** Specifications at the terminal *)

(** From [t] to [t'] nothing moved but the files, the console and the
    documents written: the credential, the clock, the endpoint, the
    requests sent and the reader of JSON texts are the same. *)
Definition offline (t t' : terminal) : Prop :=
  api_key (world_of t') = api_key (world_of t) ∧
  calls (world_of t') = calls (world_of t) ∧
  clock (world_of t') = clock (world_of t) ∧
  remote (world_of t') = remote (world_of t) ∧
  environ (world_of t') = environ (world_of t) ∧
  json_of_text t' = json_of_text t.

(** From [t] to [t'] nothing moved but the console: [offline], and the
    files and the documents written are the same too. *)
Definition console_only (t t' : terminal) : Prop :=
  offline t t' ∧ fs (world_of t') = fs (world_of t) ∧ written t' = written t.

(** [Q] holds of the outcome and the terminal [m] ends in, from [t]. *)
Definition wp {A : Type} (m : IO A) (Q : outcome A → terminal → Prop)
    (t : terminal) : Prop :=
  Q (m t).1 (m t).2.

(** [m] touches the console only, never puts a line back, fails with
    [EOFError] if at all, and returns values that satisfy [P]. *)
Definition console_spec {A : Type} (m : IO A) (P : A → Prop) : Prop :=
  ∀ t, console_only t (m t).2 ∧
       length (stdin (m t).2) ≤ length (stdin t) ∧
       match (m t).1 with
       | Done a => P a
       | Failed e => e = EOFError
       end.

(** [m] reads at least one line whenever it returns. *)
Definition consumes {A : Type} (m : IO A) : Prop :=
  ∀ t a t', m t = (Done a, t') → length (stdin t') < length (stdin t).

(** What a turn of a loop leaves in the loop's variable. *)
Definition turn_state {S : Type} (r : turn S) : S :=
  match r with
  | Again s => s
  | Break s => s
  end.

(** A profile as [gather_user_profile_input] builds them. *)
Definition gathered_profile (p : UserProfile) : Prop :=
  well_keyed p = true ∧
  Forall (λ skill, clean_skill skill = true) (skills p) ∧
  Forall (λ exp, dom exp = list_to_set EXPERIENCE_KEYS) (experiences p) ∧
  Forall (λ edu, dom edu = list_to_set EDUCATION_KEYS) (education p).

(** A job description as [gather_job_description_input] builds them. *)
Definition gathered_job (j : JobDescription) : Prop :=
  (∃ notes, additional_notes j = Some notes ∧ strip notes = notes) ∧
  Forall (λ skill, clean_skill skill = true) (required_skills j).

(** An entry with the keys the generators read, and no other. *)
Definition experience_entry_ok (exp : gmap string string) : Prop :=
  has_keys EXPERIENCE_KEYS exp = true ∧ dom exp = list_to_set EXPERIENCE_KEYS.
Definition education_entry_ok (edu : gmap string string) : Prop :=
  has_keys EDUCATION_KEYS edu = true ∧ dom edu = list_to_set EDUCATION_KEYS.

(** ** Scripts: what a user types *)

(** The lines typed for one experience and for one education entry, in
    the order they are asked for: the answer to "add one?", then the
    fields. *)
Record experience_answers := ExperienceAnswers {
  exp_more : string;
  ans_company : string; ans_role : string;
  ans_duration : string; ans_description : string
}.
Record education_answers := EducationAnswers {
  edu_more : string;
  ans_institution : string; ans_degree : string; ans_graduation_year : string
}.

Definition experience_script (x : experience_answers) : list string :=
  [exp_more x; ans_company x; ans_role x; ans_duration x; ans_description x].
Definition education_script (x : education_answers) : list string :=
  [edu_more x; ans_institution x; ans_degree x; ans_graduation_year x].

(** The entries the answers should give. *)
Definition experience_entry (x : experience_answers) : gmap string string :=
  list_to_map [("company", strip (ans_company x)); ("role", strip (ans_role x));
               ("duration", strip (ans_duration x));
               ("description", strip (ans_description x))].
Definition education_entry (x : education_answers) : gmap string string :=
  list_to_map [("institution", strip (ans_institution x));
               ("degree", strip (ans_degree x));
               ("graduation_year", strip (ans_graduation_year x))].

(** A line that a paragraph loop takes for the end: blank once
    stripped. *)
Definition blank_line (line : string) : bool := negb (str_truthy (strip line)).

(** An answer that the entry loops take for yes. *)
Definition says_yes (line : string) : bool := String.eqb (strip (lower line)) "y".

(** From [t] to [t'] no request was sent and no document written. *)
Definition no_output (t t' : terminal) : Prop :=
  offline t t' ∧ written t' = written t.

(** [m] sends no request and writes no document, whatever it returns. *)
Definition silent {A : Type} (m : IO A) : Prop :=
  ∀ t, no_output t (m t).2.

(** From [t] to [t'] the file at [path] is as it was, and [m] leaves
    the file at [path] as it is. *)
Definition same_file (path : string) (t t' : terminal) : Prop :=
  fs (world_of t') !! path = fs (world_of t) !! path.
Definition keeps_file {A : Type} (path : string) (m : IO A) : Prop :=
  ∀ t, same_file path t (m t).2.

(** The names [main] gives its two documents, by the clock. *)
Definition resume_document_name (t : terminal) : string :=
  "job_app" +:+ "_resume_" +:+ strftime_Ymd_HMS (clock (world_of t)) +:+ ".txt".
Definition cover_letter_document_name (t : terminal) : string :=
  "job_app" +:+ "_cover_letter_" +:+ strftime_Ymd_HMS (clock (world_of t))
  +:+ ".txt".


(** The sample world after a run that saved the sample profile and job,
    with a credential, and a terminal on it at which [l] and [l] are
    typed. *)
Definition sample_world_saved : world :=
  set_fs (list_to_map
            [(DEFAULT_USER_PROFILE_FILE, Parses (UserProfile_to_dict sample_user));
             (DEFAULT_JOB_DESCRIPTION_FILE,
              Parses (JobDescription_to_dict sample_job))])
    sample_world_with_key.
Definition sample_terminal_saved : terminal :=
  terminal_on sample_world_saved ["l"; "l"; "left over"].

(** The same files and credential with the endpoint down. *)
Definition sample_world_saved_down : world :=
  set_fs (fs sample_world_saved) sample_world_down.
Definition sample_terminal_down : terminal :=
  terminal_on sample_world_saved_down ["l"; "l"].

(** A first run: the sample profile is typed, the job description is
    loaded from a file that does not exist, no credential. *)
Definition sample_terminal_create : terminal :=
  terminal_on sample_world ("c" :: sample_profile_script ++ ["l"]).

(** A run that loads the profile and has the sample job typed. *)
Definition sample_terminal_create_job : terminal :=
  terminal_on sample_world ("l" :: "C" :: sample_job_script).

(** * Properties *)

(** ** Strings and the monad *)

Lemma string_app_assoc (a b c : string) : (a +:+ b) +:+ c = a +:+ b +:+ c.
Proof.
  induction a as [|x a IH]; [done|].
  cbv [String.append] in *. fold String.append in *. by rewrite IH.
Qed.

Lemma string_app_nil_r (a : string) : a +:+ "" = a.
Proof.
  induction a as [|x a IH]; [done|].
  cbv [String.append] in *. fold String.append in *. by rewrite IH.
Qed.

Lemma contains_app_r (needle pre hay : string) :
  contains needle hay → contains needle (pre +:+ hay).
Proof.
  intros (a & b & ->). exists (pre +:+ a), b. by rewrite string_app_assoc.
Qed.

Lemma ends_with_app_r (suffix pre hay : string) :
  ends_with suffix hay → ends_with suffix (pre +:+ hay).
Proof.
  intros (a & ->). exists (pre +:+ a). by rewrite string_app_assoc.
Qed.

Lemma ends_with_refl (s : string) : ends_with s s.
Proof. by exists "". Qed.

Lemma ends_with_contains (suffix hay : string) :
  ends_with suffix hay → contains suffix hay.
Proof.
  intros (a & ->). exists a, "". by rewrite string_app_nil_r.
Qed.

Lemma run_bind {A B : Type} (m : M A) (f : A → M B) (w : world) :
  (m ≫= f) w =
  match m w with
  | (Ok a, w') => f a w'
  | (Raise e, w') => (Raise e, w')
  end.
Proof. reflexivity. Qed.

Lemma run_ret {A : Type} (a : A) (w : world) : (mret a : M A) w = (Ok a, w).
Proof. reflexivity. Qed.

(** ** The post-process hooks *)

(** C8.  The post-process operation of each formatter is the identity:
    for every string [s], [JakesResumeFormatter.post_process_text(s)] and
    [DedyCoverLetterFormatter.post_process_text(s)] are [s]. *)
Theorem post_process_text_identity (s : string) :
  JakesResumeFormatter.post_process_text s = s ∧
  DedyCoverLetterFormatter.post_process_text s = s.
Proof. split; reflexivity. Qed.

(** ** The credential check *)

Lemma module_init_api_key (w : world) :
  api_key (module_init w) = environ w !! "OPENAI_API_KEY".
Proof. reflexivity. Qed.

Lemma generate_tailored_resume_falsy_key (user : UserProfile)
    (job : JobDescription) (w : world) :
  opt_truthy (api_key w) = false →
  generate_tailored_resume user job w = (Ok RESUME_KEY_ERROR, w).
Proof.
  intros Hkey. unfold generate_tailored_resume, get_api_key.
  rewrite run_bind. by rewrite Hkey.
Qed.

Lemma generate_cover_letter_falsy_key (user : UserProfile)
    (job : JobDescription) (w : world) :
  opt_truthy (api_key w) = false →
  generate_cover_letter user job w = (Ok COVER_KEY_ERROR, w).
Proof.
  intros Hkey. unfold generate_cover_letter, get_api_key.
  rewrite run_bind. by rewrite Hkey.
Qed.

(** C2.  With no credential configured ([openai.api_key] is [None]),
    each generator returns its literal error string, for every profile
    and job description, and sends no request: the world, and with it
    the list of requests sent, is handed back unchanged. *)
Theorem generators_without_credential (user : UserProfile)
    (job : JobDescription) (w : world) :
  api_key w = None →
  generate_tailored_resume user job w =
    (Ok "[ERROR] OpenAI API key not found. Cannot generate tailored resume.", w) ∧
  generate_cover_letter user job w =
    (Ok "[ERROR] OpenAI API key not found. Cannot generate cover letter.", w) ∧
  calls (generate_tailored_resume user job w).2 = calls w ∧
  calls (generate_cover_letter user job w).2 = calls w.
Proof.
  intros Hkey.
  rewrite generate_tailored_resume_falsy_key, generate_cover_letter_falsy_key
    by (by rewrite Hkey).
  done.
Qed.

(** C2 on the sample world, which has no credential. *)
Lemma generators_without_credential_witness :
  api_key sample_world = None ∧
  generate_tailored_resume sample_user sample_job sample_world =
    (Ok "[ERROR] OpenAI API key not found. Cannot generate tailored resume.",
     sample_world) ∧
  generate_cover_letter sample_user sample_job sample_world =
    (Ok "[ERROR] OpenAI API key not found. Cannot generate cover letter.",
     sample_world) ∧
  calls (generate_tailored_resume sample_user sample_job sample_world).2 = [] ∧
  calls (generate_cover_letter sample_user sample_job sample_world).2 = [].
Proof.
  split; [reflexivity|].
  apply (generators_without_credential sample_user sample_job sample_world).
  reflexivity.
Defined.

(** C10.  The check is by truthiness: when the credential is the empty
    string, each generator does what it does with no credential at all.
    It returns the same error string and sends no request, and this is
    what line 35 produces when [OPENAI_API_KEY] is set to the empty
    string. *)
Theorem generators_with_empty_credential (user : UserProfile)
    (job : JobDescription) (w : world) :
  api_key w = Some "" →
  generate_tailored_resume user job w =
    (Ok "[ERROR] OpenAI API key not found. Cannot generate tailored resume.", w) ∧
  generate_cover_letter user job w =
    (Ok "[ERROR] OpenAI API key not found. Cannot generate cover letter.", w) ∧
  (generate_tailored_resume user job w).1 =
    (generate_tailored_resume user job (set_api_key None w)).1 ∧
  (generate_cover_letter user job w).1 =
    (generate_cover_letter user job (set_api_key None w)).1 ∧
  calls (generate_tailored_resume user job w).2 = calls w ∧
  calls (generate_cover_letter user job w).2 = calls w.
Proof.
  intros Hkey.
  rewrite (generate_tailored_resume_falsy_key user job w),
    (generate_cover_letter_falsy_key user job w) by (by rewrite Hkey).
  rewrite (generate_tailored_resume_falsy_key user job (set_api_key None w)),
    (generate_cover_letter_falsy_key user job (set_api_key None w)) by done.
  done.
Qed.

(** C10 on the world that line 35 leaves when [OPENAI_API_KEY] is the
    empty string. *)
Lemma generators_with_empty_credential_witness :
  api_key sample_world_empty_key = Some "" ∧
  generate_tailored_resume sample_user sample_job sample_world_empty_key =
    (Ok "[ERROR] OpenAI API key not found. Cannot generate tailored resume.",
     sample_world_empty_key) ∧
  generate_cover_letter sample_user sample_job sample_world_empty_key =
    (Ok "[ERROR] OpenAI API key not found. Cannot generate cover letter.",
     sample_world_empty_key) ∧
  (generate_tailored_resume sample_user sample_job sample_world_empty_key).1 =
    (generate_tailored_resume sample_user sample_job
       (set_api_key None sample_world_empty_key)).1 ∧
  (generate_cover_letter sample_user sample_job sample_world_empty_key).1 =
    (generate_cover_letter sample_user sample_job
       (set_api_key None sample_world_empty_key)).1 ∧
  calls (generate_tailored_resume sample_user sample_job
           sample_world_empty_key).2 = calls sample_world_empty_key ∧
  calls (generate_cover_letter sample_user sample_job
           sample_world_empty_key).2 = calls sample_world_empty_key.
Proof.
  split; [reflexivity|].
  apply (generators_with_empty_credential sample_user sample_job
           sample_world_empty_key).
  reflexivity.
Defined.

(** ** Loading a file that does not exist *)

Lemma load_user_profile_missing (path : string) (w : world) :
  fs w !! path = None →
  load_user_profile path w =
    (Ok (mkUserProfile "" "" "" "" [] [] []),
     set_stdout (stdout w ++ ["[WARNING] No profile file found at '" +:+ path
                              +:+ "'. Returning a blank profile."]) w).
Proof.
  intros Hnone. unfold load_user_profile, os_path_exists.
  rewrite run_bind, Hnone. reflexivity.
Qed.

Lemma load_job_description_missing (path : string) (w : world) :
  fs w !! path = None →
  load_job_description path w =
    (Ok (mkJobDescription "" "" "" [] "" "" None),
     set_stdout (stdout w ++ ["[WARNING] No job description file found at '"
                              +:+ path
                              +:+ "'. Returning a blank job description."]) w).
Proof.
  intros Hnone. unfold load_job_description, os_path_exists.
  rewrite run_bind, Hnone. reflexivity.
Qed.

(** C4, as the code has it.  For every path at which no file exists,
    [load_user_profile] and [load_job_description] return a record, not
    an error.  Every field of the profile is the empty string or the
    empty list; so is every field of the job description but
    [additional_notes], which is [None]: the blank record is built with
    six arguments and the constructor's default fills the seventh. *)
Theorem load_missing_file_gives_blank_record (path : string) (w : world) :
  fs w !! path = None →
  (∃ p, (load_user_profile path w).1 = Ok p ∧ UserProfile_all_empty p) ∧
  (∃ j, (load_job_description path w).1 = Ok j ∧
        JobDescription_given_empty j ∧ additional_notes j = None).
Proof.
  intros Hnone.
  rewrite load_user_profile_missing, load_job_description_missing by done.
  split; eexists; (split; [reflexivity|]); repeat split.
Qed.

(** C4 on the sample world, which has no file. *)
Lemma load_missing_file_gives_blank_record_witness :
  fs sample_world !! DEFAULT_USER_PROFILE_FILE = None ∧
  (∃ p, (load_user_profile DEFAULT_USER_PROFILE_FILE sample_world).1 = Ok p ∧
        UserProfile_all_empty p) ∧
  (∃ j, (load_job_description DEFAULT_USER_PROFILE_FILE sample_world).1 = Ok j ∧
        JobDescription_given_empty j ∧ additional_notes j = None).
Proof.
  split; [reflexivity|].
  apply (load_missing_file_gives_blank_record DEFAULT_USER_PROFILE_FILE
           sample_world).
  reflexivity.
Defined.

(** C4, as stated, fails for the job description: at a path with no
    file the record's [additional_notes] is [None], which is neither the
    empty string nor an empty sequence. *)
Lemma load_job_description_missing_not_all_empty :
  fs sample_world !! DEFAULT_JOB_DESCRIPTION_FILE = None ∧
  ∃ j, (load_job_description DEFAULT_JOB_DESCRIPTION_FILE sample_world).1 = Ok j ∧
       additional_notes j = None ∧ ¬ JobDescription_all_empty j.
Proof.
  split; [reflexivity|].
  exists (mkJobDescription "" "" "" [] "" "" None).
  split; [reflexivity|]. split; [reflexivity|].
  intros [_ Hnotes]. discriminate Hnotes.
Qed.

(** ** Saving, then loading *)

Lemma str_list_of_of_str_list (l : list string) :
  str_list_of (of_str_list l) = Some l.
Proof. unfold str_list_of, of_str_list. by apply mapM_fmap_Some. Qed.

Lemma omap_str_of_fmap (d : gmap string string) :
  omap str_of (PStr <$> d) = d.
Proof.
  apply map_eq. intros key.
  rewrite lookup_omap, lookup_fmap. by destruct (d !! key).
Qed.

Lemma str_dict_of_of_str_dict (d : gmap string string) :
  str_dict_of (of_str_dict d) = Some d.
Proof.
  unfold str_dict_of, of_str_dict.
  rewrite omap_str_of_fmap, map_size_fmap, Nat.eqb_refl. reflexivity.
Qed.

Lemma dict_list_of_of_dict_list (l : list (gmap string string)) :
  dict_list_of (of_dict_list l) = Some l.
Proof.
  unfold dict_list_of, of_dict_list.
  apply mapM_fmap_Some, str_dict_of_of_str_dict.
Qed.

Lemma opt_str_of_of_opt_str (o : option string) :
  opt_str_of (of_opt_str o) = Some o.
Proof. by destruct o. Qed.

Lemma dict_get_lookup (d : gmap string pyval) (key : string)
    (default v : pyval) (w : world) :
  d !! key = Some v → dict_get (PDict d) key default w = (Ok v, w).
Proof. intros Hv. unfold dict_get. by rewrite Hv. Qed.

Lemma typed_Some {A : Type} (o : option A) (a : A) (w : world) :
  o = Some a → typed o w = (Ok a, w).
Proof. by intros ->. Qed.

(** One [data.get] on a dict display, and one field handed to the
    constructor. *)
Ltac run_get := rewrite run_bind; erewrite dict_get_lookup by reflexivity.
Ltac run_typed lem := rewrite run_bind; erewrite typed_Some by apply lem.

Lemma UserProfile_from_dict_to_dict (p : UserProfile) (w : world) :
  UserProfile_from_dict (UserProfile_to_dict p) w = (Ok p, w).
Proof.
  destruct p as [n e ph su sk ex ed].
  unfold UserProfile_from_dict, UserProfile_to_dict, dict_of.
  cbn [full_name contact_email phone_number professional_summary skills
       experiences education].
  do 7 run_get.
  do 4 (rewrite run_bind; erewrite typed_Some by reflexivity).
  run_typed str_list_of_of_str_list.
  do 2 run_typed dict_list_of_of_dict_list.
  reflexivity.
Qed.

Lemma JobDescription_from_dict_to_dict (j : JobDescription) (w : world) :
  JobDescription_from_dict (JobDescription_to_dict j) w = (Ok j, w).
Proof.
  destruct j as [c t r sk l su notes].
  unfold JobDescription_from_dict, JobDescription_to_dict, dict_of.
  cbn [company_name position_title responsibilities required_skills
       job_location job_summary additional_notes].
  do 7 run_get.
  do 3 (rewrite run_bind; erewrite typed_Some by reflexivity).
  run_typed str_list_of_of_str_list.
  do 2 (rewrite run_bind; erewrite typed_Some by reflexivity).
  run_typed opt_str_of_of_opt_str.
  reflexivity.
Qed.

Lemma save_user_profile_run (p : UserProfile) (path : string) (w : world) :
  save_user_profile p path w =
    (Ok tt,
     set_stdout (stdout w ++ ["[INFO] User profile saved to '" +:+ path +:+ "'."])
       (set_fs (<[path := Parses (UserProfile_to_dict p)]> (fs w)) w)).
Proof. reflexivity. Qed.

Lemma save_job_description_run (j : JobDescription) (path : string) (w : world) :
  save_job_description j path w =
    (Ok tt,
     set_stdout (stdout w ++ ["[INFO] Job description saved to '" +:+ path +:+ "'."])
       (set_fs (<[path := Parses (JobDescription_to_dict j)]> (fs w)) w)).
Proof. reflexivity. Qed.

Lemma load_user_profile_parses (path : string) (v : pyval) (w : world) :
  fs w !! path = Some (Parses v) →
  load_user_profile path w = UserProfile_from_dict v w.
Proof.
  intros Hfile. unfold load_user_profile, os_path_exists, json_load.
  rewrite run_bind, Hfile. cbn [negb]. rewrite run_bind, Hfile. reflexivity.
Qed.

Lemma load_job_description_parses (path : string) (v : pyval) (w : world) :
  fs w !! path = Some (Parses v) →
  load_job_description path w = JobDescription_from_dict v w.
Proof.
  intros Hfile. unfold load_job_description, os_path_exists, json_load.
  rewrite run_bind, Hfile. cbn [negb]. rewrite run_bind, Hfile. reflexivity.
Qed.


(** ** Computations that leave the world alone *)

Lemma state_free_ret {A : Type} (a : A) : state_free (mret a : M A).
Proof. by exists (Ok a). Qed.

Lemma state_free_raise {A : Type} (e : exn) : state_free (raise e : M A).
Proof. by exists (Raise e). Qed.

Lemma state_free_bind {A B : Type} (m : M A) (f : A → M B) :
  state_free m → (∀ a, state_free (f a)) → state_free (m ≫= f).
Proof.
  intros [[a|e] Hm] Hf.
  - destruct (Hf a) as [r Hr]. exists r. intros w.
    by rewrite run_bind, Hm, Hr.
  - exists (Raise e). intros w. by rewrite run_bind, Hm.
Qed.

Lemma state_free_getitem (d : gmap string string) (key : string) :
  state_free (getitem d key).
Proof.
  unfold getitem. destruct (d !! key);
    [apply state_free_ret | apply state_free_raise].
Qed.

Lemma state_free_for_each {A S : Type} (l : list A) (body : A → S → M S) :
  (∀ x s, state_free (body x s)) → ∀ s, state_free (for_each l body s).
Proof.
  intros Hbody. induction l as [|x l IH]; intros s; cbn [for_each].
  - apply state_free_ret.
  - apply state_free_bind; [apply Hbody | apply IH].
Qed.

Create HintDb state_free.
#[local] Hint Resolve state_free_ret state_free_raise state_free_getitem
  : state_free.
#[local] Hint Extern 2 (state_free (_ ≫= _)) =>
  apply state_free_bind; [|intros ?] : state_free.
#[local] Hint Extern 2 (state_free (for_each _ _ _)) =>
  apply state_free_for_each; intros ? ? : state_free.

Lemma build_base_resume_text_state_free (user : UserProfile) :
  state_free (build_base_resume_text user).
Proof. unfold build_base_resume_text. auto 20 with state_free. Qed.

(** C5.  [build_base_resume_text] is deterministic and pure: on the same
    profile it gives the same outcome (the same string, or the same
    exception) in any two worlds, so nothing of the credential, the
    files, the console, the clock or the endpoint reaches it, and it
    hands the world back as it found it. *)
Theorem build_base_resume_text_pure (user : UserProfile) (w1 w2 : world) :
  (build_base_resume_text user w1).1 = (build_base_resume_text user w2).1 ∧
  (build_base_resume_text user w1).2 = w1 ∧
  (build_base_resume_text user w2).2 = w2.
Proof.
  destruct (build_base_resume_text_state_free user) as [r Hr].
  by rewrite !Hr.
Qed.

(** ** When the resume text builder returns *)

(** A loop whose body returns on the entries that pass [ok] and raises
    on the others: it returns when every entry passes, and raises one of
    the body's exceptions otherwise.  In both cases the world is the
    same, as the body leaves it alone. *)
Lemma for_each_cases {A S : Type} (ok : A → bool) (bad : exn → Prop)
    (body : A → S → M S) :
  (∀ x s w, ok x = true → ∃ s', body x s w = (Ok s', w)) →
  (∀ x s w, ok x = false → ∃ e, bad e ∧ body x s w = (Raise e, w)) →
  ∀ l s w,
    (forallb ok l = true ∧ ∃ s', for_each l body s w = (Ok s', w)) ∨
    (forallb ok l = false ∧ ∃ e, bad e ∧ for_each l body s w = (Raise e, w)).
Proof.
  intros Hok Hbad. induction l as [|x l IH]; intros s w; cbn [for_each forallb].
  - left. split; [done|]. by exists s.
  - rewrite run_bind. destruct (ok x) eqn:Hx.
    + destruct (Hok x s w Hx) as [s' ->]. apply IH.
    + destruct (Hbad x s w Hx) as (e & He & ->). right. split; [done|]. eauto.
Qed.

Lemma experience_body_ok (exp : gmap string string) (lines : list string)
    (w : world) :
  has_keys EXPERIENCE_KEYS exp = true →
  ∃ lines',
    (role ← getitem exp "role";
     company ← getitem exp "company";
     duration ← getitem exp "duration";
     let lines := lines ++ [role +:+ " at " +:+ company +:+ " (" +:+ duration +:+ ")"] in
     description ← getitem exp "description";
     mret (lines ++ ["  " +:+ description])) w = (Ok lines', w).
Proof.
  unfold has_keys, EXPERIENCE_KEYS, has_key, getitem. cbn [forallb].
  destruct (exp !! "role"), (exp !! "company"), (exp !! "duration"),
    (exp !! "description"); try discriminate.
  intros _. eexists. reflexivity.
Qed.

Lemma experience_body_raises (exp : gmap string string) (lines : list string)
    (w : world) :
  has_keys EXPERIENCE_KEYS exp = false →
  ∃ e, missing_key EXPERIENCE_KEYS e ∧
    (role ← getitem exp "role";
     company ← getitem exp "company";
     duration ← getitem exp "duration";
     let lines := lines ++ [role +:+ " at " +:+ company +:+ " (" +:+ duration +:+ ")"] in
     description ← getitem exp "description";
     mret (lines ++ ["  " +:+ description])) w = (Raise e, w).
Proof.
  unfold has_keys, EXPERIENCE_KEYS, has_key, getitem, missing_key.
  cbn [forallb].
  destruct (exp !! "role"), (exp !! "company"), (exp !! "duration"),
    (exp !! "description"); try discriminate;
    intros _; eexists; (split; [eexists; split; [|reflexivity]|reflexivity]);
    set_solver.
Qed.

Lemma education_body_ok (edu : gmap string string) (lines : list string)
    (w : world) :
  has_keys EDUCATION_KEYS edu = true →
  ∃ lines',
    (degree ← getitem edu "degree";
     institution ← getitem edu "institution";
     graduation_year ← getitem edu "graduation_year";
     mret (lines ++ [degree +:+ " from " +:+ institution +:+ " - " +:+ graduation_year])) w
    = (Ok lines', w).
Proof.
  unfold has_keys, EDUCATION_KEYS, has_key, getitem. cbn [forallb].
  destruct (edu !! "degree"), (edu !! "institution"),
    (edu !! "graduation_year"); try discriminate.
  intros _. eexists. reflexivity.
Qed.

Lemma education_body_raises (edu : gmap string string) (lines : list string)
    (w : world) :
  has_keys EDUCATION_KEYS edu = false →
  ∃ e, missing_key EDUCATION_KEYS e ∧
    (degree ← getitem edu "degree";
     institution ← getitem edu "institution";
     graduation_year ← getitem edu "graduation_year";
     mret (lines ++ [degree +:+ " from " +:+ institution +:+ " - " +:+ graduation_year])) w
    = (Raise e, w).
Proof.
  unfold has_keys, EDUCATION_KEYS, has_key, getitem, missing_key.
  cbn [forallb].
  destruct (edu !! "degree"), (edu !! "institution"),
    (edu !! "graduation_year"); try discriminate;
    intros _; eexists; (split; [eexists; split; [|reflexivity]|reflexivity]);
    set_solver.
Qed.

Lemma skills_loop_returns (l : list string) (lines : list string) (w : world) :
  ∃ lines',
    for_each l (λ skill lines, mret (lines ++ ["- " +:+ skill])) lines w
    = (Ok lines', w).
Proof.
  revert lines. induction l as [|x l IH]; intros lines; cbn [for_each].
  - by exists lines.
  - rewrite run_bind, run_ret. apply IH.
Qed.

(** The two outcomes of [build_base_resume_text]. *)
Lemma build_base_resume_text_cases (user : UserProfile) (w : world) :
  (well_keyed user = true ∧
   ∃ text, build_base_resume_text user w = (Ok text, w)) ∨
  (well_keyed user = false ∧
   ∃ e, (missing_key EXPERIENCE_KEYS e ∨ missing_key EDUCATION_KEYS e) ∧
        build_base_resume_text user w = (Raise e, w)).
Proof.
  unfold build_base_resume_text, well_keyed.
  rewrite run_bind.
  match goal with
  | |- context [for_each (skills user) ?b ?s w] =>
      destruct (skills_loop_returns (skills user) s w) as [lines1 ->]
  end.
  rewrite run_bind.
  match goal with
  | |- context [for_each (experiences user) ?b ?s w] =>
      destruct (for_each_cases (has_keys EXPERIENCE_KEYS)
                  (missing_key EXPERIENCE_KEYS) b
                  (λ x acc w', experience_body_ok x acc w')
                  (λ x acc w', experience_body_raises x acc w')
                  (experiences user) s w)
        as [[-> [lines2 ->]]|[-> (e & He & ->)]]
  end; [|right; split; [done|]; eauto].
  rewrite run_bind.
  match goal with
  | |- context [for_each (education user) ?b ?s w] =>
      destruct (for_each_cases (has_keys EDUCATION_KEYS)
                  (missing_key EDUCATION_KEYS) b
                  (λ x acc w', education_body_ok x acc w')
                  (λ x acc w', education_body_raises x acc w')
                  (education user) s w)
        as [[-> [lines3 ->]]|[-> (e & He & ->)]]
  end; [|right; split; [done|]; eauto].
  left. split; [done|]. eexists. reflexivity.
Qed.

(** C9.  [build_base_resume_text] returns exactly when every experience
    entry has the keys [role], [company], [duration], [description] and
    every education entry has the keys [degree], [institution],
    [graduation_year].  Under that precondition no lookup fails; without
    it the function raises [KeyError] for one of these keys; and there is
    a profile, one experience entry without [role], on which the lookup
    fails. *)
Theorem build_base_resume_text_total_iff_well_keyed :
  (∀ user w,
     well_keyed user = true ↔
     ∃ text, (build_base_resume_text user w).1 = Ok text) ∧
  (∀ user w,
     well_keyed user = false ↔
     ∃ key, (key ∈ EXPERIENCE_KEYS ∨ key ∈ EDUCATION_KEYS) ∧
            (build_base_resume_text user w).1 = Raise (KeyError key)) ∧
  (well_keyed user_without_role = false ∧
   ∀ w, (build_base_resume_text user_without_role w).1 =
        Raise (KeyError "role")).
Proof.
  split; [|split].
  - intros user w.
    destruct (build_base_resume_text_cases user w)
      as [[Hk [text ->]]|[Hk (e & _ & ->)]]; rewrite Hk; cbn [fst].
    + split; eauto.
    + split; [done|]. by intros [? ?].
  - intros user w.
    destruct (build_base_resume_text_cases user w)
      as [[Hk [text ->]]|[Hk (e & He & ->)]]; rewrite Hk; cbn [fst].
    + split; [done|]. by intros (? & _ & ?).
    + split; [intros _|done].
      destruct He as [(key & Hin & ->)|(key & Hin & ->)]; eauto.
  - split; [reflexivity|]. intros w. reflexivity.
Qed.

(** ** The prompts the generators send *)

Lemma opt_truthy_Some (key : string) :
  key ≠ "" → opt_truthy (Some key) = true.
Proof. by destruct key. Qed.

Lemma getitem_lookup (d : gmap string string) (key v : string) (w : world) :
  d !! key = Some v → getitem d key w = (Ok v, w).
Proof. intros Hv. unfold getitem. by rewrite Hv. Qed.

Lemma has_key_lookup (d : gmap string string) (key : string) :
  has_key d key = true → d !! key = Some (d !!! key).
Proof.
  unfold has_key. rewrite lookup_total_alt.
  by destruct (d !! key).
Qed.

Lemma experience_keys_lookup (exp : gmap string string) :
  has_keys EXPERIENCE_KEYS exp = true →
  is_experience exp (exp !!! "role") (exp !!! "company")
    (exp !!! "duration") (exp !!! "description").
Proof.
  unfold has_keys, EXPERIENCE_KEYS. cbn [forallb].
  intros (? & (? & (? & (? & _)%andb_prop)%andb_prop)%andb_prop)%andb_prop.
  repeat split; by apply has_key_lookup.
Qed.

Lemma is_experience_has_keys (exp : gmap string string)
    (role company duration description : string) :
  is_experience exp role company duration description →
  has_keys EXPERIENCE_KEYS exp = true.
Proof.
  intros (Hr & Hc & Hd & Hx).
  unfold has_keys, EXPERIENCE_KEYS, has_key. cbn [forallb].
  by rewrite Hr, Hc, Hd, Hx.
Qed.

Lemma is_experience_total (exp : gmap string string)
    (role company duration description : string) :
  is_experience exp role company duration description →
  exp !!! "role" = role ∧ exp !!! "company" = company ∧
  exp !!! "duration" = duration ∧ exp !!! "description" = description.
Proof.
  intros (Hr & Hc & Hd & Hx).
  rewrite !lookup_total_alt, Hr, Hc, Hd, Hx. done.
Qed.

(** One subscript [exp[key]] on an entry that has the key. *)
Ltac run_getitem H := rewrite run_bind, (getitem_lookup _ _ _ _ H).

Lemma cover_letter_loop (l : list (gmap string string)) (start : nat)
    (prompt : string) (w : world) :
  forallb (has_keys EXPERIENCE_KEYS) l = true →
  for_each (enumerate start l) (λ '(idx, exp) prompt,
    role ← getitem exp "role";
    company ← getitem exp "company";
    duration ← getitem exp "duration";
    description ← getitem exp "description";
    mret (prompt +:+ experience_line idx role company duration description))
    prompt w
  = (Ok (prompt +:+ rendered_experiences start l), w).
Proof.
  revert start prompt.
  induction l as [|exp l IH]; intros start prompt;
    cbn [forallb enumerate for_each rendered_experiences].
  - intros _. by rewrite string_app_nil_r.
  - intros [Hexp Hl]%andb_prop.
    destruct (experience_keys_lookup exp Hexp) as (Hr & Hc & Hd & Hx).
    rewrite run_bind. cbn beta iota.
    run_getitem Hr. run_getitem Hc. run_getitem Hd. run_getitem Hx.
    rewrite run_ret, IH by done. by rewrite string_app_assoc.
Qed.

(** What [generate_cover_letter] does once the credential check passes
    and every experience entry has its keys: one request, carrying
    [cover_letter_prompt], then the first choice, stripped. *)
Lemma generate_cover_letter_run (user : UserProfile) (job : JobDescription)
    (w : world) :
  opt_truthy (api_key w) = true →
  forallb (has_keys EXPERIENCE_KEYS) (experiences user) = true →
  generate_cover_letter user job w =
    let req := chat_request (cover_letter_prompt user job) in
    let w' := set_calls (calls w ++ [req]) w in
    match remote w req with
    | Ok resp =>
        match choices resp with
        | first :: _ => (Ok (strip (content (message first))), w')
        | [] => (Raise IndexError, w')
        end
    | Raise e => (Raise e, w')
    end.
Proof.
  intros Hkey Hexps. unfold generate_cover_letter, get_api_key.
  rewrite run_bind, Hkey. cbn [negb].
  rewrite run_bind, cover_letter_loop by done.
  rewrite run_bind. unfold ChatCompletion_create, cover_letter_prompt.
  rewrite string_app_assoc. cbn zeta.
  destruct (remote w _) as [[[|first rest]]|e]; reflexivity.
Qed.

(** The same for [generate_tailored_resume], once the base text is
    built. *)
Lemma generate_tailored_resume_run (user : UserProfile) (job : JobDescription)
    (text : string) (w : world) :
  opt_truthy (api_key w) = true →
  build_base_resume_text user w = (Ok text, w) →
  generate_tailored_resume user job w =
    let req := chat_request
      (tailored_resume_prompt JakesResumeFormatter.get_format_instructions
         text job) in
    let w' := set_calls (calls w ++ [req]) w in
    match remote w req with
    | Ok resp =>
        match choices resp with
        | first :: _ => (Ok (strip (content (message first))), w')
        | [] => (Raise IndexError, w')
        end
    | Raise e => (Raise e, w')
    end.
Proof.
  intros Hkey Hbase. unfold generate_tailored_resume, get_api_key.
  rewrite run_bind, Hkey. cbn [negb].
  rewrite run_bind, Hbase.
  rewrite run_bind. unfold ChatCompletion_create. cbn zeta.
  destruct (remote w _) as [[[|first rest]]|e]; reflexivity.
Qed.

Lemma generate_cover_letter_calls (user : UserProfile) (job : JobDescription)
    (w : world) :
  opt_truthy (api_key w) = true →
  forallb (has_keys EXPERIENCE_KEYS) (experiences user) = true →
  calls (generate_cover_letter user job w).2 =
    calls w ++ [chat_request (cover_letter_prompt user job)].
Proof.
  intros Hkey Hexps. rewrite generate_cover_letter_run by done. cbn zeta.
  destruct (remote w _) as [[[|first rest]]|e]; reflexivity.
Qed.

Lemma generate_tailored_resume_calls (user : UserProfile)
    (job : JobDescription) (text : string) (w : world) :
  opt_truthy (api_key w) = true →
  build_base_resume_text user w = (Ok text, w) →
  calls (generate_tailored_resume user job w).2 =
    calls w ++ [chat_request
      (tailored_resume_prompt JakesResumeFormatter.get_format_instructions
         text job)].
Proof.
  intros Hkey Hbase.
  rewrite (generate_tailored_resume_run user job text) by done. cbn zeta.
  destruct (remote w _) as [[[|first rest]]|e]; reflexivity.
Qed.

Lemma contains_here (needle post : string) : contains needle (needle +:+ post).
Proof. by exists "", post. Qed.

Lemma contains_middle (left needle right hay : string) :
  contains (left +:+ needle +:+ right) hay → contains needle hay.
Proof.
  intros (a & b & ->). exists (a +:+ left), (right +:+ b).
  by rewrite !string_app_assoc.
Qed.

Lemma cover_letter_closing_skills (job : JobDescription) :
  contains ("Required Skills: " +:+ join ", " (required_skills job) +:+ LF)
    (cover_letter_closing job).
Proof.
  unfold cover_letter_closing.
  do 13 apply contains_app_r.
  exists "", ("Location: " +:+ job_location job +:+ LF +:+
              "Job Summary:" +:+ LF +:+ job_summary job +:+ LF +:+
              "Additional Notes: " +:+ format_opt (additional_notes job) +:+
              LF +:+ LF +:+
              "Now write the cover letter following Dedy's format.").
  by rewrite !string_app_assoc.
Qed.

(** C3.  For a profile with exactly two experiences and a job
    description with exactly three required skills, with a credential
    configured and the two entries carrying the four keys the loop
    reads, [generate_cover_letter] sends one request whose prompt is:
    the opening, which ends with the heading of the experiences; then
    exactly two enumerated lines, numbered 1 and 2, one per experience
    in order; then the closing, which starts the job block.  The prompt
    contains the three skills joined by a comma and a space. *)
Theorem cover_letter_prompt_two_experiences
    (user : UserProfile) (job : JobDescription) (w : world) (key : string)
    (e1 e2 : gmap string string)
    (role1 company1 duration1 description1 : string)
    (role2 company2 duration2 description2 : string)
    (skill1 skill2 skill3 : string) :
  api_key w = Some key → key ≠ "" →
  experiences user = [e1; e2] →
  is_experience e1 role1 company1 duration1 description1 →
  is_experience e2 role2 company2 duration2 description2 →
  required_skills job = [skill1; skill2; skill3] →
  ∃ prompt opening closing,
    calls (generate_cover_letter user job w).2 =
      calls w ++ [chat_request prompt] ∧
    prompt =
      opening +:+
      ("1. " +:+ role1 +:+ " at " +:+ company1 +:+ " (" +:+ duration1 +:+
       "): " +:+ description1 +:+ LF) +:+
      ("2. " +:+ role2 +:+ " at " +:+ company2 +:+ " (" +:+ duration2 +:+
       "): " +:+ description2 +:+ LF) +:+
      closing ∧
    opening =
      cover_letter_opening DedyCoverLetterFormatter.get_format_instructions
        user ∧
    ends_with ("User's Experiences:" +:+ LF) opening ∧
    closing = cover_letter_closing job ∧
    (∃ rest, closing = LF +:+ "Job Description:" +:+ LF +:+ rest) ∧
    contains (skill1 +:+ ", " +:+ skill2 +:+ ", " +:+ skill3) prompt ∧
    contains ("Required Skills: " +:+ skill1 +:+ ", " +:+ skill2 +:+ ", "
              +:+ skill3 +:+ LF) closing.
Proof.
  intros Hkey Hne Hexps He1 He2 Hskills.
  assert (Hlabelled :
    contains ("Required Skills: " +:+ skill1 +:+ ", " +:+ skill2 +:+ ", "
              +:+ skill3 +:+ LF) (cover_letter_closing job)).
  { pose proof (cover_letter_closing_skills job) as Hc.
    rewrite Hskills in Hc. cbn [join] in Hc.
    by rewrite !string_app_assoc in Hc. }
  eexists _, _, _. split; [|split; [reflexivity|split; [reflexivity|]]].
  - rewrite generate_cover_letter_calls.
    + unfold cover_letter_prompt. rewrite Hexps.
      cbn [rendered_experiences].
      destruct (is_experience_total _ _ _ _ _ He1) as (-> & -> & -> & ->).
      destruct (is_experience_total _ _ _ _ _ He2) as (-> & -> & -> & ->).
      rewrite string_app_nil_r. unfold experience_line.
      rewrite !string_app_assoc. reflexivity.
    + rewrite Hkey. by apply opt_truthy_Some.
    + rewrite Hexps. cbn [forallb].
      by rewrite (is_experience_has_keys _ _ _ _ _ He1),
        (is_experience_has_keys _ _ _ _ _ He2).
  - split; [|split; [reflexivity|split; [|split]]].
    + unfold cover_letter_opening.
      repeat first [apply ends_with_refl | apply ends_with_app_r].
    + unfold cover_letter_closing. eexists. reflexivity.
    + do 3 apply contains_app_r.
      apply (contains_middle "Required Skills: " _ LF).
      by rewrite !string_app_assoc.
    + done.
Qed.

Example sample_rendered_experiences :
  rendered_experiences 1 (experiences sample_user) =
    "1. Engineer at Initech (2019-2021): Built reports" +:+ LF +:+
    "2. Lead at Globex (2021-2024): Ran a team" +:+ LF.
Proof. vm_compute. reflexivity. Qed.

(** C3 on the sample profile (two experiences) and the sample job
    (three required skills). *)
Lemma cover_letter_prompt_two_experiences_witness :
  ∃ prompt opening closing,
    calls (generate_cover_letter sample_user sample_job
             sample_world_with_key).2 =
      calls sample_world_with_key ++ [chat_request prompt] ∧
    prompt =
      opening +:+
      ("1. " +:+ "Engineer" +:+ " at " +:+ "Initech" +:+ " (" +:+ "2019-2021"
       +:+ "): " +:+ "Built reports" +:+ LF) +:+
      ("2. " +:+ "Lead" +:+ " at " +:+ "Globex" +:+ " (" +:+ "2021-2024"
       +:+ "): " +:+ "Ran a team" +:+ LF) +:+
      closing ∧
    opening =
      cover_letter_opening DedyCoverLetterFormatter.get_format_instructions
        sample_user ∧
    ends_with ("User's Experiences:" +:+ LF) opening ∧
    closing = cover_letter_closing sample_job ∧
    (∃ rest, closing = LF +:+ "Job Description:" +:+ LF +:+ rest) ∧
    contains ("Python" +:+ ", " +:+ "Go" +:+ ", " +:+ "SQL") prompt ∧
    contains ("Required Skills: " +:+ "Python" +:+ ", " +:+ "Go" +:+ ", "
              +:+ "SQL" +:+ LF) closing.
Proof.
  apply (cover_letter_prompt_two_experiences sample_user sample_job
           sample_world_with_key "sk-sample"
           sample_experience_1 sample_experience_2).
  - reflexivity.
  - discriminate.
  - reflexivity.
  - repeat split; reflexivity.
  - repeat split; reflexivity.
  - reflexivity.
Defined.

(** An empty [additional_notes] is falsy: the resume prompt prints
    [N/A] for it, the cover-letter prompt prints nothing. *)
Example empty_notes_in_the_two_prompts :
  py_or (Some "") "N/A" = "N/A" ∧ format_opt (Some "") = "" ∧
  py_or None "N/A" = "N/A" ∧ format_opt None = "None" ∧
  py_or (Some "Apply by May") "N/A" = "Apply by May" ∧
  format_opt (Some "Apply by May") = "Apply by May".
Proof. repeat split. Qed.

Lemma tailored_resume_prompt_ends (instructions text : string)
    (job : JobDescription) :
  ends_with ("Additional Notes: " +:+ py_or (additional_notes job) "N/A" +:+
             LF +:+ LF +:+ "Final Tailored Resume (following Jake's format):")
    (tailored_resume_prompt instructions text job).
Proof.
  unfold tailored_resume_prompt.
  repeat first [apply ends_with_refl | apply ends_with_app_r].
Qed.

Lemma cover_letter_closing_ends (job : JobDescription) :
  ends_with ("Additional Notes: " +:+ format_opt (additional_notes job) +:+
             LF +:+ LF +:+ "Now write the cover letter following Dedy's format.")
    (cover_letter_closing job).
Proof.
  unfold cover_letter_closing.
  repeat first [apply ends_with_refl | apply ends_with_app_r].
Qed.

(** C6.  With a credential configured and a profile whose entries have
    their keys, each generator sends one request.  The prompt of
    [generate_tailored_resume] ends with the notes line holding the
    [additional_notes] value when there is one (a non-empty string) and
    the literal [N/A] otherwise ([None] or the empty string).  The
    prompt of [generate_cover_letter] ends with the notes line holding
    the value as it is: the string itself, also when it is empty, and
    the text [None] when the field is [None]; no default is applied. *)
Theorem additional_notes_in_prompts (user : UserProfile)
    (job : JobDescription) (w : world) (key : string) :
  api_key w = Some key → key ≠ "" → well_keyed user = true →
  ∃ resume_prompt cover_prompt,
    calls (generate_tailored_resume user job w).2 =
      calls w ++ [chat_request resume_prompt] ∧
    calls (generate_cover_letter user job w).2 =
      calls w ++ [chat_request cover_prompt] ∧
    (∀ notes, additional_notes job = Some notes → notes ≠ "" →
       contains notes resume_prompt ∧
       ends_with ("Additional Notes: " +:+ notes +:+ LF +:+ LF +:+
                  "Final Tailored Resume (following Jake's format):")
         resume_prompt) ∧
    (additional_notes job = None ∨ additional_notes job = Some "" →
       contains "N/A" resume_prompt ∧
       ends_with ("Additional Notes: " +:+ "N/A" +:+ LF +:+ LF +:+
                  "Final Tailored Resume (following Jake's format):")
         resume_prompt) ∧
    (∀ notes, additional_notes job = Some notes →
       contains notes cover_prompt ∧
       ends_with ("Additional Notes: " +:+ notes +:+ LF +:+ LF +:+
                  "Now write the cover letter following Dedy's format.")
         cover_prompt) ∧
    (additional_notes job = None →
       ends_with ("Additional Notes: " +:+ "None" +:+ LF +:+ LF +:+
                  "Now write the cover letter following Dedy's format.")
         cover_prompt).
Proof.
  intros Hkey Hne Hkeys.
  assert (Htruthy : opt_truthy (api_key w) = true).
  { rewrite Hkey. by apply opt_truthy_Some. }
  destruct (build_base_resume_text_cases user w)
    as [[_ [text Htext]]|[Hbad _]]; [|congruence].
  apply andb_prop in Hkeys as [Hexps _].
  exists (tailored_resume_prompt JakesResumeFormatter.get_format_instructions
            text job), (cover_letter_prompt user job).
  split; [by apply generate_tailored_resume_calls|].
  split; [by apply generate_cover_letter_calls|].
  pose proof (tailored_resume_prompt_ends
                JakesResumeFormatter.get_format_instructions text job) as Hr.
  assert (Hc : ends_with
    ("Additional Notes: " +:+ format_opt (additional_notes job) +:+
     LF +:+ LF +:+ "Now write the cover letter following Dedy's format.")
    (cover_letter_prompt user job)).
  { unfold cover_letter_prompt.
    do 2 apply ends_with_app_r. apply cover_letter_closing_ends. }
  split; [|split; [|split]].
  - intros notes Hnotes Hnotes_ne. rewrite Hnotes in Hr. cbn [py_or] in Hr.
    destruct notes; [done|]. cbn [str_truthy] in Hr.
    split; [|done].
    apply ends_with_contains in Hr.
    by apply (contains_middle "Additional Notes: ") in Hr.
  - intros Hnotes.
    assert (Hna : py_or (additional_notes job) "N/A" = "N/A")
      by (by destruct Hnotes as [-> | ->]).
    rewrite Hna in Hr. split; [|done].
    apply ends_with_contains in Hr.
    by apply (contains_middle "Additional Notes: ") in Hr.
  - intros notes Hnotes. rewrite Hnotes in Hc. cbn [format_opt] in Hc.
    split; [|done].
    apply ends_with_contains in Hc.
    by apply (contains_middle "Additional Notes: ") in Hc.
  - intros Hnotes. by rewrite Hnotes in Hc.
Qed.

(** C6 on the sample profile and job, with a credential. *)
Lemma additional_notes_in_prompts_witness :
  ∃ resume_prompt cover_prompt,
    calls (generate_tailored_resume sample_user sample_job
             sample_world_with_key).2 =
      calls sample_world_with_key ++ [chat_request resume_prompt] ∧
    calls (generate_cover_letter sample_user sample_job
             sample_world_with_key).2 =
      calls sample_world_with_key ++ [chat_request cover_prompt] ∧
    (∀ notes, additional_notes sample_job = Some notes → notes ≠ "" →
       contains notes resume_prompt ∧
       ends_with ("Additional Notes: " +:+ notes +:+ LF +:+ LF +:+
                  "Final Tailored Resume (following Jake's format):")
         resume_prompt) ∧
    (additional_notes sample_job = None ∨ additional_notes sample_job = Some "" →
       contains "N/A" resume_prompt ∧
       ends_with ("Additional Notes: " +:+ "N/A" +:+ LF +:+ LF +:+
                  "Final Tailored Resume (following Jake's format):")
         resume_prompt) ∧
    (∀ notes, additional_notes sample_job = Some notes →
       contains notes cover_prompt ∧
       ends_with ("Additional Notes: " +:+ notes +:+ LF +:+ LF +:+
                  "Now write the cover letter following Dedy's format.")
         cover_prompt) ∧
    (additional_notes sample_job = None →
       ends_with ("Additional Notes: " +:+ "None" +:+ LF +:+ LF +:+
                  "Now write the cover letter following Dedy's format.")
         cover_prompt).
Proof.
  apply (additional_notes_in_prompts sample_user sample_job
           sample_world_with_key "sk-sample").
  - reflexivity.
  - discriminate.
  - reflexivity.
Defined.

(** ** Output file names *)









Lemma create_output_filenames_run (base_name : string) (w : world) :
  create_output_filenames base_name w =
    (Ok (list_to_map
           [("resume",
             base_name +:+ "_resume_" +:+ strftime_Ymd_HMS (clock w) +:+ ".txt");
            ("cover_letter",
             base_name +:+ "_cover_letter_" +:+ strftime_Ymd_HMS (clock w)
             +:+ ".txt")]), w).
Proof. reflexivity. Qed.




Example sample_output_filenames :
  (create_output_filenames "job_app" sample_world).1 =
    Ok (list_to_map
          [("resume", "job_app_resume_20240309_140507.txt");
           ("cover_letter", "job_app_cover_letter_20240309_140507.txt")]).
Proof. vm_compute. reflexivity. Qed.


(** * Further properties of the code *)

(** ** Loading files that exist *)

Lemma dict_get_default (d : gmap string pyval) (key : string)
    (default : pyval) (w : world) :
  d !! key = None → dict_get (PDict d) key default w = (Ok default, w).
Proof. intros Hnone. unfold dict_get. by rewrite Hnone. Qed.

Lemma UserProfile_from_dict_no_keys (d : gmap string pyval) (w : world) :
  (∀ key, key ∈ PROFILE_KEYS → d !! key = None) →
  UserProfile_from_dict (PDict d) w =
    (Ok (mkUserProfile "" "" "" "" [] [] []), w).
Proof.
  intros Hnone. unfold UserProfile_from_dict.
  do 7 (rewrite run_bind, dict_get_default
          by (apply Hnone; unfold PROFILE_KEYS; set_solver)).
  reflexivity.
Qed.

Lemma JobDescription_from_dict_no_keys (d : gmap string pyval) (w : world) :
  (∀ key, key ∈ JOB_KEYS → d !! key = None) →
  JobDescription_from_dict (PDict d) w =
    (Ok (mkJobDescription "" "" "" [] "" "" (Some "")), w).
Proof.
  intros Hnone. unfold JobDescription_from_dict.
  do 7 (rewrite run_bind, dict_get_default
          by (apply Hnone; unfold JOB_KEYS; set_solver)).
  reflexivity.
Qed.

(** X1.  Loading a file that holds a JSON object with none of the
    record's keys (the empty object included) returns the record of
    defaults and prints no warning.  For a job description the default
    of [additional_notes] is the empty string, where the record for a
    missing file has [None]. *)
Theorem load_object_without_keys (d : gmap string pyval) (path : string)
    (w : world) :
  fs w !! path = Some (Parses (PDict d)) →
  ((∀ key, key ∈ PROFILE_KEYS → d !! key = None) →
   load_user_profile path w = (Ok (mkUserProfile "" "" "" "" [] [] []), w)) ∧
  ((∀ key, key ∈ JOB_KEYS → d !! key = None) →
   load_job_description path w =
     (Ok (mkJobDescription "" "" "" [] "" "" (Some "")), w)).
Proof.
  intros Hfile. split; intros Hnone.
  - rewrite (load_user_profile_parses path (PDict d)) by done.
    by apply UserProfile_from_dict_no_keys.
  - rewrite (load_job_description_parses path (PDict d)) by done.
    by apply JobDescription_from_dict_no_keys.
Qed.

(** X1 on the file [empty.json], which holds the empty object. *)
Lemma load_object_without_keys_witness :
  load_user_profile "empty.json" sample_world_with_files =
    (Ok (mkUserProfile "" "" "" "" [] [] []), sample_world_with_files) ∧
  load_job_description "empty.json" sample_world_with_files =
    (Ok (mkJobDescription "" "" "" [] "" "" (Some "")),
     sample_world_with_files).
Proof.
  destruct (load_object_without_keys ∅ "empty.json" sample_world_with_files)
    as [Hp Hj]; [reflexivity|].
  split; [apply Hp | apply Hj]; intros key _; apply lookup_empty.
Defined.

Lemma state_free_typed {A : Type} (o : option A) : state_free (typed o).
Proof. destruct o; [apply state_free_ret | apply state_free_raise]. Qed.

Lemma state_free_dict_get (data : pyval) (key : string) (default : pyval) :
  state_free (dict_get data key default).
Proof.
  unfold dict_get. destruct data;
    first [apply state_free_ret | apply state_free_raise].
Qed.

#[local] Hint Resolve state_free_typed state_free_dict_get : state_free.

Lemma UserProfile_from_dict_state_free (data : pyval) :
  state_free (UserProfile_from_dict data).
Proof. unfold UserProfile_from_dict. auto 40 with state_free. Qed.

Lemma JobDescription_from_dict_state_free (data : pyval) :
  state_free (JobDescription_from_dict data).
Proof. unfold JobDescription_from_dict. auto 40 with state_free. Qed.

Lemma dict_get_not_dict (v : pyval) (key : string) (default : pyval)
    (w : world) :
  is_dict v = false → dict_get v key default w = (Raise AttributeError, w).
Proof. by destruct v. Qed.

Lemma load_user_profile_malformed (path : string) (w : world) :
  fs w !! path = Some Malformed →
  load_user_profile path w = (Raise JSONDecodeError, w).
Proof.
  intros Hfile. unfold load_user_profile, os_path_exists, json_load.
  rewrite run_bind, Hfile. cbn [negb]. rewrite run_bind, Hfile. reflexivity.
Qed.

Lemma load_job_description_malformed (path : string) (w : world) :
  fs w !! path = Some Malformed →
  load_job_description path w = (Raise JSONDecodeError, w).
Proof.
  intros Hfile. unfold load_job_description, os_path_exists, json_load.
  rewrite run_bind, Hfile. cbn [negb]. rewrite run_bind, Hfile. reflexivity.
Qed.

Lemma load_user_profile_existing (path : string) (f : file) (w : world) :
  fs w !! path = Some f → (load_user_profile path w).2 = w.
Proof.
  intros Hfile. destruct f as [v|].
  - rewrite (load_user_profile_parses path v) by done.
    destruct (UserProfile_from_dict_state_free v) as [r Hr]. by rewrite Hr.
  - by rewrite load_user_profile_malformed.
Qed.

Lemma load_job_description_existing (path : string) (f : file) (w : world) :
  fs w !! path = Some f → (load_job_description path w).2 = w.
Proof.
  intros Hfile. destruct f as [v|].
  - rewrite (load_job_description_parses path v) by done.
    destruct (JobDescription_from_dict_state_free v) as [r Hr]. by rewrite Hr.
  - by rewrite load_job_description_malformed.
Qed.

(** X2.  Loading a file that exists never prints and never changes the
    world.  A text that is not JSON makes both loaders raise the
    parser's error; a JSON document that is not an object (a list, a
    string, a number, null) makes them raise [AttributeError], from the
    first [data.get].  Neither error is caught. *)
Theorem load_existing_file (path : string) (f : file) (w : world) :
  fs w !! path = Some f →
  (load_user_profile path w).2 = w ∧
  (load_job_description path w).2 = w ∧
  (f = Malformed →
   (load_user_profile path w).1 = Raise JSONDecodeError ∧
   (load_job_description path w).1 = Raise JSONDecodeError) ∧
  (∀ v, f = Parses v → is_dict v = false →
   (load_user_profile path w).1 = Raise AttributeError ∧
   (load_job_description path w).1 = Raise AttributeError).
Proof.
  intros Hfile.
  split; [by apply (load_user_profile_existing path f)|].
  split; [by apply (load_job_description_existing path f)|].
  split.
  - intros ->.
    by rewrite load_user_profile_malformed, load_job_description_malformed.
  - intros v -> Hv.
    rewrite (load_user_profile_parses path v),
      (load_job_description_parses path v) by done.
    unfold UserProfile_from_dict, JobDescription_from_dict.
    by rewrite !run_bind, !dict_get_not_dict.
Qed.

(** X2 on the two unreadable sample files. *)
Lemma load_existing_file_witness :
  (load_user_profile "broken.json" sample_world_with_files).1 =
    Raise JSONDecodeError ∧
  (load_job_description "list.json" sample_world_with_files).1 =
    Raise AttributeError.
Proof.
  destruct (load_existing_file "broken.json" Malformed
              sample_world_with_files) as (_ & _ & Hbroken & _);
    [reflexivity|].
  destruct (load_existing_file "list.json" (Parses (PList [PStr "x"]))
              sample_world_with_files) as (_ & _ & _ & Hlist);
    [reflexivity|].
  split.
  - by apply Hbroken.
  - by apply (Hlist (PList [PStr "x"])).
Defined.

(** What a loader does to the world: nothing, or one line on the
    console. *)
Lemma load_user_profile_world (path : string) (w : world) :
  (load_user_profile path w).2 = w ∨
  ∃ line, (load_user_profile path w).2 = set_stdout (stdout w ++ [line]) w.
Proof.
  destruct (fs w !! path) as [f|] eqn:Hfile.
  - left. by apply (load_user_profile_existing path f).
  - right. rewrite load_user_profile_missing by done. eauto.
Qed.

Lemma load_job_description_world (path : string) (w : world) :
  (load_job_description path w).2 = w ∨
  ∃ line, (load_job_description path w).2 = set_stdout (stdout w ++ [line]) w.
Proof.
  destruct (fs w !! path) as [f|] eqn:Hfile.
  - left. by apply (load_job_description_existing path f).
  - right. rewrite load_job_description_missing by done. eauto.
Qed.

(** X3.  The loaders only read: whatever the path holds, and whether
    they return or raise, they leave every file, the credential, the
    clock and the list of requests sent as they were, and print at most
    one line. *)
Theorem loaders_only_read (path : string) (w : world) :
  let w1 := (load_user_profile path w).2 in
  let w2 := (load_job_description path w).2 in
  (fs w1 = fs w ∧ api_key w1 = api_key w ∧ calls w1 = calls w ∧
   clock w1 = clock w ∧
   (stdout w1 = stdout w ∨ ∃ line, stdout w1 = stdout w ++ [line])) ∧
  (fs w2 = fs w ∧ api_key w2 = api_key w ∧ calls w2 = calls w ∧
   clock w2 = clock w ∧
   (stdout w2 = stdout w ∨ ∃ line, stdout w2 = stdout w ++ [line])).
Proof.
  cbn zeta. split.
  - destruct (load_user_profile_world path w) as [-> | [line ->]];
      repeat split; eauto.
  - destruct (load_job_description_world path w) as [-> | [line ->]];
      repeat split; eauto.
Qed.

(** ** Saving *)







(** ** Stripping *)

Lemma string_rev_app_spec (s acc : string) :
  String.rev_app s acc = String.rev s +:+ acc.
Proof.
  revert acc. induction s as [|c s IH]; intros acc; [done|].
  unfold String.rev. cbn [String.rev_app].
  rewrite (IH (String c acc)), (IH (String c "")).
  by rewrite string_app_assoc.
Qed.

Lemma string_rev_cons (c : ascii) (s : string) :
  String.rev (String c s) = String.rev s +:+ String c "".
Proof. unfold String.rev at 1. cbn [String.rev_app]. apply string_rev_app_spec. Qed.

Lemma string_rev_app (a b : string) :
  String.rev (a +:+ b) = String.rev b +:+ String.rev a.
Proof.
  induction a as [|c a IH].
  - by rewrite string_app_nil_r.
  - change (String c a +:+ b) with (String c (a +:+ b)).
    by rewrite !string_rev_cons, IH, string_app_assoc.
Qed.

Lemma string_rev_involutive (s : string) : String.rev (String.rev s) = s.
Proof.
  induction s as [|c s IH]; [done|].
  by rewrite string_rev_cons, string_rev_app, IH.
Qed.

Lemma lstrip_no_leading_space (s : string) :
  starts_with_space (lstrip s) = false.
Proof.
  induction s as [|c s IH]; [done|]. cbn [lstrip].
  destruct (is_space c) eqn:Hc; [done|]. by cbn [starts_with_space].
Qed.

Lemma lstrip_fixed (s : string) :
  starts_with_space s = false → lstrip s = s.
Proof. destruct s as [|c s]; [done|]. cbn. by intros ->. Qed.

(** Stripping on the left keeps a last character that is not a blank. *)
Lemma lstrip_keeps_last (u : string) (c : ascii) :
  is_space c = false → ∃ u', lstrip (u +:+ String c "") = u' +:+ String c "".
Proof.
  intros Hc. induction u as [|x u IH].
  - exists "". change ("" +:+ String c "") with (String c "").
    cbn [lstrip]. by rewrite Hc.
  - change (String x u +:+ String c "") with (String x (u +:+ String c "")).
    cbn [lstrip]. destruct (is_space x); [done|]. by exists (String x u).
Qed.

Lemma rstrip_no_trailing_space (s : string) :
  ends_with_space (rstrip s) = false.
Proof.
  unfold ends_with_space, rstrip. rewrite string_rev_involutive.
  apply lstrip_no_leading_space.
Qed.

Lemma rstrip_keeps_start (s : string) :
  starts_with_space s = false → starts_with_space (rstrip s) = false.
Proof.
  destruct s as [|c s]; [done|]. cbn [starts_with_space]. intros Hc.
  unfold rstrip. rewrite string_rev_cons.
  destruct (lstrip_keeps_last (String.rev s) c Hc) as [u' ->].
  rewrite string_rev_app. cbn. done.
Qed.

Lemma rstrip_fixed (s : string) :
  ends_with_space s = false → rstrip s = s.
Proof.
  unfold ends_with_space, rstrip. intros Hs.
  by rewrite lstrip_fixed, string_rev_involutive.
Qed.

Lemma strip_no_space_around (s : string) :
  starts_with_space (strip s) = false ∧ ends_with_space (strip s) = false.
Proof.
  unfold strip. split.
  - apply rstrip_keeps_start, lstrip_no_leading_space.
  - apply rstrip_no_trailing_space.
Qed.

Lemma strip_fixed (s : string) :
  starts_with_space s = false → ends_with_space s = false → strip s = s.
Proof.
  intros Hstart Hend. unfold strip.
  by rewrite lstrip_fixed, rstrip_fixed.
Qed.

Lemma strip_idempotent (s : string) : strip (strip s) = strip s.
Proof. apply strip_fixed; apply strip_no_space_around. Qed.

(** ** The generators, past the credential check *)

Lemma build_ok_well_keyed (user : UserProfile) (text : string) (w : world) :
  build_base_resume_text user w = (Ok text, w) → well_keyed user = true.
Proof.
  intros Hbuild.
  destruct (build_base_resume_text_cases user w)
    as [[Hk _]|[_ (e & _ & Hraise)]]; [done|congruence].
Qed.

Lemma well_keyed_experiences (user : UserProfile) :
  well_keyed user = true →
  forallb (has_keys EXPERIENCE_KEYS) (experiences user) = true.
Proof. by intros [? _]%andb_prop. Qed.

(** X7.  With a credential, a profile whose base text builds, and an
    endpoint that answers with at least one choice, each generator
    sends exactly one request (the fixed model, output limit and
    temperature, one system message holding the prompt) and returns the
    content of the first choice, stripped; later choices are ignored.
    The text returned neither starts nor ends with a blank. *)
Theorem generators_return_first_choice (user : UserProfile)
    (job : JobDescription) (w : world) (key text : string)
    (first_r first_c : choice) (rest_r rest_c : list choice) :
  api_key w = Some key → key ≠ "" →
  build_base_resume_text user w = (Ok text, w) →
  let resume_request :=
    Request "gpt-3.5-turbo"
      [ChatMessage "system"
         (tailored_resume_prompt JakesResumeFormatter.get_format_instructions
            text job)]
      1000 (Decimal 7 (-1)) in
  let cover_request :=
    Request "gpt-3.5-turbo"
      [ChatMessage "system" (cover_letter_prompt user job)]
      1000 (Decimal 7 (-1)) in
  remote w resume_request = Ok (Response (first_r :: rest_r)) →
  remote w cover_request = Ok (Response (first_c :: rest_c)) →
  generate_tailored_resume user job w =
    (Ok (strip (content (message first_r))),
     set_calls (calls w ++ [resume_request]) w) ∧
  generate_cover_letter user job w =
    (Ok (strip (content (message first_c))),
     set_calls (calls w ++ [cover_request]) w) ∧
  (∀ out, (generate_tailored_resume user job w).1 = Ok out ∨
          (generate_cover_letter user job w).1 = Ok out →
          starts_with_space out = false ∧ ends_with_space out = false).
Proof.
  intros Hkey Hne Hbuild resume_request cover_request Hr Hc.
  assert (Htruthy : opt_truthy (api_key w) = true).
  { rewrite Hkey. by apply opt_truthy_Some. }
  pose proof (well_keyed_experiences user (build_ok_well_keyed _ _ _ Hbuild))
    as Hexps.
  assert (Hresume : generate_tailored_resume user job w =
    (Ok (strip (content (message first_r))),
     set_calls (calls w ++ [resume_request]) w)).
  { rewrite (generate_tailored_resume_run user job text) by done.
    cbn zeta. fold resume_request. unfold chat_request, MODEL_NAME,
      MAX_TOKENS, TEMPERATURE. fold resume_request. by rewrite Hr. }
  assert (Hcover : generate_cover_letter user job w =
    (Ok (strip (content (message first_c))),
     set_calls (calls w ++ [cover_request]) w)).
  { rewrite generate_cover_letter_run by done.
    cbn zeta. unfold chat_request, MODEL_NAME, MAX_TOKENS, TEMPERATURE.
    fold cover_request. by rewrite Hc. }
  split; [done|]. split; [done|].
  rewrite Hresume, Hcover. cbn [fst].
  intros out [[= <-] | [= <-]]; apply strip_no_space_around.
Qed.

(** X7 on the sample profile and job: the endpoint's answer comes back
    without the blank before it and the line feed after it. *)
Lemma generators_return_first_choice_witness :
  (generate_tailored_resume sample_user sample_job sample_world_with_key).1 =
    Ok "Dear Hiring Manager," ∧
  (generate_cover_letter sample_user sample_job sample_world_with_key).1 =
    Ok "Dear Hiring Manager,".
Proof.
  destruct (generators_return_first_choice sample_user sample_job
              sample_world_with_key "sk-sample" sample_base_text
              (Choice (ChatMessage "assistant" (" Dear Hiring Manager," +:+ LF)))
              (Choice (ChatMessage "assistant" (" Dear Hiring Manager," +:+ LF)))
              [] [])
    as (Hr & Hc & _).
  - reflexivity.
  - discriminate.
  - vm_compute. reflexivity.
  - reflexivity.
  - reflexivity.
  - rewrite Hr, Hc. split; vm_compute; reflexivity.
Defined.

(** X8.  A failure of the endpoint is not caught.  Past the credential
    check and with the prompt built, when the endpoint raises, the
    generator raises the same exception, and when the endpoint answers
    with no choice the generator raises [IndexError]; in both cases the
    request has been sent. *)
Theorem generators_propagate_endpoint_failure (user : UserProfile)
    (job : JobDescription) (w : world) (key text : string) :
  api_key w = Some key → key ≠ "" →
  build_base_resume_text user w = (Ok text, w) →
  let resume_request :=
    chat_request
      (tailored_resume_prompt JakesResumeFormatter.get_format_instructions
         text job) in
  let cover_request := chat_request (cover_letter_prompt user job) in
  (∀ e, remote w resume_request = Raise e →
        generate_tailored_resume user job w =
          (Raise e, set_calls (calls w ++ [resume_request]) w)) ∧
  (remote w resume_request = Ok (Response []) →
   generate_tailored_resume user job w =
     (Raise IndexError, set_calls (calls w ++ [resume_request]) w)) ∧
  (∀ e, remote w cover_request = Raise e →
        generate_cover_letter user job w =
          (Raise e, set_calls (calls w ++ [cover_request]) w)) ∧
  (remote w cover_request = Ok (Response []) →
   generate_cover_letter user job w =
     (Raise IndexError, set_calls (calls w ++ [cover_request]) w)).
Proof.
  intros Hkey Hne Hbuild resume_request cover_request.
  assert (Htruthy : opt_truthy (api_key w) = true).
  { rewrite Hkey. by apply opt_truthy_Some. }
  pose proof (well_keyed_experiences user (build_ok_well_keyed _ _ _ Hbuild))
    as Hexps.
  rewrite (generate_tailored_resume_run user job text) by done.
  rewrite generate_cover_letter_run by done.
  cbn zeta. fold resume_request cover_request.
  repeat split.
  - intros e ->. reflexivity.
  - intros ->. reflexivity.
  - intros e ->. reflexivity.
  - intros ->. reflexivity.
Qed.

(** X8 on an endpoint that times out and on one that answers with no
    choice. *)
Lemma generators_propagate_endpoint_failure_witness :
  (generate_tailored_resume sample_user sample_job sample_world_down).1 =
    Raise (RemoteError "timeout") ∧
  length (calls (generate_tailored_resume sample_user sample_job
                   sample_world_down).2) = 1 ∧
  (generate_cover_letter sample_user sample_job sample_world_no_choice).1 =
    Raise IndexError.
Proof.
  destruct (generators_propagate_endpoint_failure sample_user sample_job
              sample_world_down "sk-sample" sample_base_text)
    as (Hdown & _); [reflexivity|discriminate|vm_compute; reflexivity|].
  destruct (generators_propagate_endpoint_failure sample_user sample_job
              sample_world_no_choice "sk-sample" sample_base_text)
    as (_ & _ & _ & Hnone); [reflexivity|discriminate|vm_compute; reflexivity|].
  rewrite (Hdown (RemoteError "timeout")) by reflexivity.
  rewrite Hnone by reflexivity.
  repeat split.
Defined.

(** ** A missing key stops a generator before it sends anything *)

Lemma forallb_enumerate_snd {A : Type} (ok : A → bool) (start : nat)
    (l : list A) :
  forallb (λ '(_, x), ok x) (enumerate start l) = forallb ok l.
Proof.
  revert start. induction l as [|x l IH]; intros start; [done|].
  cbn [enumerate forallb]. by rewrite IH.
Qed.

Lemma cover_letter_loop_raises (l : list (gmap string string)) (start : nat)
    (prompt : string) (w : world) :
  forallb (has_keys EXPERIENCE_KEYS) l = false →
  ∃ e, missing_key EXPERIENCE_KEYS e ∧
    for_each (enumerate start l) (λ '(idx, exp) prompt,
      role ← getitem exp "role";
      company ← getitem exp "company";
      duration ← getitem exp "duration";
      description ← getitem exp "description";
      mret (prompt +:+ experience_line idx role company duration description))
      prompt w
    = (Raise e, w).
Proof.
  intros Hbad.
  match goal with
  | |- context [for_each _ ?b _ _] => set (body := b)
  end.
  assert (Hgood : ∀ (x : nat * gmap string string) acc w',
            (let '(_, exp) := x in has_keys EXPERIENCE_KEYS exp) = true →
            ∃ acc', body x acc w' = (Ok acc', w')).
  { intros [idx exp] acc w' Hexp. unfold body.
    destruct (experience_keys_lookup exp Hexp) as (Hr & Hc & Hd & Hx).
    run_getitem Hr. run_getitem Hc. run_getitem Hd. run_getitem Hx.
    rewrite run_ret. eauto. }
  assert (Hfail : ∀ (x : nat * gmap string string) acc w',
            (let '(_, exp) := x in has_keys EXPERIENCE_KEYS exp) = false →
            ∃ e, missing_key EXPERIENCE_KEYS e ∧ body x acc w' = (Raise e, w')).
  { intros [idx exp] acc w'. unfold body.
    unfold has_keys, EXPERIENCE_KEYS, has_key, getitem, missing_key.
    cbn [forallb].
    destruct (exp !! "role"), (exp !! "company"), (exp !! "duration"),
      (exp !! "description"); try discriminate;
      intros _; eexists; (split; [eexists; split; [|reflexivity]|reflexivity]);
      rewrite !elem_of_cons; auto 10. }
  destruct (for_each_cases _ _ body Hgood Hfail (enumerate start l) prompt w)
    as [[Hall _]|[_ Hraise]].
  - rewrite forallb_enumerate_snd in Hall. congruence.
  - exact Hraise.
Qed.

(** X9.  With a credential configured, an entry that lacks a key stops
    the generator before any request goes out: it raises [KeyError] for
    a key it reads and leaves the world, the list of requests included,
    as it was.  [generate_tailored_resume] reads the experience and the
    education entries; [generate_cover_letter] reads the experience
    entries only, so a profile whose experience entries are complete
    gets its cover-letter request sent even when an education entry
    lacks a key. *)
Theorem missing_key_sends_no_request (user : UserProfile)
    (job : JobDescription) (w : world) (key : string) :
  api_key w = Some key → key ≠ "" →
  (well_keyed user = false →
   ∃ k, (k ∈ EXPERIENCE_KEYS ∨ k ∈ EDUCATION_KEYS) ∧
        generate_tailored_resume user job w = (Raise (KeyError k), w)) ∧
  (forallb (has_keys EXPERIENCE_KEYS) (experiences user) = false →
   ∃ k, k ∈ EXPERIENCE_KEYS ∧
        generate_cover_letter user job w = (Raise (KeyError k), w)) ∧
  (forallb (has_keys EXPERIENCE_KEYS) (experiences user) = true →
   calls (generate_cover_letter user job w).2 =
     calls w ++ [chat_request (cover_letter_prompt user job)]).
Proof.
  intros Hkey Hne.
  assert (Htruthy : opt_truthy (api_key w) = true).
  { rewrite Hkey. by apply opt_truthy_Some. }
  split; [|split].
  - intros Hbad.
    destruct (build_base_resume_text_cases user w)
      as [[Hk _]|[_ (e & He & Hraise)]]; [congruence|].
    assert (∃ k, (k ∈ EXPERIENCE_KEYS ∨ k ∈ EDUCATION_KEYS) ∧ e = KeyError k)
      as (k & Hk & ->).
    { destruct He as [(k & ? & ->)|(k & ? & ->)]; eauto. }
    exists k. split; [done|].
    unfold generate_tailored_resume, get_api_key.
    rewrite run_bind, Htruthy. cbn [negb]. by rewrite run_bind, Hraise.
  - intros Hbad.
    destruct (cover_letter_loop_raises (experiences user) 1
                (cover_letter_opening
                   DedyCoverLetterFormatter.get_format_instructions user)
                w Hbad) as (e & (k & Hk & ->) & Hraise).
    exists k. split; [done|].
    unfold generate_cover_letter, get_api_key.
    rewrite run_bind, Htruthy. cbn [negb]. by rewrite run_bind, Hraise.
  - intros Hok. by apply generate_cover_letter_calls.
Qed.

(** X9 on a profile without a role and on one without a degree. *)
Lemma missing_key_sends_no_request_witness :
  (∃ k, generate_tailored_resume user_without_role sample_job
          sample_world_with_key = (Raise (KeyError k), sample_world_with_key)) ∧
  (∃ k, generate_cover_letter user_without_role sample_job
          sample_world_with_key = (Raise (KeyError k), sample_world_with_key)) ∧
  (∃ k, generate_tailored_resume user_without_degree sample_job
          sample_world_with_key = (Raise (KeyError k), sample_world_with_key)) ∧
  length (calls (generate_cover_letter user_without_degree sample_job
                   sample_world_with_key).2) = 1.
Proof.
  destruct (missing_key_sends_no_request user_without_role sample_job
              sample_world_with_key "sk-sample")
    as (Hr & Hc & _); [reflexivity|discriminate|].
  destruct (missing_key_sends_no_request user_without_degree sample_job
              sample_world_with_key "sk-sample")
    as (Hr' & _ & Hc'); [reflexivity|discriminate|].
  destruct (Hr eq_refl) as (k1 & _ & H1).
  destruct (Hc eq_refl) as (k2 & _ & H2).
  destruct (Hr' eq_refl) as (k3 & _ & H3).
  split; [eauto|]. split; [eauto|]. split; [eauto|].
  by rewrite (Hc' eq_refl).
Defined.

(** ** The text of the base resume *)

Lemma skills_loop_run (l : list string) (lines : list string) (w : world) :
  for_each l (λ skill lines, mret (lines ++ ["- " +:+ skill])) lines w
  = (Ok (lines ++ ((λ skill, "- " +:+ skill) <$> l)), w).
Proof.
  revert lines. induction l as [|x l IH]; intros lines;
    cbn [for_each fmap list_fmap].
  - by rewrite app_nil_r.
  - rewrite run_bind, run_ret, IH. by rewrite <- app_assoc.
Qed.

Lemma education_keys_lookup (edu : gmap string string) :
  has_keys EDUCATION_KEYS edu = true →
  edu !! "degree" = Some (edu !!! "degree") ∧
  edu !! "institution" = Some (edu !!! "institution") ∧
  edu !! "graduation_year" = Some (edu !!! "graduation_year").
Proof.
  unfold has_keys, EDUCATION_KEYS. cbn [forallb].
  intros (? & (? & (? & _)%andb_prop)%andb_prop)%andb_prop.
  repeat split; by apply has_key_lookup.
Qed.

Lemma experience_loop_run (l : list (gmap string string))
    (lines : list string) (w : world) :
  forallb (has_keys EXPERIENCE_KEYS) l = true →
  for_each l (λ exp lines,
    role ← getitem exp "role";
    company ← getitem exp "company";
    duration ← getitem exp "duration";
    let lines := lines ++ [role +:+ " at " +:+ company +:+ " (" +:+ duration +:+ ")"] in
    description ← getitem exp "description";
    mret (lines ++ ["  " +:+ description])) lines w
  = (Ok (lines ++ (l ≫= experience_resume_lines)), w).
Proof.
  revert lines. induction l as [|exp l IH]; intros lines;
    cbn [for_each forallb mbind list_bind].
  - intros _. by rewrite app_nil_r.
  - intros [Hexp Hl]%andb_prop.
    destruct (experience_keys_lookup exp Hexp) as (Hr & Hc & Hd & Hx).
    rewrite run_bind.
    run_getitem Hr. run_getitem Hc. run_getitem Hd. cbn zeta.
    run_getitem Hx. rewrite run_ret, IH by done.
    unfold experience_resume_lines. by rewrite <- !app_assoc.
Qed.

Lemma education_loop_run (l : list (gmap string string))
    (lines : list string) (w : world) :
  forallb (has_keys EDUCATION_KEYS) l = true →
  for_each l (λ edu lines,
    degree ← getitem edu "degree";
    institution ← getitem edu "institution";
    graduation_year ← getitem edu "graduation_year";
    mret (lines ++ [degree +:+ " from " +:+ institution +:+ " - " +:+ graduation_year]))
    lines w
  = (Ok (lines ++ (education_resume_line <$> l)), w).
Proof.
  revert lines. induction l as [|edu l IH]; intros lines;
    cbn [for_each forallb fmap list_fmap].
  - intros _. by rewrite app_nil_r.
  - intros [Hedu Hl]%andb_prop.
    destruct (education_keys_lookup edu Hedu) as (Hd & Hi & Hg).
    rewrite run_bind.
    run_getitem Hd. run_getitem Hi. run_getitem Hg.
    rewrite run_ret, IH by done.
    unfold education_resume_line. by rewrite <- !app_assoc.
Qed.

(** X11.  For a profile whose entries have their keys,
    [build_base_resume_text] returns the lines of [base_resume_lines]
    joined by line feeds: three contact lines, the summary block, one
    dash line per skill, two lines per experience and one per
    education entry, in the profile's order.  The list has
    8 + skills + 2 * experiences + education entries. *)
Theorem build_base_resume_text_lines (user : UserProfile) (w : world) :
  well_keyed user = true →
  build_base_resume_text user w = (Ok (join LF (base_resume_lines user)), w) ∧
  length (base_resume_lines user) =
    8 + length (skills user) + 2 * length (experiences user)
    + length (education user).
Proof.
  intros [Hexps Hedus]%andb_prop. split.
  - unfold build_base_resume_text.
    rewrite run_bind, skills_loop_run.
    rewrite run_bind, experience_loop_run by done.
    rewrite run_bind, education_loop_run by done.
    rewrite run_ret. unfold base_resume_lines. cbn [app].
    by rewrite <- !app_assoc.
  - unfold base_resume_lines.
    rewrite !length_app, !length_fmap. cbn [length].
    assert (Hlen : ∀ l : list (gmap string string),
              length (l ≫= experience_resume_lines) = 2 * length l).
    { induction l as [|x l IH]; [done|].
      cbn [mbind list_bind length app experience_resume_lines].
      cbn [mbind] in IH. rewrite IH. lia. }
    rewrite Hlen. lia.
Qed.

(** X11 on the sample profile (15 entries) and on the blank profile a
    missing file gives (the 8 fixed entries). *)
Lemma build_base_resume_text_lines_witness :
  (build_base_resume_text sample_user sample_world =
     (Ok (join LF (base_resume_lines sample_user)), sample_world) ∧
   length (base_resume_lines sample_user) = 15) ∧
  (build_base_resume_text (mkUserProfile "" "" "" "" [] [] []) sample_world).1 =
    Ok ("Name: " +:+ LF +:+ "Email: " +:+ LF +:+ "Phone: " +:+ LF +:+ LF +:+
        "Professional Summary:" +:+ LF +:+ LF +:+ LF +:+
        "Skills:" +:+ LF +:+ LF +:+ "Experience:" +:+ LF +:+ LF +:+
        "Education:").
Proof.
  split.
  - apply (build_base_resume_text_lines sample_user sample_world).
    reflexivity.
  - destruct (build_base_resume_text_lines (mkUserProfile "" "" "" "" [] [] [])
                sample_world) as [-> _]; reflexivity.
Defined.

(** ** The two names of one call *)



(** ** Parsing a line of skills *)

Lemma has_char_app (c : ascii) (a b : string) :
  has_char c (a +:+ b) = has_char c a || has_char c b.
Proof.
  induction a as [|x a IH]; [done|].
  change (String x a +:+ b) with (String x (a +:+ b)).
  cbn [has_char]. by rewrite IH, orb_assoc.
Qed.

Lemma has_char_rev (c : ascii) (s : string) :
  has_char c (String.rev s) = has_char c s.
Proof.
  induction s as [|x s IH]; [done|].
  rewrite string_rev_cons, has_char_app, IH. cbn [has_char].
  by rewrite orb_false_r, orb_comm.
Qed.

Lemma has_char_lstrip (c : ascii) (s : string) :
  has_char c s = false → has_char c (lstrip s) = false.
Proof.
  induction s as [|x s IH]; [done|]. cbn [lstrip has_char].
  intros [Hx Hs]%orb_false_elim.
  destruct (is_space x); [by apply IH|]. cbn [has_char]. by rewrite Hx, Hs.
Qed.

Lemma has_char_strip (c : ascii) (s : string) :
  has_char c s = false → has_char c (strip s) = false.
Proof.
  intros Hs. unfold strip, rstrip.
  rewrite has_char_rev. apply has_char_lstrip.
  rewrite has_char_rev. by apply has_char_lstrip.
Qed.

Lemma split_on_cons (sep : ascii) (s : string) :
  ∃ piece pieces, split_on sep s = piece :: pieces.
Proof.
  induction s as [|c s (piece & pieces & IH)]; cbn [split_on]; [eauto|].
  destruct (Ascii.eqb c sep); [eauto|]. rewrite IH. eauto.
Qed.

(** No piece of a split holds the separator. *)
Lemma split_on_pieces (sep : ascii) (s : string) :
  Forall (λ piece, has_char sep piece = false) (split_on sep s).
Proof.
  induction s as [|c s IH]; cbn [split_on].
  - by repeat constructor.
  - destruct (Ascii.eqb c sep) eqn:Hc.
    + by constructor.
    + destruct (split_on sep s) as [|piece pieces]; [|inversion IH; subst].
      * repeat constructor. cbn [has_char]. by rewrite Hc.
      * constructor; [|done]. cbn [has_char]. by rewrite Hc.
Qed.

Lemma split_on_no_sep (sep : ascii) (s : string) :
  has_char sep s = false → split_on sep s = [s].
Proof.
  induction s as [|c s IH]; [done|]. cbn [has_char split_on].
  intros [Hc Hs]%orb_false_elim. by rewrite Hc, IH.
Qed.

Lemma split_on_app_sep (sep : ascii) (a b : string) :
  has_char sep a = false →
  split_on sep (a +:+ String sep b) = a :: split_on sep b.
Proof.
  induction a as [|c a IH].
  - intros _. change ("" +:+ String sep b) with (String sep b).
    cbn [split_on]. by rewrite Ascii.eqb_refl.
  - cbn [has_char]. intros [Hc Ha]%orb_false_elim.
    change (String c a +:+ String sep b) with (String c (a +:+ String sep b)).
    cbn [split_on]. by rewrite Hc, IH.
Qed.

Lemma clean_skill_spec (s : string) :
  clean_skill s = true ↔
  str_truthy s = true ∧ starts_with_space s = false ∧
  ends_with_space s = false ∧ has_char "," s = false.
Proof.
  unfold clean_skill. rewrite !andb_true_iff, !negb_true_iff. tauto.
Qed.

Lemma parse_skills_clean (raw_skills : string) :
  Forall (λ skill, clean_skill skill = true) (parse_skills raw_skills).
Proof.
  unfold parse_skills. apply Forall_fmap, Forall_forall.
  intros piece [Htruthy Hpiece]%list_elem_of_filter. cbn.
  apply clean_skill_spec.
  destruct (strip_no_space_around piece) as [Hstart Hend].
  repeat split; try done.
  apply has_char_strip.
  pose proof (split_on_pieces "," raw_skills) as Hall.
  rewrite Forall_forall in Hall. by apply Hall.
Qed.

Lemma strip_clean (s : string) : clean_skill s = true → strip s = s.
Proof.
  intros (_ & Hstart & Hend & _)%clean_skill_spec. by apply strip_fixed.
Qed.

Lemma strip_space_clean (s : string) :
  clean_skill s = true → strip (" " +:+ s) = s.
Proof.
  intros Hs. change (" " +:+ s) with (String " " s).
  unfold strip. change (lstrip (String " " s)) with (lstrip s).
  by apply strip_clean.
Qed.

(** The pieces of a joined list of clean skills, the join being led by
    nothing or by one blank. *)
Lemma parse_skills_join_led (lead : string) (l : list string) :
  lead = "" ∨ lead = " " →
  l ≠ [] →
  Forall (λ skill, clean_skill skill = true) l →
  parse_skills (lead +:+ join ", " l) = l.
Proof.
  intros Hlead Hne Hall. revert lead Hlead.
  induction Hall as [|x l Hx Hl IH]; [done|]. intros lead Hlead.
  assert (Hstrip : strip (lead +:+ x) = x).
  { destruct Hlead as [-> | ->];
      [by apply strip_clean | by apply strip_space_clean]. }
  assert (Hcomma : has_char "," (lead +:+ x) = false).
  { apply clean_skill_spec in Hx as (_ & _ & _ & Hx).
    rewrite has_char_app, Hx. by destruct Hlead as [-> | ->]. }
  assert (Htruthy : str_truthy x = true)
    by (by apply clean_skill_spec in Hx as (? & _)).
  destruct l as [|y l].
  - cbn [join]. unfold parse_skills.
    rewrite split_on_no_sep by done.
    rewrite filter_cons_True by (by rewrite Hstrip).
    cbn. by rewrite Hstrip.
  - change (join ", " (x :: y :: l)) with (x +:+ ", " +:+ join ", " (y :: l)).
    rewrite <- string_app_assoc.
    change (", " +:+ join ", " (y :: l))
      with (String "," (" " +:+ join ", " (y :: l))).
    unfold parse_skills. rewrite split_on_app_sep by done.
    rewrite filter_cons_True by (by rewrite Hstrip).
    rewrite fmap_cons, Hstrip. f_equal.
    apply (IH ltac:(done) " "). by right.
Qed.

(** X12.  The skills comprehension (split at commas, strip, drop the
    empty pieces): every skill it returns is non-empty, has no blank at
    either end and holds no comma; and a list of such skills joined by
    a comma and a blank, as the prompts print it, parses back to the
    list.  The empty line gives no skill. *)
Theorem parse_skills_round_trip (raw_skills : string) (l : list string) :
  Forall (λ skill, clean_skill skill = true) (parse_skills raw_skills) ∧
  parse_skills "" = [] ∧
  (Forall (λ skill, clean_skill skill = true) l →
   parse_skills (join ", " l) = l).
Proof.
  split; [apply parse_skills_clean|]. split; [reflexivity|].
  intros Hall. destruct l as [|x l]; [reflexivity|].
  by apply (parse_skills_join_led "" (x :: l)); [left| |].
Qed.

Example parse_skills_sample :
  parse_skills "Python,  Data Analysis ,, Leadership," =
    ["Python"; "Data Analysis"; "Leadership"].
Proof. vm_compute. reflexivity. Qed.

(** ** Rules for computations at the terminal *)

Lemma io_run_bind {A B : Type} (m : IO A) (f : A → IO B) (t : terminal) :
  (m ≫= f) t =
  match m t with
  | (Done a, t') => f a t'
  | (Failed e, t') => (Failed e, t')
  end.
Proof. reflexivity. Qed.

Lemma io_run_fmap {A B : Type} (f : A → B) (m : IO A) (t : terminal) :
  (f <$> m) t =
  match m t with
  | (Done a, t') => (Done (f a), t')
  | (Failed e, t') => (Failed e, t')
  end.
Proof. reflexivity. Qed.

Lemma offline_refl (t : terminal) : offline t t.
Proof. by repeat split. Qed.

Lemma offline_trans (t1 t2 t3 : terminal) :
  offline t1 t2 → offline t2 t3 → offline t1 t3.
Proof.
  intros (?&?&?&?&?&?) (?&?&?&?&?&?). repeat split; congruence.
Qed.

Lemma console_only_refl (t : terminal) : console_only t t.
Proof. split; [apply offline_refl|done]. Qed.

Lemma console_only_trans (t1 t2 t3 : terminal) :
  console_only t1 t2 → console_only t2 t3 → console_only t1 t3.
Proof.
  intros (H12 & ? & ?) (H23 & ? & ?).
  split; [by apply (offline_trans t1 t2)|]. split; congruence.
Qed.

Lemma console_spec_ret {A : Type} (a : A) (P : A → Prop) :
  P a → console_spec (mret a : IO A) P.
Proof. intros Ha t. split; [apply console_only_refl|]. by split. Qed.

Lemma console_spec_bind {A B : Type} (m : IO A) (f : A → IO B)
    (P : A → Prop) (Q : B → Prop) :
  console_spec m P → (∀ a, P a → console_spec (f a) Q) →
  console_spec (m ≫= f) Q.
Proof.
  intros Hm Hf t. rewrite io_run_bind.
  destruct (Hm t) as (Honly & Hlen & Hres).
  destruct (m t) as [[a|e] t1]; cbn [fst snd] in *; [|done].
  destruct (Hf a Hres t1) as (Honly' & Hlen' & Hres').
  split; [by apply (console_only_trans t t1)|]. split; [lia|done].
Qed.

Lemma console_spec_fmap {A B : Type} (f : A → B) (m : IO A)
    (P : A → Prop) (Q : B → Prop) :
  console_spec m P → (∀ a, P a → Q (f a)) → console_spec (f <$> m) Q.
Proof.
  intros Hm Hf t. rewrite io_run_fmap.
  destruct (Hm t) as (Honly & Hlen & Hres).
  destruct (m t) as [[a|e] t1]; cbn [fst snd] in *; [|done].
  split; [done|]. split; [done|]. by apply Hf.
Qed.

Lemma console_spec_weaken {A : Type} (m : IO A) (P Q : A → Prop) :
  console_spec m P → (∀ a, P a → Q a) → console_spec m Q.
Proof.
  intros Hm HPQ t. destruct (Hm t) as (Honly & Hlen & Hres).
  split; [done|]. split; [done|].
  destruct (m t).1; [by apply HPQ|done].
Qed.

Lemma console_spec_print (line : string) :
  console_spec (lift (print line)) (λ _, True).
Proof. intros t. by repeat split. Qed.

Lemma console_spec_input (prompt : string) :
  console_spec (input prompt) (λ _, True).
Proof.
  intros t. unfold input. destruct (stdin t) as [|line rest] eqn:Hin;
    cbn [fst snd stdin length]; repeat split; lia.
Qed.

Lemma console_spec_input_line : console_spec input_line (λ _, True).
Proof.
  intros t. unfold input_line. destruct (stdin t) as [|line rest] eqn:Hin;
    cbn [fst snd stdin length]; repeat split; try lia.
  all: by rewrite Hin.
Qed.

Lemma consumes_input (prompt : string) : consumes (input prompt).
Proof.
  intros t a t'. unfold input. destruct (stdin t) as [|line rest];
    intros [= <- <-]. cbn. lia.
Qed.

Lemma consumes_input_line : consumes input_line.
Proof.
  intros t a t'. unfold input_line. destruct (stdin t) as [|line rest];
    intros [= <- <-]. cbn. lia.
Qed.

Lemma consumes_fmap {A B : Type} (f : A → B) (m : IO A) :
  consumes m → consumes (f <$> m).
Proof.
  intros Hm t b t'. rewrite io_run_fmap.
  destruct (m t) as [[a|e] t1] eqn:Hrun; intros [= <- <-].
  by apply (Hm t a).
Qed.

(** A line read first is a line read. *)
Lemma consumes_bind_first {A B : Type} (m : IO A) (f : A → IO B)
    (Q : B → Prop) :
  consumes m → (∀ a, console_spec (f a) Q) → consumes (m ≫= f).
Proof.
  intros Hm Hf t b t'. rewrite io_run_bind.
  destruct (m t) as [[a|e] t1] eqn:Hrun; [|done]. intros Hrun'.
  pose proof (Hm t a t1 Hrun) as Hlt.
  destruct (Hf a t1) as (_ & Hle & _). rewrite Hrun' in Hle.
  cbn [snd] in Hle. lia.
Qed.

(** A line read after a step that reads none is a line read. *)
Lemma consumes_bind_later {A B : Type} (m : IO A) (f : A → IO B)
    (P : A → Prop) :
  console_spec m P → (∀ a, consumes (f a)) → consumes (m ≫= f).
Proof.
  intros Hm Hf t b t'. rewrite io_run_bind.
  destruct (Hm t) as (_ & Hle & _).
  destruct (m t) as [[a|e] t1] eqn:Hrun; [|done]. intros Hrun'.
  pose proof (Hf a t1 b t' Hrun') as Hlt. cbn [snd] in Hle. lia.
Qed.

(** A loop whose turns read a line before going round again ends
    within the bound, keeps an invariant of its variable, and is a
    console computation like its body. *)
Lemma console_spec_while_steps {S : Type} (body : S → IO (turn S))
    (I : S → Prop) :
  (∀ s, I s → console_spec (body s) (λ r, I (turn_state r))) →
  (∀ s, consumes (body s)) →
  ∀ steps s t, I s → length (stdin t) < steps →
    console_only t (while_steps steps body s t).2 ∧
    length (stdin (while_steps steps body s t).2) ≤ length (stdin t) ∧
    match (while_steps steps body s t).1 with
    | Done a => I a
    | Failed e => e = EOFError
    end.
Proof.
  intros Hbody Hreads. induction steps as [|steps IH]; intros s t Hs Hlen;
    [lia|].
  cbn [while_steps]. rewrite io_run_bind.
  destruct (Hbody s Hs t) as (Honly & Hle & Hres).
  destruct (body s t) as [[[s'|s']|e] t1] eqn:Hrun; cbn [fst snd] in *.
  - pose proof (Hreads s t _ _ Hrun) as Hlt.
    destruct (IH s' t1 Hres ltac:(lia)) as (Honly' & Hle' & Hres').
    split; [by apply (console_only_trans t t1)|]. split; [lia|done].
  - unfold mret, IO_ret. cbn [fst snd turn_state] in *.
    split; [done|]. by split.
  - split; [done|]. by split.
Qed.

Lemma console_spec_while_True {S : Type} (body : S → IO (turn S))
    (I : S → Prop) (s : S) :
  I s →
  (∀ s, I s → console_spec (body s) (λ r, I (turn_state r))) →
  (∀ s, consumes (body s)) →
  console_spec (while_True body s) I.
Proof.
  intros Hs Hbody Hreads t. unfold while_True.
  apply console_spec_while_steps; [done..|lia].
Qed.

(** ** What the interactive functions return *)

Lemma console_spec_input_with (f : string → string) (prompt : string) :
  console_spec (f <$> input prompt) (λ _, True).
Proof.
  by apply (console_spec_fmap f _ (λ _, True)); [apply console_spec_input|].
Qed.

Lemma console_spec_input_stripped (prompt : string) :
  console_spec (strip <$> input prompt) (λ s, strip s = s).
Proof.
  apply (console_spec_fmap strip _ (λ _, True)); [apply console_spec_input|].
  intros line _. apply strip_idempotent.
Qed.

Lemma consumes_input_with (f : string → string) (prompt : string) :
  consumes (f <$> input prompt).
Proof. apply consumes_fmap, consumes_input. Qed.

(** One step of a console computation: the first action by its rule,
    the rest under a binder. *)
Ltac console_step :=
  lazymatch goal with
  | |- console_spec (lift (print _) ≫= _) _ =>
      eapply console_spec_bind; [apply console_spec_print | intros _ _]
  | |- console_spec ((_ <$> input _) ≫= _) _ =>
      eapply console_spec_bind; [apply console_spec_input_with | intros ? _]
  | |- console_spec (mret _) _ => apply console_spec_ret
  end.

Lemma experience_entry_built (company role duration description : string) :
  experience_entry_ok
    (list_to_map [("company", company); ("role", role);
                  ("duration", duration); ("description", description)]).
Proof.
  split; [reflexivity|].
  cbn [list_to_map foldr uncurry fst snd curry].
  rewrite !dom_insert_L, dom_empty_L. unfold EXPERIENCE_KEYS.
  cbn [list_to_set foldr]. set_solver.
Qed.

Lemma education_entry_built (institution degree grad_year : string) :
  education_entry_ok
    (list_to_map [("institution", institution); ("degree", degree);
                  ("graduation_year", grad_year)]).
Proof.
  split; [reflexivity|].
  cbn [list_to_map foldr uncurry fst snd curry].
  rewrite !dom_insert_L, dom_empty_L. unfold EDUCATION_KEYS.
  cbn [list_to_set foldr]. set_solver.
Qed.

Lemma gather_user_profile_input_spec :
  console_spec gather_user_profile_input gathered_profile.
Proof.
  unfold gather_user_profile_input.
  do 8 console_step. cbn zeta.
  eapply console_spec_bind.
  { apply (console_spec_while_True _ (Forall experience_entry_ok));
      [constructor| |].
    - intros exps Hexps. console_step. console_step.
      destruct (negb _); [by apply console_spec_ret|].
      do 4 console_step. console_step. cbn [turn_state].
      apply Forall_app. split; [done|].
      repeat constructor; apply experience_entry_built.
    - intros exps.
      eapply consumes_bind_later; [apply console_spec_print|]. intros _.
      eapply (consumes_bind_first _ _ (λ _, True));
        [apply consumes_input_with|].
      intros choice. destruct (negb _); [by apply console_spec_ret|].
      do 4 console_step. by console_step. }
  intros exps Hexps.
  eapply console_spec_bind.
  { apply (console_spec_while_True _ (Forall education_entry_ok));
      [constructor| |].
    - intros edus Hedus. console_step. console_step.
      destruct (negb _); [by apply console_spec_ret|].
      do 3 console_step. console_step. cbn [turn_state].
      apply Forall_app. split; [done|].
      repeat constructor; apply education_entry_built.
    - intros edus.
      eapply consumes_bind_later; [apply console_spec_print|]. intros _.
      eapply (consumes_bind_first _ _ (λ _, True));
        [apply consumes_input_with|].
      intros choice. destruct (negb _); [by apply console_spec_ret|].
      do 3 console_step. by console_step. }
  intros edus Hedus. console_step.
  unfold gathered_profile, well_keyed. cbn [skills experiences education].
  split; [|split; [apply parse_skills_clean|split]].
  - apply andb_true_intro. split; apply forallb_forall; intros x Hx.
    + rewrite Forall_forall in Hexps.
      by apply Hexps, list_elem_of_In.
    + rewrite Forall_forall in Hedus.
      by apply Hedus, list_elem_of_In.
  - eapply Forall_impl; [exact Hexps|]. by intros exp [_ ?].
  - eapply Forall_impl; [exact Hedus|]. by intros edu [_ ?].
Qed.

Lemma read_paragraph_spec :
  console_spec read_paragraph
    (Forall (λ line, str_truthy (strip line) = true)).
Proof.
  unfold read_paragraph.
  apply console_spec_while_True; [constructor| |].
  - intros lines Hlines.
    eapply console_spec_bind; [apply console_spec_input_line|].
    intros line _. destruct (str_truthy (strip line)) eqn:Hline; cbn [negb].
    + apply console_spec_ret. cbn [turn_state].
      apply Forall_app. split; [done|]. by repeat constructor.
    + by apply console_spec_ret.
  - intros lines.
    eapply (consumes_bind_first _ _ (λ _, True)); [apply consumes_input_line|].
    intros line. destruct (negb _); by apply console_spec_ret.
Qed.

Lemma gather_job_description_input_spec :
  console_spec gather_job_description_input gathered_job.
Proof.
  unfold gather_job_description_input.
  do 4 console_step.
  eapply console_spec_bind; [apply read_paragraph_spec|]. intros lines1 _.
  cbn zeta. do 4 console_step.
  eapply console_spec_bind; [apply read_paragraph_spec|]. intros lines2 _.
  cbn zeta.
  eapply console_spec_bind; [apply console_spec_input_stripped|].
  intros notes Hnotes. console_step.
  split; [by exists notes|]. apply parse_skills_clean.
Qed.

(** X13.  Whatever is typed, [gather_user_profile_input] touches the
    console only (no file, no document, no request, the credential
    unchanged) and fails, if at all, with [EOFError] when the input
    ends; its loops always end.  The profile it returns has, in every
    experience entry, exactly the keys [company], [role], [duration],
    [description] and, in every education entry, exactly
    [institution], [degree], [graduation_year]; its skills are clean.
    So [build_base_resume_text] returns on every gathered profile. *)
Theorem gather_user_profile_input_returns_well_keyed (t : terminal) (w : world) :
  console_only t (gather_user_profile_input t).2 ∧
  match (gather_user_profile_input t).1 with
  | Done p =>
      gathered_profile p ∧
      ∃ text, build_base_resume_text p w = (Ok text, w)
  | Failed e => e = EOFError
  end.
Proof.
  destruct (gather_user_profile_input_spec t) as (Honly & _ & Hres).
  split; [done|].
  destruct (gather_user_profile_input t).1 as [p|e]; [|done].
  split; [done|]. destruct Hres as (Hkeys & _).
  destruct (build_base_resume_text_cases p w)
    as [[_ Htext]|[Hbad _]]; [done|congruence].
Qed.

(** X14.  Whatever is typed, [gather_job_description_input] touches the
    console only and fails, if at all, with [EOFError]; its loops
    always end.  The job description it returns always has a string in
    [additional_notes], stripped and possibly empty, never [None]; its
    required skills are clean. *)
Theorem gather_job_description_input_returns_notes (t : terminal) :
  console_only t (gather_job_description_input t).2 ∧
  match (gather_job_description_input t).1 with
  | Done j => gathered_job j ∧ additional_notes j ≠ None
  | Failed e => e = EOFError
  end.
Proof.
  destruct (gather_job_description_input_spec t) as (Honly & _ & Hres).
  split; [done|].
  destruct (gather_job_description_input t).1 as [j|e]; [|done].
  split; [done|]. destruct Hres as ((notes & -> & _) & _). done.
Qed.

(** ** Running a script *)

Lemma io_run_print (line : string) (w : world) (inp ps : list string)
    (wr : list (string * string)) (j : string → file) :
  lift (print line) (Terminal w inp ps wr j) =
    (Done tt, Terminal (set_stdout (stdout w ++ [line]) w) inp ps wr j).
Proof. reflexivity. Qed.

Lemma io_run_input (f : string → string) (prompt line : string) (w : world)
    (rest ps : list string) (wr : list (string * string)) (j : string → file) :
  (f <$> input prompt) (Terminal w (line :: rest) ps wr j) =
    (Done (f line), Terminal w rest (ps ++ [prompt]) wr j).
Proof. reflexivity. Qed.

Lemma io_run_input_line (line : string) (w : world)
    (rest ps : list string) (wr : list (string * string)) (j : string → file) :
  input_line (Terminal w (line :: rest) ps wr j) =
    (Done line, Terminal w rest ps wr j).
Proof. reflexivity. Qed.

Lemma io_run_ret {A : Type} (a : A) (t : terminal) :
  (mret a : IO A) t = (Done a, t).
Proof. reflexivity. Qed.

Ltac io_print := rewrite io_run_bind, io_run_print.
Ltac io_input := rewrite io_run_bind, io_run_input.

Lemma experiences_loop_script (xs : list experience_answers) :
  ∀ steps acc w ps wr j stop rest,
    Forall (λ x, says_yes (exp_more x) = true) xs →
    says_yes stop = false → length xs < steps →
    ∃ w' ps',
      while_steps steps (λ experiences : list (gmap string string),
        lift (print (LF +:+ "Add a work experience? (y/n)"));;
        choice ← (λ line, strip (lower line)) <$> input "> ";
        if negb (String.eqb choice "y") then mret (Break experiences)
        else
          company ← strip <$> input "Company Name: ";
          role ← strip <$> input "Role/Position: ";
          duration ← strip <$> input "Duration (e.g., 2019-2021): ";
          description ← strip <$> input "Brief Description of Responsibilities: ";
          mret (Again (experiences ++ [list_to_map [
            ("company", company); ("role", role); ("duration", duration);
            ("description", description)]]))) acc
        (Terminal w ((xs ≫= experience_script) ++ stop :: rest) ps wr j)
      = (Done (acc ++ (experience_entry <$> xs)), Terminal w' rest ps' wr j).
Proof.
  induction xs as [|x xs IH];
    intros steps acc w ps wr j stop rest Hyes Hstop Hlen;
    (destruct steps as [|steps]; [cbn in Hlen; lia|]); cbn [while_steps].
  - cbn [mbind list_bind app fmap list_fmap]. rewrite io_run_bind.
    io_print. io_input. unfold says_yes in Hstop. rewrite Hstop. cbn [negb].
    rewrite io_run_ret, io_run_ret, app_nil_r. eauto.
  - change ((x :: xs) ≫= experience_script)
      with (experience_script x ++ (xs ≫= experience_script)).
    unfold experience_script at 1. cbn [app].
    inversion Hyes as [|? ? Hx Hxs]; subst. unfold says_yes in Hx.
    rewrite io_run_bind. io_print. io_input. rewrite Hx. cbn [negb].
    do 4 io_input. rewrite io_run_ret.
    cbn [length] in Hlen.
    destruct (IH steps (acc ++ [experience_entry x])
                (set_stdout (stdout w ++ [LF +:+ "Add a work experience? (y/n)"]) w)
                (((((ps ++ ["> "]) ++ ["Company Name: "]) ++ ["Role/Position: "])
                  ++ ["Duration (e.g., 2019-2021): "])
                 ++ ["Brief Description of Responsibilities: "])
                wr j stop rest Hxs Hstop ltac:(lia)) as (w' & ps' & Hrun).
    unfold experience_entry at 1 in Hrun. rewrite Hrun.
    rewrite fmap_cons, <- app_assoc. eauto.
Qed.

Lemma education_loop_script (xs : list education_answers) :
  ∀ steps acc w ps wr j stop rest,
    Forall (λ x, says_yes (edu_more x) = true) xs →
    says_yes stop = false → length xs < steps →
    ∃ w' ps',
      while_steps steps (λ education : list (gmap string string),
        lift (print (LF +:+ "Add an education entry? (y/n)"));;
        choice ← (λ line, strip (lower line)) <$> input "> ";
        if negb (String.eqb choice "y") then mret (Break education)
        else
          institution ← strip <$> input "Institution Name: ";
          degree ← strip <$> input "Degree (e.g. BSc in Computer Science): ";
          grad_year ← strip <$> input "Graduation Year: ";
          mret (Again (education ++ [list_to_map [
            ("institution", institution); ("degree", degree);
            ("graduation_year", grad_year)]]))) acc
        (Terminal w ((xs ≫= education_script) ++ stop :: rest) ps wr j)
      = (Done (acc ++ (education_entry <$> xs)), Terminal w' rest ps' wr j).
Proof.
  induction xs as [|x xs IH];
    intros steps acc w ps wr j stop rest Hyes Hstop Hlen;
    (destruct steps as [|steps]; [cbn in Hlen; lia|]); cbn [while_steps].
  - cbn [mbind list_bind app fmap list_fmap]. rewrite io_run_bind.
    io_print. io_input. unfold says_yes in Hstop. rewrite Hstop. cbn [negb].
    rewrite io_run_ret, io_run_ret, app_nil_r. eauto.
  - change ((x :: xs) ≫= education_script)
      with (education_script x ++ (xs ≫= education_script)).
    unfold education_script at 1. cbn [app].
    inversion Hyes as [|? ? Hx Hxs]; subst. unfold says_yes in Hx.
    rewrite io_run_bind. io_print. io_input. rewrite Hx. cbn [negb].
    do 3 io_input. rewrite io_run_ret.
    cbn [length] in Hlen.
    destruct (IH steps (acc ++ [education_entry x])
                (set_stdout (stdout w ++ [LF +:+ "Add an education entry? (y/n)"]) w)
                ((((ps ++ ["> "]) ++ ["Institution Name: "])
                  ++ ["Degree (e.g. BSc in Computer Science): "])
                 ++ ["Graduation Year: "])
                wr j stop rest Hxs Hstop ltac:(lia)) as (w' & ps' & Hrun).
    unfold education_entry at 1 in Hrun. rewrite Hrun.
    rewrite fmap_cons, <- app_assoc. eauto.
Qed.

Lemma paragraph_loop_script (lines : list string) :
  ∀ steps acc w ps wr j stop rest,
    Forall (λ line, blank_line line = false) lines →
    blank_line stop = true → length lines < steps →
    while_steps steps (λ lines : list string,
      line ← input_line;
      if negb (str_truthy (strip line)) then mret (Break lines)
      else mret (Again (lines ++ [line]))) acc
      (Terminal w (lines ++ stop :: rest) ps wr j)
    = (Done (acc ++ lines), Terminal w rest ps wr j).
Proof.
  induction lines as [|line lines IH];
    intros steps acc w ps wr j stop rest Hlines Hstop Hlen;
    (destruct steps as [|steps]; [cbn in Hlen; lia|]); cbn [while_steps app].
  - rewrite io_run_bind, io_run_bind, io_run_input_line.
    unfold blank_line in Hstop. rewrite Hstop.
    by rewrite io_run_ret, io_run_ret, app_nil_r.
  - inversion Hlines as [|? ? Hline Hrest]; subst.
    rewrite io_run_bind, io_run_bind, io_run_input_line.
    unfold blank_line in Hline. rewrite Hline, io_run_ret.
    cbn [length] in Hlen. rewrite IH by (done || lia).
    by rewrite <- app_assoc.
Qed.

Lemma read_paragraph_script (lines : list string) (w : world)
    (ps : list string) (wr : list (string * string)) (j : string → file)
    (stop : string) (rest : list string) :
  Forall (λ line, blank_line line = false) lines →
  blank_line stop = true →
  read_paragraph (Terminal w (lines ++ stop :: rest) ps wr j)
  = (Done lines, Terminal w rest ps wr j).
Proof.
  intros Hlines Hstop. unfold read_paragraph, while_True.
  rewrite paragraph_loop_script; [done..|].
  cbn [stdin]. rewrite length_app. cbn [length]. lia.
Qed.

Lemma length_experience_scripts (xs : list experience_answers) :
  length (xs ≫= experience_script) = 5 * length xs.
Proof.
  induction xs as [|x xs IH]; [done|].
  change ((x :: xs) ≫= experience_script)
    with (experience_script x ++ (xs ≫= experience_script)).
  rewrite length_app, IH. cbn [length experience_script]. lia.
Qed.

Lemma length_education_scripts (xs : list education_answers) :
  length (xs ≫= education_script) = 4 * length xs.
Proof.
  induction xs as [|x xs IH]; [done|].
  change ((x :: xs) ≫= education_script)
    with (education_script x ++ (xs ≫= education_script)).
  rewrite length_app, IH. cbn [length education_script]. lia.
Qed.

(** X15.  Typing a profile in gives the profile.  When the lines typed
    are the five scalar answers, then for each experience a yes (a line
    that is [y] once lowered and stripped) and its four answers, a line
    that is not a yes, then for each education entry a yes and its
    three answers, and a line that is not a yes,
    [gather_user_profile_input] returns the profile made of the
    stripped answers, the skills parsed from the stripped skills line
    and one entry per experience and education, in order; it reads
    exactly these lines and leaves the rest to be read. *)
Theorem gather_user_profile_input_script (t : terminal)
    (name email phone summary skills_line : string)
    (xs : list experience_answers) (es : list education_answers)
    (stop1 stop2 : string) (rest : list string) :
  Forall (λ x, says_yes (exp_more x) = true) xs →
  Forall (λ x, says_yes (edu_more x) = true) es →
  says_yes stop1 = false → says_yes stop2 = false →
  stdin t = [name; email; phone; summary; skills_line]
            ++ (xs ≫= experience_script) ++ [stop1]
            ++ (es ≫= education_script) ++ [stop2] ++ rest →
  (gather_user_profile_input t).1 =
    Done (mkUserProfile (strip name) (strip email) (strip phone)
            (strip summary) (parse_skills (strip skills_line))
            (experience_entry <$> xs) (education_entry <$> es)) ∧
  stdin (gather_user_profile_input t).2 = rest.
Proof.
  intros Hyes1 Hyes2 Hstop1 Hstop2 Hin. destruct t as [w inp ps wr j].
  cbn [stdin] in Hin. subst inp. cbn [app].
  enough (∃ w' ps',
    gather_user_profile_input
      (Terminal w
         (name :: email :: phone :: summary :: skills_line
          :: (xs ≫= experience_script)
             ++ stop1 :: (es ≫= education_script) ++ stop2 :: rest)
         ps wr j)
    = (Done (mkUserProfile (strip name) (strip email) (strip phone)
               (strip summary) (parse_skills (strip skills_line))
               (experience_entry <$> xs) (education_entry <$> es)),
       Terminal w' rest ps' wr j)) as (w' & ps' & ->); [done|].
  unfold gather_user_profile_input.
  io_print. do 3 io_input. io_print. io_input. io_print. io_input.
  cbn zeta. rewrite io_run_bind. unfold while_True at 1. cbn [stdin].
  match goal with
  | |- context [while_steps ?n _ _ (Terminal ?w0 _ ?ps0 _ _)] =>
      destruct (experiences_loop_script xs n [] w0 ps0 wr j stop1
                  ((es ≫= education_script) ++ stop2 :: rest) Hyes1 Hstop1)
        as (w1 & ps1 & ->);
        [rewrite length_app, length_experience_scripts; lia|]
  end.
  rewrite io_run_bind. unfold while_True at 1. cbn [stdin].
  match goal with
  | |- context [while_steps ?n _ _ (Terminal ?w0 _ ?ps0 _ _)] =>
      destruct (education_loop_script es n [] w0 ps0 wr j stop2 rest Hyes2
                  Hstop2)
        as (w2 & ps2 & ->);
        [rewrite length_app, length_education_scripts; lia|]
  end.
  rewrite io_run_ret. cbn [app]. eauto.
Qed.

(** X15 on the sample script: a yes typed as [ Y ], one experience, one
    education entry, and the empty line for the last no. *)
Lemma gather_user_profile_input_script_witness :
  (gather_user_profile_input (terminal_on sample_world sample_profile_script)).1
    = Done (mkUserProfile "Ada Park" "ada@example.org" "555-0100" "Engineer."
              ["Python"; "SQL"] [sample_experience_1] [sample_education]) ∧
  stdin (gather_user_profile_input
           (terminal_on sample_world sample_profile_script)).2 = [].
Proof.
  destruct (gather_user_profile_input_script
              (terminal_on sample_world sample_profile_script)
              "  Ada Park " "ada@example.org" "555-0100" "Engineer."
              "Python, SQL ,, "
              [ExperienceAnswers " Y " "Initech" "Engineer" "2019-2021"
                 "Built reports"]
              [EducationAnswers "y" "MIT" "BSc" "2018"] "n" "" [])
    as [Hprofile Hrest].
  - repeat constructor.
  - repeat constructor.
  - reflexivity.
  - reflexivity.
  - reflexivity.
  - split; [exact Hprofile | exact Hrest].
Defined.

(** X16.  Typing a job description in gives the job description.  When
    the lines typed are the company, the title, the lines of the
    responsibilities (none blank) and a blank line, the skills line,
    the location, the lines of the summary (none blank) and a blank
    line, and the notes, [gather_job_description_input] returns the
    record made of the stripped answers, the two paragraphs joined by
    line feeds with their lines as typed, the skills parsed from the
    stripped skills line, and the stripped notes as a string. *)
Theorem gather_job_description_input_script (t : terminal)
    (company title skills_line location notes blank1 blank2 : string)
    (resp_lines summary_lines rest : list string) :
  Forall (λ line, blank_line line = false) resp_lines →
  blank_line blank1 = true →
  Forall (λ line, blank_line line = false) summary_lines →
  blank_line blank2 = true →
  stdin t = [company; title] ++ resp_lines ++ [blank1]
            ++ [skills_line; location] ++ summary_lines ++ [blank2]
            ++ [notes] ++ rest →
  (gather_job_description_input t).1 =
    Done (mkJobDescription (strip company) (strip title)
            (join LF resp_lines) (parse_skills (strip skills_line))
            (strip location) (join LF summary_lines) (Some (strip notes))) ∧
  stdin (gather_job_description_input t).2 = rest.
Proof.
  intros Hresp Hblank1 Hsummary Hblank2 Hin. destruct t as [w inp ps wr j].
  cbn [stdin] in Hin. subst inp. cbn [app].
  enough (∃ w' ps',
    gather_job_description_input
      (Terminal w
         (company :: title
          :: resp_lines
             ++ blank1 :: skills_line :: location
                :: summary_lines ++ blank2 :: notes :: rest)
         ps wr j)
    = (Done (mkJobDescription (strip company) (strip title)
               (join LF resp_lines) (parse_skills (strip skills_line))
               (strip location) (join LF summary_lines) (Some (strip notes))),
       Terminal w' rest ps' wr j)) as (w' & ps' & ->); [done|].
  unfold gather_job_description_input.
  io_print. do 2 io_input. io_print.
  rewrite io_run_bind, read_paragraph_script by done.
  cbn zeta. io_print. io_input. io_input. io_print.
  rewrite io_run_bind, read_paragraph_script by done.
  cbn zeta. io_input. rewrite io_run_ret. eauto.
Qed.

(** X16 on the sample script: two lines of responsibilities, ended by a
    line of blanks, and no notes. *)
Lemma gather_job_description_input_script_witness :
  (gather_job_description_input
     (terminal_on sample_world sample_job_script)).1
    = Done (mkJobDescription "Hooli" "Staff Engineer"
              ("Ship things" +:+ LF +:+ "Own the roadmap")
              ["Python"; "Go"; "SQL"] "Remote" "A senior role" (Some "")) ∧
  stdin (gather_job_description_input
           (terminal_on sample_world sample_job_script)).2 = [].
Proof.
  destruct (gather_job_description_input_script
              (terminal_on sample_world sample_job_script)
              "Hooli" "Staff Engineer" "Python, Go, SQL" "Remote" "" "  " ""
              ["Ship things"; "Own the roadmap"] ["A senior role"] [])
    as [Hjob Hrest].
  - repeat constructor.
  - reflexivity.
  - repeat constructor.
  - reflexivity.
  - reflexivity.
  - split; [exact Hjob | exact Hrest].
Defined.

(** ** The main flow *)

Lemma no_output_refl (t : terminal) : no_output t t.
Proof. split; [apply offline_refl|done]. Qed.

Lemma no_output_trans (t1 t2 t3 : terminal) :
  no_output t1 t2 → no_output t2 t3 → no_output t1 t3.
Proof.
  intros [H12 ?] [H23 ?]. split; [by apply (offline_trans t1 t2)|congruence].
Qed.

Lemma silent_ret {A : Type} (a : A) : silent (mret a : IO A).
Proof. intros t. apply no_output_refl. Qed.

Lemma silent_bind {A B : Type} (m : IO A) (f : A → IO B) :
  silent m → (∀ a, silent (f a)) → silent (m ≫= f).
Proof.
  intros Hm Hf t. rewrite io_run_bind. pose proof (Hm t) as H1.
  destruct (m t) as [[a|e] t1]; cbn [snd] in *; [|done].
  by apply (no_output_trans t t1), Hf.
Qed.

Lemma silent_fmap {A B : Type} (f : A → B) (m : IO A) :
  silent m → silent (f <$> m).
Proof.
  intros Hm t. rewrite io_run_fmap. pose proof (Hm t) as H1.
  by destruct (m t) as [[a|e] t1].
Qed.

Lemma silent_console {A : Type} (m : IO A) (P : A → Prop) :
  console_spec m P → silent m.
Proof.
  intros Hm t. destruct (Hm t) as ((Hoff & _ & Hwr) & _). by split.
Qed.

(** A computation on the world that changes only the files and the
    console is silent at the terminal. *)
Lemma silent_lift {A : Type} (m : M A) :
  (∀ w, api_key (m w).2 = api_key w ∧ calls (m w).2 = calls w ∧
        clock (m w).2 = clock w ∧ remote (m w).2 = remote w ∧
        environ (m w).2 = environ w) →
  silent (lift m).
Proof.
  intros Hm t. unfold lift. destruct (Hm (world_of t)) as (?&?&?&?&?).
  destruct (m (world_of t)) as [[a|e] w']; cbn [fst snd] in *;
    by repeat split.
Qed.

Lemma silent_print (line : string) : silent (lift (print line)).
Proof. by apply silent_lift. Qed.

Lemma silent_load_user_profile (path : string) :
  silent (lift (load_user_profile path)).
Proof.
  apply silent_lift. intros w.
  by destruct (load_user_profile_world path w) as [-> | [line ->]].
Qed.

Lemma silent_load_job_description (path : string) :
  silent (lift (load_job_description path)).
Proof.
  apply silent_lift. intros w.
  by destruct (load_job_description_world path w) as [-> | [line ->]].
Qed.

Lemma silent_save_user_profile (p : UserProfile) (path : string) :
  silent (lift (save_user_profile p path)).
Proof. apply silent_lift. intros w. by rewrite save_user_profile_run. Qed.

Lemma silent_save_job_description (j : JobDescription) (path : string) :
  silent (lift (save_job_description j path)).
Proof. apply silent_lift. intros w. by rewrite save_job_description_run. Qed.

Lemma silent_input_with (f : string → string) (prompt : string) :
  silent (f <$> input prompt).
Proof. apply (silent_console _ (λ _, True)), console_spec_input_with. Qed.

Create HintDb silent.
#[local] Hint Resolve silent_ret silent_print silent_load_user_profile
  silent_load_job_description silent_save_user_profile
  silent_save_job_description silent_input_with : silent.
#[local] Hint Extern 1 (silent gather_user_profile_input) =>
  apply (silent_console _ _ gather_user_profile_input_spec) : silent.
#[local] Hint Extern 1 (silent gather_job_description_input) =>
  apply (silent_console _ _ gather_job_description_input_spec) : silent.
#[local] Hint Extern 2 (silent (_ ≫= _)) =>
  apply silent_bind; [|intros ?] : silent.
#[local] Hint Extern 2 (silent (if _ then _ else _)) =>
  match goal with |- silent (if ?c then _ else _) => destruct c end : silent.


Lemma io_run_lift {A : Type} (m : M A) (w : world) (inp ps : list string)
    (wr : list (string * string)) (j : string → file) :
  lift m (Terminal w inp ps wr j) =
    match m w with
    | (Ok a, w') => (Done a, Terminal w' inp ps wr j)
    | (Raise e, w') => (Failed (Raised e), Terminal w' inp ps wr j)
    end.
Proof. unfold lift. cbn [world_of]. by destruct (m w) as [[a|e] w']. Qed.

Lemma io_run_save_document (content path : string) (w : world)
    (inp ps : list string) (wr : list (string * string)) (j : string → file) :
  save_document_to_file content path (Terminal w inp ps wr j) =
    (Done tt,
     Terminal
       (set_stdout (stdout w ++ ["[INFO] Document saved to '" +:+ path +:+ "'."])
          (set_fs (<[path := j content]> (fs w)) w))
       inp ps (wr ++ [(path, content)]) j).
Proof. reflexivity. Qed.

Lemma output_filenames_resume (resume cover : string) (w : world) :
  getitem (list_to_map [("resume", resume); ("cover_letter", cover)]) "resume" w
  = (Ok resume, w).
Proof. by apply getitem_lookup. Qed.

Lemma output_filenames_cover_letter (resume cover : string) (w : world) :
  getitem (list_to_map [("resume", resume); ("cover_letter", cover)])
    "cover_letter" w
  = (Ok cover, w).
Proof. by apply getitem_lookup. Qed.

(** Steps 3 to 5 of [main], from the two generated texts on. *)
Lemma main_write_documents (tailored_resume cover_letter : string) (w : world)
    (inp ps : list string) (wr : list (string * string)) (j : string → file) :
  ∃ w',
    (filenames ← lift (create_output_filenames "job_app");
     resume_name ← lift (getitem filenames "resume");
     save_document_to_file tailored_resume resume_name;;
     cover_name ← lift (getitem filenames "cover_letter");
     save_document_to_file cover_letter cover_name;;
     lift (print (LF +:+ "[SUCCESS] Your tailored resume and cover letter have been generated and saved."));;
     resume_name ← lift (getitem filenames "resume");
     lift (print ("Resume: " +:+ resume_name));;
     cover_name ← lift (getitem filenames "cover_letter");
     lift (print ("Cover Letter: " +:+ cover_name)))
      (Terminal w inp ps wr j)
    = (Done tt,
       Terminal w' inp ps
         (wr ++ [("job_app" +:+ "_resume_" +:+ strftime_Ymd_HMS (clock w)
                  +:+ ".txt", tailored_resume);
                 ("job_app" +:+ "_cover_letter_" +:+ strftime_Ymd_HMS (clock w)
                  +:+ ".txt", cover_letter)]) j) ∧
    api_key w' = api_key w ∧ calls w' = calls w ∧ clock w' = clock w ∧
    remote w' = remote w ∧ environ w' = environ w ∧
    ∀ path, path ≠ "job_app" +:+ "_resume_" +:+ strftime_Ymd_HMS (clock w)
                   +:+ ".txt" →
            path ≠ "job_app" +:+ "_cover_letter_"
                   +:+ strftime_Ymd_HMS (clock w) +:+ ".txt" →
            fs w' !! path = fs w !! path.
Proof.
  eexists. split.
  - rewrite io_run_bind, io_run_lift, create_output_filenames_run.
    rewrite io_run_bind, io_run_lift, output_filenames_resume.
    rewrite io_run_bind, io_run_save_document.
    rewrite io_run_bind, io_run_lift, output_filenames_cover_letter.
    rewrite io_run_bind, io_run_save_document.
    io_print.
    rewrite io_run_bind, io_run_lift, output_filenames_resume.
    io_print.
    rewrite io_run_bind, io_run_lift, output_filenames_cover_letter.
    rewrite io_run_print. rewrite <- app_assoc. reflexivity.
  - repeat split. intros path Hr Hc. cbn [fs set_stdout set_fs].
    by rewrite !lookup_insert_ne.
Qed.




Lemma build_base_resume_text_run (user : UserProfile) (w : world) :
  well_keyed user = true →
  build_base_resume_text user w = (Ok (join LF (base_resume_lines user)), w).
Proof.
  intros [Hexps Hedus]%andb_prop. unfold build_base_resume_text.
  rewrite run_bind, skills_loop_run.
  rewrite run_bind, experience_loop_run by done.
  rewrite run_bind, education_loop_run by done.
  rewrite run_ret. unfold base_resume_lines. cbn [app].
  by rewrite <- !app_assoc.
Qed.

(** X18.  A full run that loads both records.  When [l] is typed twice
    (in any case, blanks around), the two default files hold a saved
    profile whose entries have their keys and a saved job description,
    a credential is configured and the endpoint answers each request
    with at least one choice, [main] ends normally, reads these two
    lines only, sends exactly two requests, the resume's before the
    cover letter's, and writes exactly two documents: the resume file
    with the first answer stripped, then the cover-letter file with the
    second. *)
Theorem main_loads_and_generates (t : terminal) (answer1 answer2 : string)
    (rest : list string) (p : UserProfile) (j : JobDescription)
    (key : string) (first_r first_c : choice) (rest_r rest_c : list choice) :
  stdin t = answer1 :: answer2 :: rest →
  lower (strip answer1) = "l" → lower (strip answer2) = "l" →
  fs (world_of t) !! DEFAULT_USER_PROFILE_FILE =
    Some (Parses (UserProfile_to_dict p)) →
  fs (world_of t) !! DEFAULT_JOB_DESCRIPTION_FILE =
    Some (Parses (JobDescription_to_dict j)) →
  api_key (world_of t) = Some key → key ≠ "" →
  well_keyed p = true →
  let resume_request :=
    chat_request
      (tailored_resume_prompt JakesResumeFormatter.get_format_instructions
         (join LF (base_resume_lines p)) j) in
  let cover_request := chat_request (cover_letter_prompt p j) in
  remote (world_of t) resume_request = Ok (Response (first_r :: rest_r)) →
  remote (world_of t) cover_request = Ok (Response (first_c :: rest_c)) →
  (main t).1 = Done tt ∧
  stdin (main t).2 = rest ∧
  calls (world_of (main t).2) =
    calls (world_of t) ++ [resume_request; cover_request] ∧
  written (main t).2 =
    written t ++
    [(resume_document_name t, strip (content (message first_r)));
     (cover_letter_document_name t, strip (content (message first_c)))].
Proof.
  intros Hin Hl1 Hl2 Hprofile Hjob Hkey Hne Hkeys resume_request cover_request
    Hr Hc.
  destruct t as [w inp ps wr jt]. cbn [stdin world_of written] in *. subst inp.
  assert (Htruthy : opt_truthy (api_key w) = true).
  { rewrite Hkey. by apply opt_truthy_Some. }
  pose proof (well_keyed_experiences p Hkeys) as Hexps.
  enough (∃ w' ps',
    main (Terminal w (answer1 :: answer2 :: rest) ps wr jt) =
      (Done tt,
       Terminal w' rest ps'
         (wr ++ [("job_app" +:+ "_resume_" +:+ strftime_Ymd_HMS (clock w)
                  +:+ ".txt", strip (content (message first_r)));
                 ("job_app" +:+ "_cover_letter_" +:+ strftime_Ymd_HMS (clock w)
                  +:+ ".txt", strip (content (message first_c)))]) jt) ∧
    calls w' = calls w ++ [resume_request; cover_request])
    as (w' & ps' & -> & Hcalls); [done|].
  unfold main.
  do 4 io_print. io_input. rewrite Hl1.
  change (String.eqb "l" "l") with true. cbv iota.
  rewrite io_run_bind. io_print.
  rewrite io_run_lift,
    (load_user_profile_parses _ (UserProfile_to_dict p)) by exact Hprofile.
  rewrite UserProfile_from_dict_to_dict.
  io_print. io_input. rewrite Hl2.
  change (String.eqb "l" "l") with true. cbv iota.
  rewrite io_run_bind. io_print.
  rewrite io_run_lift,
    (load_job_description_parses _ (JobDescription_to_dict j)) by exact Hjob.
  rewrite JobDescription_from_dict_to_dict.
  io_print.
  rewrite io_run_bind, io_run_lift.
  rewrite (generate_tailored_resume_run p j (join LF (base_resume_lines p)))
    by (exact Htruthy || by apply build_base_resume_text_run).
  cbn zeta. cbn [remote set_stdout]. fold resume_request. rewrite Hr. cbn [choices].
  io_print.
  rewrite io_run_bind, io_run_lift.
  rewrite generate_cover_letter_run by (exact Htruthy || exact Hexps).
  cbn zeta. cbn [remote set_stdout set_calls]. fold cover_request. rewrite Hc. cbn [choices].
  match goal with
  | |- context [Terminal ?w0 rest ?ps0 wr jt] =>
      destruct (main_write_documents (strip (content (message first_r)))
                  (strip (content (message first_c))) w0 rest ps0 wr jt)
        as (w' & -> & _ & Hcalls' & _)
  end.
  exists w'. eexists. split; [reflexivity|].
  rewrite Hcalls'. cbn [calls set_stdout set_calls].
  by rewrite <- app_assoc.
Qed.

(** X18 on the sample world after both records were saved, with a
    credential: [l] twice, a third line left unread, two requests and
    two documents holding the endpoint's answer without its blanks. *)
Lemma main_loads_and_generates_witness :
  (main sample_terminal_saved).1 = Done tt ∧
  stdin (main sample_terminal_saved).2 = ["left over"] ∧
  calls (world_of (main sample_terminal_saved).2) =
    [chat_request
       (tailored_resume_prompt JakesResumeFormatter.get_format_instructions
          (join LF (base_resume_lines sample_user)) sample_job);
     chat_request (cover_letter_prompt sample_user sample_job)] ∧
  written (main sample_terminal_saved).2 =
    [("job_app_resume_20240309_140507.txt", "Dear Hiring Manager,");
     ("job_app_cover_letter_20240309_140507.txt", "Dear Hiring Manager,")].
Proof.
  destruct (main_loads_and_generates sample_terminal_saved "l" "l"
              ["left over"] sample_user sample_job "sk-sample"
              (Choice (ChatMessage "assistant" (" Dear Hiring Manager," +:+ LF)))
              (Choice (ChatMessage "assistant" (" Dear Hiring Manager," +:+ LF)))
              [] [])
    as (Hdone & Hin & Hcalls & Hwritten);
    [reflexivity | reflexivity | reflexivity | vm_compute; reflexivity
    | vm_compute; reflexivity | reflexivity | discriminate
    | vm_compute; reflexivity | reflexivity | reflexivity |].
  split; [exact Hdone|]. split; [exact Hin|].
  split; [exact Hcalls | exact Hwritten].
Defined.

(** X19.  A failure of the endpoint ends the run.  In a run that loads
    both records with a credential configured, when the endpoint raises
    on the resume request, or answers it and raises on the cover-letter
    request, [main] fails with that exception: nothing catches it, no
    document is written (an answer already received for the resume is
    dropped) and no file is touched. *)
Theorem main_aborts_on_endpoint_failure (t : terminal)
    (answer1 answer2 : string) (rest : list string) (p : UserProfile)
    (j : JobDescription) (key : string) (e : exn) :
  stdin t = answer1 :: answer2 :: rest →
  lower (strip answer1) = "l" → lower (strip answer2) = "l" →
  fs (world_of t) !! DEFAULT_USER_PROFILE_FILE =
    Some (Parses (UserProfile_to_dict p)) →
  fs (world_of t) !! DEFAULT_JOB_DESCRIPTION_FILE =
    Some (Parses (JobDescription_to_dict j)) →
  api_key (world_of t) = Some key → key ≠ "" →
  well_keyed p = true →
  let resume_request :=
    chat_request
      (tailored_resume_prompt JakesResumeFormatter.get_format_instructions
         (join LF (base_resume_lines p)) j) in
  let cover_request := chat_request (cover_letter_prompt p j) in
  remote (world_of t) resume_request = Raise e ∨
  (∃ first_r rest_r,
     remote (world_of t) resume_request = Ok (Response (first_r :: rest_r)) ∧
     remote (world_of t) cover_request = Raise e) →
  (main t).1 = Failed (Raised e) ∧
  written (main t).2 = written t ∧
  fs (world_of (main t).2) = fs (world_of t).
Proof.
  intros Hin Hl1 Hl2 Hprofile Hjob Hkey Hne Hkeys resume_request cover_request
    Hfail.
  destruct t as [w inp ps wr jt]. cbn [stdin world_of written] in *. subst inp.
  assert (Htruthy : opt_truthy (api_key w) = true).
  { rewrite Hkey. by apply opt_truthy_Some. }
  pose proof (well_keyed_experiences p Hkeys) as Hexps.
  enough (∃ w' inp' ps',
    main (Terminal w (answer1 :: answer2 :: rest) ps wr jt) =
      (Failed (Raised e), Terminal w' inp' ps' wr jt) ∧ fs w' = fs w)
    as (w' & inp' & ps' & -> & Hfs); [done|].
  unfold main.
  do 4 io_print. io_input. rewrite Hl1.
  change (String.eqb "l" "l") with true. cbv iota.
  rewrite io_run_bind. io_print.
  rewrite io_run_lift,
    (load_user_profile_parses _ (UserProfile_to_dict p)) by exact Hprofile.
  rewrite UserProfile_from_dict_to_dict.
  io_print. io_input. rewrite Hl2.
  change (String.eqb "l" "l") with true. cbv iota.
  rewrite io_run_bind. io_print.
  rewrite io_run_lift,
    (load_job_description_parses _ (JobDescription_to_dict j)) by exact Hjob.
  rewrite JobDescription_from_dict_to_dict.
  io_print.
  rewrite io_run_bind, io_run_lift.
  rewrite (generate_tailored_resume_run p j (join LF (base_resume_lines p)))
    by (exact Htruthy || by apply build_base_resume_text_run).
  cbn zeta. cbn [remote set_stdout]. fold resume_request.
  destruct Hfail as [Hr|(first_r & rest_r & Hr & Hc)]; rewrite Hr.
  - by do 3 eexists.
  - cbn [choices]. io_print.
    rewrite io_run_bind, io_run_lift.
    rewrite generate_cover_letter_run by (exact Htruthy || exact Hexps).
    cbn zeta. cbn [remote set_stdout set_calls]. fold cover_request.
    rewrite Hc. by do 3 eexists.
Qed.

(** X19 where the endpoint times out on the first request. *)
Lemma main_aborts_on_endpoint_failure_witness :
  (main sample_terminal_down).1 = Failed (Raised (RemoteError "timeout")) ∧
  written (main sample_terminal_down).2 = [] ∧
  fs (world_of (main sample_terminal_down).2) = fs sample_world_saved.
Proof.
  apply (main_aborts_on_endpoint_failure sample_terminal_down "l" "l" []
           sample_user sample_job "sk-sample" (RemoteError "timeout"));
    [reflexivity | reflexivity | reflexivity | vm_compute; reflexivity
    | vm_compute; reflexivity | reflexivity | discriminate
    | vm_compute; reflexivity | left; reflexivity].
Defined.

(** ** What the generators leave alone *)

Lemma set_calls_same (w : world) : set_calls (calls w ++ []) w = w.
Proof. rewrite app_nil_r. by destruct w. Qed.

Lemma generate_tailored_resume_frame (user : UserProfile)
    (job : JobDescription) (w : world) :
  ∃ sent, length sent ≤ 1 ∧
    (generate_tailored_resume user job w).2 = set_calls (calls w ++ sent) w.
Proof.
  unfold generate_tailored_resume, get_api_key. rewrite run_bind.
  destruct (negb (opt_truthy (api_key w))).
  { exists []. split; [cbn; lia|]. by rewrite run_ret, set_calls_same. }
  rewrite run_bind.
  destruct (build_base_resume_text_state_free user) as [[text|e] Hbase];
    rewrite Hbase.
  - cbn zeta. rewrite run_bind. unfold ChatCompletion_create.
    eexists [_]. split; [cbn; lia|].
    destruct (remote w _) as [[[|first rest]]|e]; reflexivity.
  - exists []. split; [cbn; lia|]. by rewrite set_calls_same.
Qed.

Lemma generate_cover_letter_frame (user : UserProfile)
    (job : JobDescription) (w : world) :
  ∃ sent, length sent ≤ 1 ∧
    (generate_cover_letter user job w).2 = set_calls (calls w ++ sent) w.
Proof.
  unfold generate_cover_letter, get_api_key. rewrite run_bind.
  destruct (negb (opt_truthy (api_key w))).
  { exists []. split; [cbn; lia|]. by rewrite run_ret, set_calls_same. }
  cbn zeta. rewrite run_bind.
  match goal with
  | |- context [for_each ?l ?body ?s0 w] =>
      assert (Hfree : state_free (for_each l body s0))
  end.
  { apply state_free_for_each. intros [idx exp] prompt.
    repeat (apply state_free_bind; [apply state_free_getitem|intros ?]).
    apply state_free_ret. }
  destruct Hfree as [[prompt|e] Hloop]; rewrite Hloop.
  - rewrite run_bind. unfold ChatCompletion_create.
    eexists [_]. split; [cbn; lia|].
    destruct (remote w _) as [[[|first rest]]|e]; reflexivity.
  - exists []. split; [cbn; lia|]. by rewrite set_calls_same.
Qed.

(** X20.  The generators touch nothing but the list of requests sent,
    and send at most one request each: whatever the profile, the job
    description, the credential and the endpoint's answer, the files,
    the console, the credential and the clock are as before. *)
Theorem generators_only_send (user : UserProfile) (job : JobDescription)
    (w : world) :
  (∃ sent, length sent ≤ 1 ∧
     (generate_tailored_resume user job w).2 = set_calls (calls w ++ sent) w) ∧
  (∃ sent, length sent ≤ 1 ∧
     (generate_cover_letter user job w).2 = set_calls (calls w ++ sent) w).
Proof.
  split; [apply generate_tailored_resume_frame
         | apply generate_cover_letter_frame].
Qed.

(** ** What a run leaves in the default files *)

Lemma same_file_refl (path : string) (t : terminal) : same_file path t t.
Proof. done. Qed.

Lemma same_file_trans (path : string) (t1 t2 t3 : terminal) :
  same_file path t1 t2 → same_file path t2 t3 → same_file path t1 t3.
Proof. unfold same_file. congruence. Qed.

Lemma keeps_file_ret {A : Type} (path : string) (a : A) :
  keeps_file path (mret a : IO A).
Proof. intros t. apply same_file_refl. Qed.

Lemma keeps_file_bind {A B : Type} (path : string) (m : IO A) (f : A → IO B) :
  keeps_file path m → (∀ a, keeps_file path (f a)) → keeps_file path (m ≫= f).
Proof.
  intros Hm Hf t. rewrite io_run_bind. pose proof (Hm t) as H1.
  destruct (m t) as [[a|e] t1]; cbn [snd] in *; [|done].
  by apply (same_file_trans path t t1), Hf.
Qed.

Lemma keeps_file_console {A : Type} (path : string) (m : IO A)
    (P : A → Prop) :
  console_spec m P → keeps_file path m.
Proof.
  intros Hm t. destruct (Hm t) as ((_ & Hfs & _) & _).
  unfold same_file. by rewrite Hfs.
Qed.

Lemma keeps_file_lift {A : Type} (path : string) (m : M A) :
  (∀ w, fs (m w).2 !! path = fs w !! path) → keeps_file path (lift m).
Proof.
  intros Hm t. unfold lift, same_file. pose proof (Hm (world_of t)) as H1.
  by destruct (m (world_of t)) as [[a|e] w'].
Qed.

Lemma keeps_file_print (path line : string) :
  keeps_file path (lift (print line)).
Proof. by apply keeps_file_lift. Qed.

Lemma keeps_file_input_with (path : string) (f : string → string)
    (prompt : string) :
  keeps_file path (f <$> input prompt).
Proof. apply (keeps_file_console _ _ (λ _, True)), console_spec_input_with. Qed.

Lemma keeps_file_load_user_profile (path from : string) :
  keeps_file path (lift (load_user_profile from)).
Proof.
  apply keeps_file_lift. intros w.
  by destruct (load_user_profile_world from w) as [-> | [line ->]].
Qed.

Lemma keeps_file_load_job_description (path from : string) :
  keeps_file path (lift (load_job_description from)).
Proof.
  apply keeps_file_lift. intros w.
  by destruct (load_job_description_world from w) as [-> | [line ->]].
Qed.

Lemma keeps_file_save_user_profile (path to : string) (p : UserProfile) :
  to ≠ path → keeps_file path (lift (save_user_profile p to)).
Proof.
  intros Hne. apply keeps_file_lift. intros w.
  rewrite save_user_profile_run. cbn [snd fs set_stdout set_fs].
  by rewrite lookup_insert_ne.
Qed.

Lemma keeps_file_save_job_description (path to : string)
    (j : JobDescription) :
  to ≠ path → keeps_file path (lift (save_job_description j to)).
Proof.
  intros Hne. apply keeps_file_lift. intros w.
  rewrite save_job_description_run. cbn [snd fs set_stdout set_fs].
  by rewrite lookup_insert_ne.
Qed.

Lemma keeps_file_generate_tailored_resume (path : string) (p : UserProfile)
    (j : JobDescription) :
  keeps_file path (lift (generate_tailored_resume p j)).
Proof.
  apply keeps_file_lift. intros w.
  by destruct (generate_tailored_resume_frame p j w) as (sent & _ & ->).
Qed.

Lemma keeps_file_generate_cover_letter (path : string) (p : UserProfile)
    (j : JobDescription) :
  keeps_file path (lift (generate_cover_letter p j)).
Proof.
  apply keeps_file_lift. intros w.
  by destruct (generate_cover_letter_frame p j w) as (sent & _ & ->).
Qed.

Create HintDb keeps.
#[local] Hint Resolve keeps_file_ret keeps_file_print keeps_file_input_with
  keeps_file_load_user_profile keeps_file_load_job_description
  keeps_file_generate_tailored_resume keeps_file_generate_cover_letter : keeps.
#[local] Hint Extern 1 (keeps_file _ (lift (save_user_profile _ _))) =>
  apply keeps_file_save_user_profile; discriminate : keeps.
#[local] Hint Extern 1 (keeps_file _ (lift (save_job_description _ _))) =>
  apply keeps_file_save_job_description; discriminate : keeps.
#[local] Hint Extern 1 (keeps_file _ gather_user_profile_input) =>
  apply (keeps_file_console _ _ _ gather_user_profile_input_spec) : keeps.
#[local] Hint Extern 1 (keeps_file _ gather_job_description_input) =>
  apply (keeps_file_console _ _ _ gather_job_description_input_spec) : keeps.
#[local] Hint Extern 2 (keeps_file _ (_ ≫= _)) =>
  apply keeps_file_bind; [|intros ?] : keeps.
#[local] Hint Extern 2 (keeps_file _ (if _ then _ else _)) =>
  match goal with |- keeps_file _ (if ?c then _ else _) => destruct c end
  : keeps.

(** The rule for a first step that keeps the file. *)
Lemma wp_bind_keeps {A B : Type} (path : string) (m : IO A) (f : A → IO B)
    (Q : outcome B → terminal → Prop) (t0 t : terminal) :
  keeps_file path m → same_file path t0 t →
  (∀ e t1, Q (Failed e) t1) →
  (∀ a t1, same_file path t0 t1 → wp (f a) Q t1) →
  wp (m ≫= f) Q t.
Proof.
  intros Hm Ht Hfail Hf. unfold wp. rewrite io_run_bind.
  pose proof (Hm t) as H1.
  destruct (m t) as [[a|e] t1]; cbn [snd] in H1; [|apply Hfail].
  apply Hf. by apply (same_file_trans path t0 t).
Qed.

Ltac keep_step path t0 :=
  apply (wp_bind_keeps path _ _ _ t0);
    [ auto 20 with keeps
    | first [ assumption | apply same_file_refl ]
    | intros ? ?; cbn [fst snd]; discriminate
    | let a := fresh "a" in
      let tn := fresh "tn" in
      let Hn := fresh "Hn" in
      intros a tn Hn;
      repeat match goal with
             | H : same_file path t0 ?x |- _ =>
                 lazymatch x with
                 | tn => fail
                 | _ => clear H
                 end
             end ].

(** The documents are never written over a default file. *)
Lemma document_names_not_default (stamp path : string) :
  path = DEFAULT_USER_PROFILE_FILE ∨ path = DEFAULT_JOB_DESCRIPTION_FILE →
  path ≠ "job_app" +:+ "_resume_" +:+ stamp +:+ ".txt" ∧
  path ≠ "job_app" +:+ "_cover_letter_" +:+ stamp +:+ ".txt".
Proof. intros [-> | ->]; split; discriminate. Qed.

(** X21.  What is typed is what the next run loads.  In a run where
    the first answer is not [l] and that ends normally, the default
    profile file holds, at the end, the profile that was typed: no later
    step (the job description's file, the generators, the two documents)
    writes over it, and [load_user_profile] on that file returns the
    profile, whose entries have every key the generators read. *)
Theorem main_create_saves_profile (t : terminal) (answer : string)
    (rest : list string) :
  stdin t = answer :: rest → lower (strip answer) ≠ "l" →
  (main t).1 = Done tt →
  ∃ p, gathered_profile p ∧
       fs (world_of (main t).2) !! DEFAULT_USER_PROFILE_FILE =
         Some (Parses (UserProfile_to_dict p)) ∧
       (load_user_profile DEFAULT_USER_PROFILE_FILE (world_of (main t).2)).1 =
         Ok p.
Proof.
  intros Hin Hne.
  destruct t as [w inp ps wr jt]. cbn [stdin] in Hin. subst inp.
  apply String.eqb_neq in Hne.
  unfold main.
  do 4 io_print. io_input. rewrite Hne.
  rewrite io_run_bind, io_run_bind.
  match goal with
  | |- context [gather_user_profile_input ?t1] =>
      destruct (gather_user_profile_input_spec t1) as (_ & _ & Hres);
      destruct (gather_user_profile_input t1) as [[p|e] [w2 inp2 ps2 wr2 j2]]
  end; [|discriminate].
  cbn [fst] in Hres.
  rewrite io_run_bind, io_run_lift, save_user_profile_run, io_run_ret.
  intros Hdone. exists p. split; [exact Hres|].
  match type of Hdone with
  | (?K ?T).1 = _ =>
      enough (Hfile : wp K (λ r t',
        r = Done tt →
        fs (world_of t') !! DEFAULT_USER_PROFILE_FILE =
          Some (Parses (UserProfile_to_dict p))) T)
  end.
  { specialize (Hfile Hdone). split; [exact Hfile|].
    rewrite (load_user_profile_parses _ (UserProfile_to_dict p)) by exact Hfile.
    by rewrite UserProfile_from_dict_to_dict. }
  clear Hdone.
  match goal with |- wp _ _ ?T => set (t3 := T) end.
  assert (Hsaved : fs (world_of t3) !! DEFAULT_USER_PROFILE_FILE =
                   Some (Parses (UserProfile_to_dict p))).
  { subst t3. cbn [world_of fs set_stdout set_fs]. apply lookup_insert_eq. }
  clearbody t3.
  do 7 keep_step DEFAULT_USER_PROFILE_FILE t3.
  match goal with
  | H : same_file _ t3 ?x |- _ =>
      destruct x as [w4 inp4 ps4 wr4 j4]; unfold same_file in H;
      cbn [world_of] in H; rename H into Hkept
  end.
  match goal with
  | |- wp _ _ _ =>
      destruct (main_write_documents a3 a5 w4 inp4 ps4 wr4 j4)
        as (w' & Hrun & _ & _ & _ & _ & _ & Hframe)
  end.
  unfold wp. rewrite Hrun. cbn [fst snd world_of]. intros _.
  destruct (document_names_not_default (strftime_Ymd_HMS (clock w4))
              DEFAULT_USER_PROFILE_FILE) as [Hr Hc]; [by left|].
  by rewrite (Hframe _ Hr Hc), Hkept.
Qed.

(** X21 on a first run where the sample profile is typed. *)
Lemma main_create_saves_profile_witness :
  ∃ p, gathered_profile p ∧
       fs (world_of (main sample_terminal_create).2) !! DEFAULT_USER_PROFILE_FILE =
         Some (Parses (UserProfile_to_dict p)) ∧
       (load_user_profile DEFAULT_USER_PROFILE_FILE
          (world_of (main sample_terminal_create).2)).1 = Ok p.
Proof.
  apply (main_create_saves_profile sample_terminal_create "c"
           (sample_profile_script ++ ["l"]));
    [reflexivity | discriminate | vm_compute; reflexivity].
Defined.

(** X22.  The same for the job description.  In a run that loads the
    profile, answers the second question with anything but [l] and ends
    normally, the default job file holds, at the end, the job
    description that was typed, with its notes present and stripped,
    and [load_job_description] on that file returns it. *)
Theorem main_create_saves_job (t : terminal) (answer1 answer2 : string)
    (rest : list string) :
  stdin t = answer1 :: answer2 :: rest →
  lower (strip answer1) = "l" → lower (strip answer2) ≠ "l" →
  (main t).1 = Done tt →
  ∃ j, gathered_job j ∧
       fs (world_of (main t).2) !! DEFAULT_JOB_DESCRIPTION_FILE =
         Some (Parses (JobDescription_to_dict j)) ∧
       (load_job_description DEFAULT_JOB_DESCRIPTION_FILE
          (world_of (main t).2)).1 = Ok j.
Proof.
  intros Hin Hl Hne.
  destruct t as [w inp ps wr jt]. cbn [stdin] in Hin. subst inp.
  apply String.eqb_neq in Hne.
  unfold main.
  do 4 io_print. io_input. rewrite Hl.
  change (String.eqb "l" "l") with true. cbv iota.
  rewrite io_run_bind. io_print. rewrite io_run_lift.
  match goal with
  | |- context [load_user_profile ?path ?w1] =>
      destruct (load_user_profile path w1) as [[p|e] w2]
  end; [|discriminate].
  io_print. io_input. rewrite Hne.
  rewrite io_run_bind, io_run_bind.
  match goal with
  | |- context [gather_job_description_input ?t1] =>
      destruct (gather_job_description_input_spec t1) as (_ & _ & Hres);
      destruct (gather_job_description_input t1)
        as [[j|e] [w3 inp3 ps3 wr3 j3]]
  end; [|discriminate].
  cbn [fst] in Hres.
  rewrite io_run_bind, io_run_lift, save_job_description_run, io_run_ret.
  intros Hdone. exists j. split; [exact Hres|].
  match type of Hdone with
  | (?K ?T).1 = _ =>
      enough (Hfile : wp K (λ r t',
        r = Done tt →
        fs (world_of t') !! DEFAULT_JOB_DESCRIPTION_FILE =
          Some (Parses (JobDescription_to_dict j))) T)
  end.
  { specialize (Hfile Hdone). split; [exact Hfile|].
    rewrite (load_job_description_parses _ (JobDescription_to_dict j))
      by exact Hfile.
    by rewrite JobDescription_from_dict_to_dict. }
  clear Hdone.
  match goal with |- wp _ _ ?T => set (t4 := T) end.
  assert (Hsaved : fs (world_of t4) !! DEFAULT_JOB_DESCRIPTION_FILE =
                   Some (Parses (JobDescription_to_dict j))).
  { subst t4. cbn [world_of fs set_stdout set_fs]. apply lookup_insert_eq. }
  clearbody t4.
  do 4 keep_step DEFAULT_JOB_DESCRIPTION_FILE t4.
  match goal with
  | H : same_file _ t4 ?x |- _ =>
      destruct x as [w5 inp5 ps5 wr5 j5]; unfold same_file in H;
      cbn [world_of] in H; rename H into Hkept
  end.
  match goal with
  | |- wp _ _ _ =>
      destruct (main_write_documents a0 a2 w5 inp5 ps5 wr5 j5)
        as (w' & Hrun & _ & _ & _ & _ & _ & Hframe)
  end.
  unfold wp. rewrite Hrun. cbn [fst snd world_of]. intros _.
  destruct (document_names_not_default (strftime_Ymd_HMS (clock w5))
              DEFAULT_JOB_DESCRIPTION_FILE) as [Hr Hc]; [by right|].
  by rewrite (Hframe _ Hr Hc), Hkept.
Qed.

(** X22 on a run where the sample job description is typed. *)
Lemma main_create_saves_job_witness :
  ∃ j, gathered_job j ∧
       fs (world_of (main sample_terminal_create_job).2)
         !! DEFAULT_JOB_DESCRIPTION_FILE =
         Some (Parses (JobDescription_to_dict j)) ∧
       (load_job_description DEFAULT_JOB_DESCRIPTION_FILE
          (world_of (main sample_terminal_create_job).2)).1 = Ok j.
Proof.
  apply (main_create_saves_job sample_terminal_create_job "l" "C"
           sample_job_script);
    [reflexivity | reflexivity | discriminate | vm_compute; reflexivity].
Defined.

(** X12 on two skills: printed with a comma and a blank, they parse
    back. *)
Lemma parse_skills_round_trip_witness :
  parse_skills (join ", " ["Python"; "Data Analysis"]) =
    ["Python"; "Data Analysis"].
Proof.
  destruct (parse_skills_round_trip "" ["Python"; "Data Analysis"])
    as (_ & _ & Hback).
  apply Hback. by repeat constructor.
Defined.
